(** * permit-cli: the environment-export pipeline

    A shallow embedding of the export code of permit-cli
    ([source/commands/env/export.tsx] and the generator classes under
    [source/commands/env/export/generators]) together with the properties
    its specification states about it.

    Conventions of the embedding.
    - A JavaScript string is a [string]; one [ascii] stands for one UTF-16
      code unit below 256.
    - A field that the TypeScript declarations mark optional, or that the
      code tests for presence, is an [option]; [None] is [undefined].
    - A JavaScript object read through [Object.entries] is the list of its
      entries; a [Map] that is iterated is an association list in insertion
      order; a [Map], [Set] or object that is only looked up is a [gmap] or
      a [gset].
    - A rejected promise or a [throw] is the [Rejected] or [Thrown]
      outcome of the small monads below. *)

From stdpp Require Import gmap strings list.
From Stdlib Require Import Ascii String NArith.

Local Open Scope string_scope.

(** ** JavaScript primitives used by the exporters *)

Module Js.

(** Truthiness of a string: only the empty string is falsy. *)
Definition truthy (s : string) : bool :=
  match s with EmptyString => false | String _ _ => true end.

(** Truthiness of a possibly undefined string. *)
Definition truthy_opt (o : option string) : bool :=
  match o with Some s => truthy s | None => false end.

(** [x || ''] for a possibly undefined string. *)
Definition or_empty (o : option string) : string :=
  match o with Some s => if truthy s then s else "" | None => "" end.

(** [x || d] for a possibly undefined string. *)
Definition or_else (o : option string) (d : string) : string :=
  match o with Some s => if truthy s then s else d | None => d end.

Fixpoint map_chars (f : ascii -> ascii) (s : string) : string :=
  match s with
  | EmptyString => EmptyString
  | String c r => String (f c) (map_chars f r)
  end.

Fixpoint all_chars (p : ascii -> bool) (s : string) : bool :=
  match s with
  | EmptyString => true
  | String c r => p c && all_chars p r
  end.

Definition in_range (lo hi : N) (c : ascii) : bool :=
  (lo <=? N_of_ascii c)%N && (N_of_ascii c <=? hi)%N.

Definition is_digit (c : ascii) : bool := in_range 48 57 c.
Definition is_upper (c : ascii) : bool := in_range 65 90 c.
Definition is_lower (c : ascii) : bool := in_range 97 122 c.
Definition is_underscore (c : ascii) : bool := (N_of_ascii c =? 95)%N.

(** The character class [[a-zA-Z0-9_]]. *)
Definition is_ident_char (c : ascii) : bool :=
  is_lower c || is_upper c || is_digit c || is_underscore c.

(** The character class [[a-z0-9_]]. *)
Definition is_lower_ident_char (c : ascii) : bool :=
  is_lower c || is_digit c || is_underscore c.

(** [s.replace(/[^a-zA-Z0-9_]/g, '_')] *)
Definition replace_non_ident (s : string) : string :=
  map_chars (fun c => if is_ident_char c then c else "_"%char) s.

(** [s.replace(/[^a-z0-9_]/g, '_')] *)
Definition replace_non_lower_ident (s : string) : string :=
  map_chars (fun c => if is_lower_ident_char c then c else "_"%char) s.

(** The Latin-1 upper-case letters besides A-Z: U+00C0 to U+00DE without
    the multiplication sign U+00D7. *)
Definition is_latin1_upper (c : ascii) : bool :=
  in_range 192 222 c && negb (N_of_ascii c =? 215)%N.

Definition lower_char (c : ascii) : ascii :=
  if is_upper c || is_latin1_upper c
  then ascii_of_N (N_of_ascii c + 32)
  else c.

(** [s.toLowerCase()] on a string of code units below 256, where it maps
    the code units one by one and keeps the length. (Beyond that range,
    which the embedding does not cover, JavaScript's [toLowerCase] can
    lengthen a string: U+0130 gives two code units.) *)
Definition toLowerCase (s : string) : string := map_chars lower_char s.

(** [s.startsWith(p)] *)
Definition startsWith (s p : string) : bool := String.prefix p s.

(** [s.includes(sub)] *)
Fixpoint includes (s sub : string) : bool :=
  String.prefix sub s ||
  match s with
  | EmptyString => false
  | String _ r => includes r sub
  end.

(** [parts.join(sep)] *)
Definition join (sep : string) (parts : list string) : string :=
  String.concat sep parts.

(** Test of the regular expression [^[A-Za-z0-9_]*$]. *)
Definition matches_identifier (s : string) : bool := all_chars is_ident_char s.

End Js.

(** ** The identifier sanitizer ([createSafeId] of export.tsx, imported by
    the generators from [../utils.js]) *)

(** [parts.map(part => (part || '').replace(/[^a-zA-Z0-9_]/g, '_'))
         .filter(Boolean).join('_')] *)
Definition createSafeId (parts : list string) : string :=
  Js.join "_"
    (List.filter Js.truthy
       (List.map (fun part => Js.replace_non_ident (Js.or_empty (Some part)))
          parts)).

(** ** Text pieces of the HCL templates *)

(** The double quote and the line feed. *)
Definition dq : string := String (ascii_of_N 34) EmptyString.
Definition nl : string := String (ascii_of_N 10) EmptyString.

(** ["${s}"] *)
Definition quoted (s : string) : string := dq +:+ s +:+ dq.

(** [cond ? `\n<indent><label> = "${value}"` : ''] for an optional field. *)
Definition optional_line (indent label : string) (value : option string) : string :=
  if Js.truthy_opt value
  then nl +:+ indent +:+ label +:+ " = " +:+ quoted (default "" value)
  else "".

(** ** Values thrown by the remote API and by the runtime *)

(** What the handlers read of a thrown value [e]: whether
    [e instanceof Error], [e.message], and [String(e)] (which is what
    [`${e}`] interpolates). *)
Record Exn := {
  instanceof_Error : bool;
  message : string;
  String_of : string;
}.

(** [new Error(msg)]; [String] of it is ["Error"] when the message is
    empty and ["Error: " + msg] otherwise. *)
Definition new_Error (msg : string) : Exn :=
  {| instanceof_Error := true; message := msg;
     String_of := if Js.truthy msg then "Error: " +:+ msg else "Error" |}.

(** The settlement of an awaited promise. *)
Inductive Result (A : Type) : Type :=
| Resolved (a : A)
| Rejected (e : Exn).
Arguments Resolved {A} a.
Arguments Rejected {A} e.

(** An opaque JSON value (the [conditions] of a condition set). *)
#[warnings="-register-all"]
Inductive Json : Type :=
| JNull
| JBool (b : bool)
| JNumber (n : Z)
| JString (s : string)
| JArray (items : list Json)
| JObject (fields : list (string * Json)).

(** ** The monolithic exporter: [exportConfig] of export.tsx *)

Module ExportContent.

(** *** Records read from the remote API *)

Record Scope := {
  environment_id : option string;
  project_id : option string;
  organization_id : option string;
}.

(** The answer of [validateApiKeyScope]; an absent [error] is [null]. *)
Record ScopeResult := {
  valid : bool;
  scope_error : option string;
  scope : option Scope;
}.

Record Action := {
  action_name : string;
  action_description : option string;
}.

Record Attribute := {
  attribute_type : string;
  attribute_description : option string;
}.

Record Resource := {
  resource_key : string;
  resource_name : string;
  resource_description : option string;
  resource_urn : option string;
  resource_actions : list (string * Action);
  resource_attributes : option (list (string * Attribute));
}.

Record Relation := {
  relation_key : string;
  relation_name : string;
  relation_object_resource : string;
  relation_description : option string;
}.

Record Role := {
  role_key : string;
  role_name : string;
  role_description : option string;
  role_permissions : option (list string);
  role_extends : option (list string);
}.

Record UserAttribute := {
  user_attribute_key : string;
  user_attribute_type : string;
  user_attribute_description : option string;
}.

Record ConditionSet := {
  set_type : string;
  set_key : option string;
  set_name : option string;
  set_description : option string;
  set_resource_id : option string;
  set_conditions : option Json;
}.

Record ConditionSetRule := {
  rule_user_set : option string;
  rule_permission : option string;
  rule_resource_set : option string;
}.

(** *** Collaborators *)

(** [JSON.stringify] at the argument shapes the exporter uses. *)
Record JSON := {
  stringify_strings : list string -> string;
  stringify_indent2 : Json -> string;
  stringify_set : ConditionSet -> string;
  stringify_rule : ConditionSetRule -> string;
}.

(** The list endpoints of one [Permit] client ([permit.api]). A [null] or
    [undefined] listing is the empty list. *)
Record PermitApi := {
  resources_list : Result (list Resource);
  resourceRelations_list : string -> Result (list Relation);
  roles_list : Result (list Role);
  resourceAttributes_list : string -> Result (list UserAttribute);
  conditionSets_list : Result (list ConditionSet);
  conditionSetRules_list : string -> string -> string -> Result (list ConditionSetRule);
}.

(** The places where [exportConfig] reads the [isSubscribed] flag. *)
Inductive Checkpoint := AfterValidation | BeforeSink | AfterSink | InCatch.

(** Everything outside [exportConfig] that a run observes. *)
Record World := {
  validateApiKeyScope : string -> string -> Result ScopeResult;
  Permit : string -> PermitApi;
  fs_writeFile : string -> string -> Result unit;
  isSubscribed : Checkpoint -> bool;
}.

(** *** The state of a run *)

Record ExportState := {
  status : string;
  isComplete : bool;
  error : option string;
  warnings : list string;
}.

(** What reached the sink. *)
Inductive SinkEvent :=
| FileWritten (path content : string)
| ConsoleLog (content : string).

Record Machine := {
  state : ExportState;
  hcl : string;
  sink : list SinkEvent;
}.

Definition initial : Machine :=
  {| state := {| status := ""; isComplete := false; error := None; warnings := [] |};
     hcl := "";
     sink := [] |}.

(** *** Control flow: normal completion, [throw], early [return] *)

Inductive Completion (A : Type) : Type :=
| Normal (a : A)
| Thrown (e : Exn)
| Returned.
Arguments Normal {A} a.
Arguments Thrown {A} e.
Arguments Returned {A}.

Definition M (A : Type) : Type := Machine -> Completion A * Machine.

Definition ret {A} (a : A) : M A := fun m => (Normal a, m).

Definition bind {A B} (c : M A) (k : A -> M B) : M B :=
  fun m =>
    match c m with
    | (Normal a, m') => k a m'
    | (Thrown e, m') => (Thrown e, m')
    | (Returned, m') => (Returned, m')
    end.

Notation "'let*' x ':=' c 'in' k" := (bind c (fun x => k))
  (at level 10, x name, c at level 100, k at level 200).
Notation "c ';;' k" := (bind c (fun _ => k))
  (at level 100, k at level 200, right associativity).

(** [await p] *)
Definition await {A} (p : Result A) : M A :=
  fun m => match p with
           | Resolved a => (Normal a, m)
           | Rejected e => (Thrown e, m)
           end.

(** [return;] *)
Definition return_ {A} : M A := fun m => (Returned, m).

(** [try { body } catch (e) { handler(e) }] *)
Definition try_catch (body : M unit) (handler : Exn -> M unit) : M unit :=
  fun m =>
    match body m with
    | (Thrown e, m') => handler e m'
    | r => r
    end.

(** [for (const x of l) { body(x) }] *)
Fixpoint for_of {A} (l : list A) (body : A -> M unit) : M unit :=
  match l with
  | [] => ret tt
  | x :: rest => body x ;; for_of rest body
  end.

(** [setState(prev => f(prev))] *)
Definition setState (f : ExportState -> ExportState) : M unit :=
  fun m => (Normal tt, {| state := f (state m); hcl := hcl m; sink := sink m |}).

Definition with_status (s : string) (prev : ExportState) : ExportState :=
  {| status := s; isComplete := isComplete prev; error := error prev;
     warnings := warnings prev |}.

Definition with_error (e : string) (prev : ExportState) : ExportState :=
  {| status := status prev; isComplete := true; error := Some e;
     warnings := warnings prev |}.

Definition with_complete (prev : ExportState) : ExportState :=
  {| status := status prev; isComplete := true; error := error prev;
     warnings := warnings prev |}.

Definition addWarning (warning : string) : M unit :=
  setState (fun prev =>
    {| status := "Warning: " +:+ warning; isComplete := isComplete prev;
       error := error prev; warnings := (warnings prev ++ [warning])%list |}).

(** [let hcl = s] *)
Definition init_hcl (s : string) : M unit :=
  fun m => (Normal tt, {| state := state m; hcl := s; sink := sink m |}).

(** [hcl += s] *)
Definition append_hcl (s : string) : M unit :=
  fun m => (Normal tt, {| state := state m; hcl := hcl m +:+ s; sink := sink m |}).

Definition read_hcl : M string := fun m => (Normal (hcl m), m).

Definition emit (ev : SinkEvent) : M unit :=
  fun m => (Normal tt, {| state := state m; hcl := hcl m; sink := (sink m ++ [ev])%list |}).

(** [if (c) { body }] *)
Definition when (c : bool) (body : M unit) : M unit :=
  if c then body else ret tt.

Definition nonempty {A} (l : list A) : bool :=
  match l with [] => false | _ :: _ => true end.

Definition nonempty_opt {A} (l : option (list A)) : bool :=
  match l with Some l => nonempty l | None => false end.

(** *** The text blocks *)

Section Run.
Variable JSON_ : JSON.
Variable W : World.
Variables (apiKey authToken file : option string).

(** [scope?.field || 'unknown'] *)
Definition scope_field (s : option Scope) (field : Scope -> option string) : string :=
  Js.or_else (s ≫= field) "unknown".

(** The head of the artifact, up to the provider block. *)
Definition header (s : option Scope) (key : string) : string :=
  "# Generated by Permit CLI" +:+ nl +:+
  "# Environment: " +:+ scope_field s environment_id +:+ nl +:+
  "# Project: " +:+ scope_field s project_id +:+ nl +:+
  "# Organization: " +:+ scope_field s organization_id +:+ nl +:+
  nl +:+
  "terraform {" +:+ nl +:+
  "  required_providers {" +:+ nl +:+
  "    permitio = {" +:+ nl +:+
  "      source = " +:+ quoted "permitio/permit-io" +:+ nl +:+
  "      version = " +:+ quoted "~> 0.1.0" +:+ nl +:+
  "    }" +:+ nl +:+
  "  }" +:+ nl +:+
  "}" +:+ nl +:+
  nl +:+
  "provider " +:+ quoted "permitio" +:+ " {" +:+ nl +:+
  "  api_key = " +:+ quoted key +:+ nl +:+
  "}" +:+ nl.

Definition action_entry (e : string * Action) : string :=
  let '(actionKey, action) := e in
  nl +:+ "    " +:+ quoted actionKey +:+ " = {" +:+ nl +:+
  "      name = " +:+ quoted (action_name action) +:+
  optional_line "      " "description" (action_description action) +:+ nl +:+
  "    }".

Definition attribute_entry (e : string * Attribute) : string :=
  let '(attrKey, attr) := e in
  nl +:+ "    " +:+ quoted attrKey +:+ " = {" +:+ nl +:+
  "      type = " +:+ quoted (attribute_type attr) +:+
  optional_line "      " "description" (attribute_description attr) +:+ nl +:+
  "    }".

Definition resource_block (resource : Resource) : string :=
  "resource " +:+ quoted "permitio_resource" +:+ " " +:+
    quoted (createSafeId [resource_key resource]) +:+ " {" +:+ nl +:+
  "  key  = " +:+ quoted (resource_key resource) +:+ nl +:+
  "  name = " +:+ quoted (resource_name resource) +:+
  optional_line "  " "description" (resource_description resource) +:+
  optional_line "  " "urn" (resource_urn resource) +:+ nl +:+
  "  actions = {" +:+
    Js.join "" (List.map action_entry (resource_actions resource)) +:+ nl +:+
  "  }" +:+
  (if nonempty_opt (resource_attributes resource)
   then nl +:+ "  attributes = {" +:+
        Js.join "" (List.map attribute_entry
                      (default [] (resource_attributes resource))) +:+ nl +:+
        "  }"
   else "") +:+ nl +:+
  "}" +:+ nl.

Definition relation_block (resource : Resource) (relation : Relation) : string :=
  let safeId := createSafeId [resource_key resource; relation_key relation] in
  "resource " +:+ quoted "permitio_relation" +:+ " " +:+ quoted safeId +:+ " {" +:+ nl +:+
  "  key = " +:+ quoted (relation_key relation) +:+ nl +:+
  "  name = " +:+ quoted (relation_name relation) +:+ nl +:+
  "  subject_resource = " +:+ quoted (resource_key resource) +:+ nl +:+
  "  object_resource = " +:+ quoted (relation_object_resource relation) +:+
  optional_line "  " "description" (relation_description relation) +:+ nl +:+
  "}" +:+ nl.

Definition role_block (role : Role) : string :=
  "resource " +:+ quoted "permitio_role" +:+ " " +:+
    quoted (createSafeId [role_key role]) +:+ " {" +:+ nl +:+
  "  key  = " +:+ quoted (role_key role) +:+ nl +:+
  "  name = " +:+ quoted (role_name role) +:+
  optional_line "  " "description" (role_description role) +:+
  (if nonempty_opt (role_permissions role)
   then nl +:+ "  permissions = " +:+
        stringify_strings JSON_ (default [] (role_permissions role))
   else "") +:+
  (if nonempty_opt (role_extends role)
   then nl +:+ "  extends = " +:+
        stringify_strings JSON_ (default [] (role_extends role))
   else "") +:+ nl +:+
  "}" +:+ nl.

Definition user_attribute_block (attr : UserAttribute) : string :=
  "resource " +:+ quoted "permitio_user_attribute" +:+ " " +:+
    quoted (createSafeId [user_attribute_key attr]) +:+ " {" +:+ nl +:+
  "  key = " +:+ quoted (user_attribute_key attr) +:+ nl +:+
  "  type = " +:+ quoted (user_attribute_type attr) +:+
  optional_line "  " "description" (user_attribute_description attr) +:+ nl +:+
  "}" +:+ nl.

(** Truthiness of a JSON value, for [set.conditions || {}]. *)
Definition json_truthy (j : Json) : bool :=
  match j with
  | JNull => false
  | JBool b => b
  | JNumber n => negb (n =? 0)%Z
  | JString s => Js.truthy s
  | JArray _ | JObject _ => true
  end.

Definition conditions_or_empty (c : option Json) : Json :=
  match c with
  | Some j => if json_truthy j then j else JObject []
  | None => JObject []
  end.

Definition conditions_line (set : ConditionSet) : string :=
  "  conditions = jsonencode(" +:+
  stringify_indent2 JSON_ (conditions_or_empty (set_conditions set)) +:+ ")".

Definition user_set_block (set : ConditionSet) : string :=
  "resource " +:+ quoted "permitio_user_set" +:+ " " +:+
    quoted (createSafeId [Js.or_empty (set_key set)]) +:+ " {" +:+ nl +:+
  "  key = " +:+ quoted (default "" (set_key set)) +:+ nl +:+
  "  name = " +:+ quoted (default "" (set_name set)) +:+
  optional_line "  " "description" (set_description set) +:+ nl +:+
  conditions_line set +:+ nl +:+
  "}" +:+ nl.

Definition resource_set_block (set : ConditionSet) : string :=
  "resource " +:+ quoted "permitio_resource_set" +:+ " " +:+
    quoted (createSafeId [Js.or_empty (set_key set)]) +:+ " {" +:+ nl +:+
  "  key = " +:+ quoted (default "" (set_key set)) +:+ nl +:+
  "  name = " +:+ quoted (default "" (set_name set)) +:+
  optional_line "  " "description" (set_description set) +:+ nl +:+
  "  resource = " +:+ quoted (default "" (set_resource_id set)) +:+ nl +:+
  conditions_line set +:+ nl +:+
  "}" +:+ nl.

Definition condition_set_rule_block (rule : ConditionSetRule) : string :=
  let safeId := createSafeId [Js.or_empty (rule_user_set rule);
                              Js.or_empty (rule_permission rule);
                              Js.or_empty (rule_resource_set rule)] in
  "resource " +:+ quoted "permitio_condition_set_rule" +:+ " " +:+ quoted safeId +:+ " {" +:+ nl +:+
  "  user_set = " +:+ quoted (default "" (rule_user_set rule)) +:+ nl +:+
  "  permission = " +:+ quoted (default "" (rule_permission rule)) +:+ nl +:+
  "  resource_set = " +:+ quoted (default "" (rule_resource_set rule)) +:+ nl +:+
  "}" +:+ nl.

(** *** The run *)

(** [const key = apiKey || authToken] *)
Definition key : option string :=
  if Js.truthy_opt apiKey then apiKey else authToken.

(** [`${scopeError}`] for a string or [null]. *)
Definition interpolate_nullable (o : option string) : string := default "null" o.

Definition is_valid_resource (resource : Resource) : bool :=
  negb (String.eqb (resource_key resource) "__user").

(** Lines 128-184: the Resources phase. It is not wrapped in a [try] of
    its own. *)
Definition export_resources (permit : PermitApi) : M (list Resource) :=
  setState (with_status "Exporting resources...") ;;
  let* resources := await (resources_list permit) in
  let validResources := List.filter is_valid_resource resources in
  when (nonempty validResources)
    (append_hcl (nl +:+ "# Resources" +:+ nl) ;;
     for_of validResources (fun resource =>
       append_hcl (resource_block resource))) ;;
  ret validResources.

(** Lines 186-216. *)
Definition export_relations (permit : PermitApi) (validResources : list Resource) : M unit :=
  setState (with_status "Exporting resource relations...") ;;
  try_catch
    (for_of validResources (fun resource =>
       let* relations := await (resourceRelations_list permit (resource_key resource)) in
       when (nonempty relations)
         (append_hcl (nl +:+ "# Resource Relations for " +:+ resource_key resource +:+ nl) ;;
          for_of relations (fun relation =>
            append_hcl (relation_block resource relation)))))
    (fun error =>
       addWarning ("Failed to export resource relations: " +:+ String_of error)).

(** Lines 218-248. *)
Definition export_roles (permit : PermitApi) : M unit :=
  setState (with_status "Exporting roles...") ;;
  try_catch
    (let* roles := await (roles_list permit) in
     when (nonempty roles)
       (append_hcl (nl +:+ "# Roles" +:+ nl) ;;
        for_of roles (fun role => append_hcl (role_block role))))
    (fun error => addWarning ("Failed to export roles: " +:+ String_of error)).

(** Lines 250-272. *)
Definition export_user_attributes (permit : PermitApi) : M unit :=
  setState (with_status "Exporting user attributes...") ;;
  try_catch
    (let* userAttributes := await (resourceAttributes_list permit "__user") in
     when (nonempty userAttributes)
       (append_hcl (nl +:+ "# User Attributes" +:+ nl) ;;
        for_of userAttributes (fun attr =>
          append_hcl (user_attribute_block attr))))
    (fun error =>
       addWarning ("Failed to export user attributes: " +:+ String_of error)).

(** [!set.key || !set.name] *)
Definition invalid_user_set (set : ConditionSet) : bool :=
  negb (Js.truthy_opt (set_key set)) || negb (Js.truthy_opt (set_name set)).

(** [!set.key || !set.name || !set.resource_id] *)
Definition invalid_resource_set (set : ConditionSet) : bool :=
  negb (Js.truthy_opt (set_key set)) || negb (Js.truthy_opt (set_name set))
  || negb (Js.truthy_opt (set_resource_id set)).

(** [!rule.user_set || !rule.permission || !rule.resource_set] *)
Definition invalid_rule (rule : ConditionSetRule) : bool :=
  negb (Js.truthy_opt (rule_user_set rule))
  || negb (Js.truthy_opt (rule_permission rule))
  || negb (Js.truthy_opt (rule_resource_set rule)).

Definition is_userset (set : ConditionSet) : bool := String.eqb (set_type set) "userset".
Definition is_resourceset (set : ConditionSet) : bool :=
  String.eqb (set_type set) "resourceset".

(** Lines 280-299: the loop over the user sets. *)
Definition export_user_sets (conditionSets : list ConditionSet) : M unit :=
  let userSets := List.filter is_userset conditionSets in
  when (nonempty userSets)
    (append_hcl (nl +:+ "# User Sets" +:+ nl) ;;
     for_of userSets (fun set =>
       if invalid_user_set set
       then addWarning ("Invalid user set data: " +:+ stringify_set JSON_ set)
       else append_hcl (user_set_block set))).

(** Lines 301-324: the loop over the resource sets. *)
Definition export_resource_sets (conditionSets : list ConditionSet) : M unit :=
  let resourceSets := List.filter is_resourceset conditionSets in
  when (nonempty resourceSets)
    (append_hcl (nl +:+ "# Resource Sets" +:+ nl) ;;
     for_of resourceSets (fun set =>
       if invalid_resource_set set
       then addWarning ("Invalid resource set data: " +:+ stringify_set JSON_ set)
       else append_hcl (resource_set_block set))).

(** Lines 326-357: the condition set rules. *)
Definition export_condition_set_rules (permit : PermitApi) : M unit :=
  setState (with_status "Exporting condition set rules...") ;;
  let* conditionSetRules := await (conditionSetRules_list permit "" "" "") in
  when (nonempty conditionSetRules)
    (append_hcl (nl +:+ "# Condition Set Rules" +:+ nl) ;;
     for_of conditionSetRules (fun rule =>
       if invalid_rule rule
       then addWarning ("Invalid condition set rule: " +:+ stringify_rule JSON_ rule)
       else append_hcl (condition_set_rule_block rule))).

(** Lines 274-360: user sets, resource sets and condition set rules share
    one [try]. *)
Definition export_condition_sets (permit : PermitApi) : M unit :=
  setState (with_status "Exporting condition sets...") ;;
  try_catch
    (let* conditionSets := await (conditionSets_list permit) in
     export_user_sets conditionSets ;;
     export_resource_sets conditionSets ;;
     export_condition_set_rules permit)
    (fun error =>
       addWarning ("Failed to export condition sets: " +:+ String_of error)).

(** Lines 364-370: save or print. An event is recorded once the write
    has succeeded. *)
Definition write_sink : M unit :=
  if Js.truthy_opt file
  then
    setState (with_status "Saving to file...") ;;
    let* text := read_hcl in
    await (fs_writeFile W (default "" file) text) ;;
    emit (FileWritten (default "" file) text)
  else
    let* text := read_hcl in
    emit (ConsoleLog text).

(** Lines 374-382: the handler of the outer [try]. *)
Definition outer_catch (err : Exn) : M unit :=
  if negb (isSubscribed W InCatch) then return_
  else
    let errorMsg := if instanceof_Error err then message err else String_of err in
    setState (with_error ("Failed to export configuration: " +:+ errorMsg)).

(** Lines 83-373: the body of the outer [try], for the resolved [key]. *)
Definition export_body (key : string) : M unit :=
  setState (with_status "Validating API key...") ;;
  let* validation := await (validateApiKeyScope W key "environment") in
  if negb (valid validation) || Js.truthy_opt (scope_error validation)
  then
    setState (with_error ("Invalid API key: " +:+
                          interpolate_nullable (scope_error validation))) ;;
    return_
  else if negb (isSubscribed W AfterValidation) then return_
  else
    setState (with_status "Initializing Permit client...") ;;
    let permit := Permit W key in
    init_hcl (header (scope validation) key) ;;
    let* validResources := export_resources permit in
    export_relations permit validResources ;;
    export_roles permit ;;
    export_user_attributes permit ;;
    export_condition_sets permit ;;
    if negb (isSubscribed W BeforeSink) then return_
    else
      write_sink ;;
      if negb (isSubscribed W AfterSink) then return_
      else setState with_complete.

Definition exportConfig : M unit :=
  if negb (Js.truthy_opt key)
  then
    setState (with_error "No API key provided. Please provide a key or login first.") ;;
    return_
  else try_catch (export_body (default "" key)) outer_catch.

(** The machine a run ends in. *)
Definition run : Machine := snd (exportConfig initial).

End Run.

End ExportContent.

(** ** The generator classes

    Every generator borrows a [WarningCollector]; its methods are
    computations over the collected warnings that either produce a value or
    throw. *)

Module Generator.

Definition G (A : Type) : Type := list string -> Result A * list string.

Definition ret {A} (a : A) : G A := fun w => (Resolved a, w).

Definition bind {A B} (c : G A) (k : A -> G B) : G B :=
  fun w =>
    match c w with
    | (Resolved a, w') => k a w'
    | (Rejected e, w') => (Rejected e, w')
    end.

(** [await p] *)
Definition await {A} (p : Result A) : G A := fun w => (p, w).

(** [throw e] *)
Definition throw {A} (e : Exn) : G A := fun w => (Rejected e, w).

(** [try { body } catch (e) { handler(e) }] *)
Definition try_catch {A} (body : G A) (handler : Exn -> G A) : G A :=
  fun w =>
    match body w with
    | (Rejected e, w') => handler e w'
    | r => r
    end.

(** [this.warningCollector.addWarning(warning)] *)
Definition addWarning (warning : string) : G unit :=
  fun w => (Resolved tt, (w ++ [warning])%list).

(** A loop that updates a local variable [acc] once per element. *)
Fixpoint for_of {A S} (l : list A) (acc : S) (body : S -> A -> G S) : G S :=
  match l with
  | [] => ret acc
  | x :: rest => bind (body acc x) (fun acc' => for_of rest acc' body)
  end.

(** [l.map(f)] for a callback that may warn. *)
Fixpoint map_G {A B} (f : A -> G B) (l : list A) : G (list B) :=
  match l with
  | [] => ret []
  | x :: rest =>
      bind (f x) (fun y => bind (map_G f rest) (fun ys => ret (y :: ys)))
  end.

End Generator.

Module GeneratorNotations.
Notation "'let*' x ':=' c 'in' k" := (Generator.bind c (fun x => k))
  (at level 10, x name, c at level 100, k at level 200).
Notation "c ';;' k" := (Generator.bind c (fun _ => k))
  (at level 100, k at level 200, right associativity).
End GeneratorNotations.

(** ** RoleDerivationGenerator *)

Module RoleDerivationGenerator.
Import Generator GeneratorNotations.

Record RelationRead := {
  key : string;
  subject_resource : string;
  object_resource : string;
}.

(** One entry of [granted_to.users_with_role]. *)
Record GrantInfo := {
  role : string;
  on_resource : string;
  linked_by_relation : string;
}.

Record GrantedTo := {
  users_with_role : option (list GrantInfo);
}.

Record ResourceRoleRead := {
  role_key : string;
  granted_to : option GrantedTo;
}.

Record ResourceRead := {
  resource_key : string;
}.

Record ResourceData := {
  resource : ResourceRead;
  roles : list ResourceRoleRead;
  relations : list RelationRead;
}.

Record ResourceRelation := {
  sourceResourceKey : string;
  targetResourceKey : string;
  relation : RelationRead;
}.

Record TerraformRelationMapping := {
  relationKey : string;
  sourceResource : string;
  targetResource : string;
  terraformResourceName : string;
}.

Record RoleDerivationData := {
  id : string;
  derivation_resource : string;
  derivation_role : string;
  linked_by : string;
  derivation_on_resource : string;
  to_role : string;
  dependencies : list string;
}.

(** The endpoints the generator calls. A listing that is not an array is
    the empty list; a paginated answer is its [data]. *)
Record PermitApi := {
  resources_list : Result (list ResourceRead);
  resourceRoles_list : string -> Result (list ResourceRoleRead);
  resourceRelations_list : string -> Result (list RelationRead);
}.

(** [resourceMap.set(k, v)] on a [Map] kept in insertion order: an existing
    key keeps its place. *)
Fixpoint map_set {V} (k : string) (v : V) (m : list (string * V)) : list (string * V) :=
  match m with
  | [] => [(k, v)]
  | (k', v') :: rest =>
      if String.eqb k' k then (k, v) :: rest else (k', v') :: map_set k v rest
  end.

Section Methods.
Variable permit : PermitApi.
(** The compiled Handlebars template [role-derivation.hcl]. *)
Variable template : list RoleDerivationData -> string.

Definition gather_one (resourceMap : list (string * ResourceData)) (resource : ResourceRead)
  : G (list (string * ResourceData)) :=
  if negb (Js.truthy (resource_key resource)) then ret resourceMap
  else
    try_catch
      (let* roles := await (resourceRoles_list permit (resource_key resource)) in
       let* relations := await (resourceRelations_list permit (resource_key resource)) in
       ret (map_set (resource_key resource)
              {| resource := resource; roles := roles; relations := relations |}
              resourceMap))
      (fun error =>
         addWarning ("Failed to gather data for resource '" +:+ resource_key resource
                     +:+ "': " +:+ String_of error) ;;
         ret resourceMap).

Definition gatherResourceData : G (list (string * ResourceData)) :=
  try_catch
    (let* resources := await (resources_list permit) in
     for_of resources [] gather_one)
    (fun error =>
       addWarning ("Failed to gather resources: " +:+ String_of error) ;;
       ret []).

Definition is_complete_relation (r : RelationRead) : bool :=
  Js.truthy (key r) && Js.truthy (subject_resource r) && Js.truthy (object_resource r).

Definition getAllResourceRelations (resourceMap : list (string * ResourceData))
  : list ResourceRelation :=
  List.flat_map
    (fun entry : string * ResourceData =>
       List.map
         (fun r => {| sourceResourceKey := subject_resource r;
                      targetResourceKey := object_resource r;
                      relation := r |})
         (List.filter is_complete_relation (relations (snd entry))))
    resourceMap.

Definition generateTerraformRelationName (r : RelationRead) : G string :=
  if negb (Js.truthy (subject_resource r)) || negb (Js.truthy (object_resource r))
     || negb (Js.truthy (key r))
  then throw (new_Error "Invalid relation: missing required properties")
  else ret (subject_resource r +:+ "_" +:+ object_resource r).

(** [`${source}:${relation}:${target}`] *)
Definition mappingKey (source relation target : string) : string :=
  source +:+ ":" +:+ relation +:+ ":" +:+ target.

Definition buildRelationMappings (relations : list ResourceRelation)
  : G (gmap string TerraformRelationMapping) :=
  for_of relations ∅ (fun relationMappings rr =>
    if negb (Js.truthy (key (relation rr))) then ret relationMappings
    else
      let* terraformResourceName := generateTerraformRelationName (relation rr) in
      ret (<[ mappingKey (sourceResourceKey rr) (key (relation rr)) (targetResourceKey rr) :=
              {| relationKey := key (relation rr);
                 sourceResource := sourceResourceKey rr;
                 targetResource := targetResourceKey rr;
                 terraformResourceName := terraformResourceName |} ]>
             relationMappings)).

Definition sanitizeId (str : string) : string :=
  Js.toLowerCase (Js.replace_non_ident str).

Definition createDerivationId (sourceRole targetRole : string) : string :=
  sanitizeId sourceRole +:+ "_to_" +:+ sanitizeId targetRole.

(** The body of the innermost loop of [generateDerivations]. *)
Definition derive_grant (relationMappings : gmap string TerraformRelationMapping)
    (resourceKey roleKey : string)
    (derivations : list RoleDerivationData) (grantInfo : GrantInfo)
  : G (list RoleDerivationData) :=
  if negb (Js.truthy (role grantInfo)) || negb (Js.truthy (on_resource grantInfo))
     || negb (Js.truthy (linked_by_relation grantInfo))
  then ret derivations
  else
    let sourceRoleKey := role grantInfo in
    let sourceResourceKey := on_resource grantInfo in
    let relationKey := linked_by_relation grantInfo in
    let targetResourceKey := resourceKey in
    let targetRoleKey := roleKey in
    let mappingKey := mappingKey sourceResourceKey relationKey targetResourceKey in
    match relationMappings !! mappingKey with
    | None =>
        addWarning ("Could not find relation mapping for " +:+ mappingKey) ;;
        ret derivations
    | Some relationMapping =>
        let derivationId := createDerivationId sourceRoleKey targetRoleKey in
        let dependencies :=
          [ "permitio_role." +:+ sourceRoleKey;
            "permitio_resource." +:+ sourceResourceKey;
            "permitio_role." +:+ targetRoleKey;
            "permitio_resource." +:+ targetResourceKey;
            "permitio_relation." +:+ terraformResourceName relationMapping ] in
        ret (app derivations
             [ {| id := derivationId;
                  derivation_role := sourceRoleKey;
                  derivation_on_resource := sourceResourceKey;
                  to_role := targetRoleKey;
                  derivation_resource := targetResourceKey;
                  linked_by := terraformResourceName relationMapping;
                  dependencies := dependencies |} ])
    end.

(** [role.granted_to?.users_with_role], an absent list being empty. *)
Definition grants_of (r : ResourceRoleRead) : list GrantInfo :=
  default [] (granted_to r ≫= users_with_role).

Definition derive_role (relationMappings : gmap string TerraformRelationMapping)
    (resourceKey : string)
    (derivations : list RoleDerivationData) (r : ResourceRoleRead)
  : G (list RoleDerivationData) :=
  if negb (Js.truthy (role_key r)) || negb (ExportContent.nonempty (grants_of r))
  then ret derivations
  else for_of (grants_of r) derivations
         (derive_grant relationMappings resourceKey (role_key r)).

Definition generateDerivations (resourceMap : list (string * ResourceData))
  : G (list RoleDerivationData) :=
  let relations := getAllResourceRelations resourceMap in
  let* relationMappings := buildRelationMappings relations in
  for_of resourceMap [] (fun derivations entry =>
    for_of (roles (snd entry)) derivations
      (derive_role relationMappings (fst entry))).

Definition generateHCL : G string :=
  try_catch
    (let* resourceMap := gatherResourceData in
     if negb (ExportContent.nonempty resourceMap) then ret ""
     else
       let* derivations := generateDerivations resourceMap in
       if negb (ExportContent.nonempty derivations) then ret ""
       else
         let hcl := template derivations in
         ret (nl +:+ "# Role Derivations" +:+ nl +:+ hcl))
    (fun error =>
       addWarning ("Failed to generate role derivations: " +:+ String_of error) ;;
       ret "").

End Methods.

End RoleDerivationGenerator.

(** ** UserAttributesGenerator *)

Module UserAttributesGenerator.
Import Generator GeneratorNotations.

(** built-in attributes that should be excluded from export *)
Definition BUILTIN_USER_ATTRIBUTES : list string :=
  ["key"; "roles"; "email"; "first_name"; "last_name"].

(** What indexing the object literal [typeMap] evaluates to: the string of
    one of its own entries, or a property that the literal inherits from
    [Object.prototype], which is a function or an object and not a string. *)
Inductive TypeValue :=
| TypeName (name : string)
| Inherited (property : string).

(** The declaration gives [type] as a string; it holds whatever
    [normalizeAttributeType] returns. *)
Record UserAttributeData := {
  resourceKey : string;
  key : string;
  type : TypeValue;
  description : string;
}.

Record AttributeRead := {
  attribute_type : string;
  attribute_description : option string;
}.

Record ResourceRead := {
  attributes : option (list (string * AttributeRead));
}.

(** [permit.api.resources.get(key)]; [None] is an absent resource. *)
Record PermitApi := {
  resources_get : string -> Result (option ResourceRead);
}.

(** [BUILTIN_USER_ATTRIBUTES.includes(key)] *)
Definition is_builtin_key (k : string) : bool :=
  existsb (String.eqb k) BUILTIN_USER_ATTRIBUTES.

(** The second filter of [getUserAttributes]. *)
Definition description_allows (attr : AttributeRead) : bool :=
  let description := Js.or_empty (Js.toLowerCase <$> attribute_description attr) in
  negb (Js.includes description "built in attribute")
  && negb (Js.includes description "built-in attribute").

Definition generateResourceKey (k : string) : string :=
  "user_" +:+ Js.replace_non_lower_ident (Js.toLowerCase k).

(** The own entries of the object literal [typeMap]. *)
Definition typeMap : gmap string string :=
  list_to_map
    [ ("string", "string"); ("number", "number"); ("boolean", "bool");
      ("bool", "bool"); ("array", "array"); ("object", "json");
      ("json", "json"); ("time", "string") ].

(** The properties that every object literal inherits from
    [Object.prototype]. *)
Definition Object_prototype : list string :=
  [ "constructor"; "__defineGetter__"; "__defineSetter__"; "hasOwnProperty";
    "__lookupGetter__"; "__lookupSetter__"; "isPrototypeOf"; "propertyIsEnumerable";
    "toString"; "valueOf"; "__proto__"; "toLocaleString" ].

(** [typeMap[k]]: an own entry if there is one, else a property of the
    prototype; [None] is [undefined]. *)
Definition typeMap_get (k : string) : option TypeValue :=
  match typeMap !! k with
  | Some name => Some (TypeName name)
  | None => if existsb (String.eqb k) Object_prototype then Some (Inherited k) else None
  end.

(** Truthiness of such a value: functions and objects are truthy. *)
Definition truthy_value (v : TypeValue) : bool :=
  match v with
  | TypeName name => Js.truthy name
  | Inherited _ => true
  end.

Definition normalizeAttributeType (t : string) : G TypeValue :=
  match typeMap_get (Js.toLowerCase t) with
  | Some normalizedType =>
      if truthy_value normalizedType then ret normalizedType
      else
        addWarning ("Unknown attribute type: " +:+ t +:+ ", using 'string' as default") ;;
        ret (TypeName "string")
  | None =>
      addWarning ("Unknown attribute type: " +:+ t +:+ ", using 'string' as default") ;;
      ret (TypeName "string")
  end.

(** [error instanceof Error ? error.message : String(error)] *)
Definition errorMessage (error : Exn) : string :=
  if instanceof_Error error then message error else String_of error.

Definition is_js_space (c : ascii) : bool :=
  Js.in_range 9 13 c || (N_of_ascii c =? 32)%N || (N_of_ascii c =? 160)%N.

(** [!content.trim()] *)
Definition trims_to_empty (content : string) : bool := Js.all_chars is_js_space content.

Section Methods.
Variable permit : PermitApi.
(** The compiled Handlebars template [user-attribute.hcl]. *)
Variable template : list UserAttributeData -> string.

Definition to_data (entry : string * AttributeRead) : G UserAttributeData :=
  let* t := normalizeAttributeType (attribute_type (snd entry)) in
  ret {| resourceKey := generateResourceKey (fst entry);
         key := fst entry;
         type := t;
         description := Js.or_empty (attribute_description (snd entry)) |}.

Definition getUserAttributes : G (list UserAttributeData) :=
  try_catch
    (let* userResource := await (resources_get permit "__user") in
     match userResource ≫= attributes with
     | None => ret []
     | Some attrs =>
         map_G to_data
           (List.filter (fun entry => description_allows (snd entry))
              (List.filter (fun entry => negb (is_builtin_key (fst entry))) attrs))
     end)
    (fun error =>
       addWarning ("Error fetching user attributes: " +:+ errorMessage error) ;;
       throw error).

Definition generateHCL : G string :=
  try_catch
    (let* attributes := getUserAttributes in
     if negb (ExportContent.nonempty attributes) then ret ""
     else
       let header := nl +:+ "# User Attributes" +:+ nl in
       let content := template attributes in
       if trims_to_empty content
       then throw (new_Error "Generated HCL content is empty")
       else ret (header +:+ content))
    (fun error =>
       addWarning ("Failed to export user attributes: " +:+ errorMessage error) ;;
       ret "").

End Methods.

End UserAttributesGenerator.

(** ** UserSetGenerator *)

Module UserSetGenerator.
Import Generator GeneratorNotations.

Record ConditionSetRead := {
  type : string;
  key : option string;
  name : option string;
  description : option string;
  conditions : option Json;
  resource_id : option string;
}.

Record UserSetData := {
  data_key : string;
  data_name : option string;
  data_description : option string;
  data_conditions : option string;
  data_resource : string;
}.

Record PermitApi := {
  conditionSets_list : Result (list ConditionSetRead);
}.

Section Methods.
Variable permit : PermitApi.
(** [JSON.stringify] of a conditions value. *)
Variable JSON_stringify : Json -> string.
(** The compiled Handlebars template [user-set.hcl]. *)
Variable template : list UserSetData -> string.

Definition to_data (set : ConditionSetRead) : UserSetData :=
  {| data_key := createSafeId [Js.or_empty (key set)];
     data_name := name set;
     data_description := description set;
     data_conditions :=
       match conditions set with
       | Some (JString s) => Some s
       | Some j => Some (JSON_stringify j)
       | None => None
       end;
     data_resource := Js.or_empty (resource_id set) |}.

(** The render model handed to the template. *)
Definition validSets (conditionSets : list ConditionSetRead) : list UserSetData :=
  List.map to_data
    (List.filter (fun set => String.eqb (type set) "userset") conditionSets).

Definition generateHCL : G string :=
  try_catch
    (let* conditionSets := await (conditionSets_list permit) in
     let validSets := validSets conditionSets in
     if negb (ExportContent.nonempty validSets) then ret ""
     else ret (nl +:+ "# User Sets" +:+ nl +:+ template validSets))
    (fun error =>
       addWarning ("Failed to export user sets: " +:+ String_of error) ;;
       ret "").

End Methods.

End UserSetGenerator.

(** ** ConditionSetGenerator

    The source holds two editions of this class. [ConditionSetGenerator]
    is the edition with [processConditionSetRule] and the paginated fetch;
    [ConditionSetGeneratorSinglePage] is the edition that requests one page
    and looks at the user set only. *)

Module ConditionSetRules.

Record ConditionSetRuleData := {
  key : string;
  userSet : string;
  resourceSet : string;
  permission : string;
  isAutogenerated : bool;
}.

Record ConditionSetRule := {
  user_set : string;
  resource_set : string;
  rule_permission : string;
}.

Record ConditionSetRead := {
  set_type : string;
  set_key : string;
}.

(** The parameters of one [conditionSetRules.list] request. *)
Record ListParams := {
  tenant : string;
  subject : string;
  relation : string;
  object : string;
  objectType : string;
  subjectType : string;
  page : nat;
  perPage : nat;
}.

Record PermitApi := {
  conditionSetRules_list : ListParams -> Result (list ConditionSetRule);
  conditionSets_list : Result (list ConditionSetRead);
}.

(** [`${createSafeId(u)}_${createSafeId(r)}_${createSafeId(p)}`] *)
Definition ruleKey (userSetKey resourceSetKey permissionKey : string) : string :=
  createSafeId [userSetKey] +:+ "_" +:+ createSafeId [resourceSetKey] +:+ "_"
  +:+ createSafeId [permissionKey].

End ConditionSetRules.

Module ConditionSetGenerator.
Import Generator GeneratorNotations.
Export ConditionSetRules.

Definition processConditionSetRule (rule : ConditionSetRule)
    (availableUserSets availableResourceSets : gset string)
  : G (option ConditionSetRuleData) :=
  try_catch
    (let userSetKey := user_set rule in
     let resourceSetKey := resource_set rule in
     let permissionKey := rule_permission rule in
     let isUserSetAutogen := Js.startsWith userSetKey "__autogen_" in
     if isUserSetAutogen && negb (bool_decide (userSetKey ∈ availableUserSets))
     then ret None
     else
       let isResourceSetAutogen := Js.startsWith resourceSetKey "__autogen_" in
       if isResourceSetAutogen
          && negb (bool_decide (resourceSetKey ∈ availableResourceSets))
       then ret None
       else
         ret (Some {| key := ruleKey userSetKey resourceSetKey permissionKey;
                      userSet := userSetKey;
                      resourceSet := resourceSetKey;
                      permission := permissionKey;
                      isAutogenerated := isUserSetAutogen || isResourceSetAutogen |}))
    (fun error =>
       addWarning ("Failed to process condition set rule: " +:+ String_of error) ;;
       ret None).

(** The local variables of the fetch loop, and the requests issued so
    far. *)
Record FetchState := {
  allConditionSetRules : list ConditionSetRule;
  currentPage : nat;
  hasMoreResults : bool;
  requests : list ListParams;
}.

Definition fetch_start : FetchState :=
  {| allConditionSetRules := []; currentPage := 1; hasMoreResults := true;
     requests := [] |}.

Definition perPage_ : nat := 100.

Definition page_params (currentPage : nat) : ListParams :=
  {| tenant := ""; subject := ""; relation := ""; object := ""; objectType := "";
     subjectType := ""; page := currentPage; perPage := perPage_ |}.

Section Methods.
Variable permit : PermitApi.
(** The compiled Handlebars template [condition-set.hcl]. *)
Variable template : list ConditionSetRuleData -> string.

(** One turn of the [while (hasMoreResults)] loop. *)
Definition fetch_page (s : FetchState) : Result FetchState :=
  let params := page_params (currentPage s) in
  match conditionSetRules_list permit params with
  | Rejected e => Rejected e
  | Resolved pageResults =>
      let issued := (requests s ++ [params])%list in
      if ExportContent.nonempty pageResults
      then
        let all := (allConditionSetRules s ++ pageResults)%list in
        if Nat.ltb (List.length pageResults) perPage_
        then Resolved {| allConditionSetRules := all; currentPage := currentPage s;
                         hasMoreResults := false; requests := issued |}
        else Resolved {| allConditionSetRules := all; currentPage := S (currentPage s);
                         hasMoreResults := hasMoreResults s; requests := issued |}
      else Resolved {| allConditionSetRules := allConditionSetRules s;
                       currentPage := currentPage s; hasMoreResults := false;
                       requests := issued |}
  end.

(** The loop, run for at most [fuel] turns; [None] when it is still running
    after that many. *)
Fixpoint fetch_all (fuel : nat) (s : FetchState) : option (Result FetchState) :=
  if hasMoreResults s
  then
    match fuel with
    | O => None
    | S fuel' =>
        match fetch_page s with
        | Resolved s' => fetch_all fuel' s'
        | Rejected e => Some (Rejected e)
        end
    end
  else Some (Resolved s).

Definition keys_of_type (t : string) (sets : list ConditionSetRead) : gset string :=
  list_to_set
    (List.map set_key (List.filter (fun set => String.eqb (set_type set) t) sets)).

(** [rules.map(process).filter(rule => rule !== null)] *)
Definition process_all (rules : list ConditionSetRule)
    (availableUserSets availableResourceSets : gset string)
  : G (list ConditionSetRuleData) :=
  let* processed :=
    map_G (fun rule => processConditionSetRule rule availableUserSets availableResourceSets)
      rules in
  ret (omap id processed).

(** What follows the fetch loop in [generateHCL]. *)
Definition render_rules (allConditionSetRules : list ConditionSetRule) : G string :=
  let* allConditionSets := await (conditionSets_list permit) in
  let availableUserSets := keys_of_type "userset" allConditionSets in
  let availableResourceSets := keys_of_type "resourceset" allConditionSets in
  if negb (ExportContent.nonempty allConditionSetRules) then ret ""
  else
    let* validRules :=
      process_all allConditionSetRules availableUserSets availableResourceSets in
    if negb (ExportContent.nonempty validRules) then ret ""
    else ret (nl +:+ "# Condition Set Rules" +:+ nl +:+ template validRules).

Definition generateHCL (fuel : nat) : option (G string) :=
  match fetch_all fuel fetch_start with
  | None => None
  | Some fetched =>
      Some
        (try_catch
           (let* s := await fetched in
            render_rules (allConditionSetRules s))
           (fun error =>
              addWarning ("Failed to export condition set rules: " +:+ String_of error) ;;
              ret ""))
  end.

End Methods.

End ConditionSetGenerator.

Module ConditionSetGeneratorSinglePage.
Import Generator GeneratorNotations.
Export ConditionSetRules.

Definition params : ListParams :=
  {| tenant := ""; subject := ""; relation := ""; object := ""; objectType := "";
     subjectType := ""; page := 1; perPage := 100 |}.

Section Methods.
Variable permit : PermitApi.
(** The compiled Handlebars template [condition-set.hcl]. *)
Variable template : list ConditionSetRuleData -> string.

(** The callback of [conditionSetRules.map]. *)
Definition process_rule (availableUserSets : gset string) (rule : ConditionSetRule)
  : G (option ConditionSetRuleData) :=
  try_catch
    (let userSetKey := user_set rule in
     let resourceSetKey := resource_set rule in
     let permissionKey := rule_permission rule in
     let isAutogenerated := Js.startsWith userSetKey "__autogen_" in
     if isAutogenerated && negb (bool_decide (userSetKey ∈ availableUserSets))
     then
       addWarning ("Skipping condition set rule referencing non-existent user set: "
                   +:+ userSetKey) ;;
       ret None
     else
       ret (Some {| key := ruleKey userSetKey resourceSetKey permissionKey;
                    userSet := createSafeId [userSetKey];
                    resourceSet := createSafeId [resourceSetKey];
                    permission := permissionKey;
                    isAutogenerated := isAutogenerated |}))
    (fun error =>
       addWarning ("Failed to process condition set rule: " +:+ String_of error) ;;
       ret None).

(** The render model handed to the template. *)
Definition validRules (conditionSetRules : list ConditionSetRule)
    (availableUserSets : gset string) : G (list ConditionSetRuleData) :=
  let* processed := map_G (process_rule availableUserSets) conditionSetRules in
  ret (omap id processed).

Definition generateHCL : G string :=
  try_catch
    (let* conditionSetRules := await (conditionSetRules_list permit params) in
     let* userSets := await (conditionSets_list permit) in
     let availableUserSets : gset string := list_to_set (List.map set_key userSets) in
     if negb (ExportContent.nonempty conditionSetRules) then ret ""
     else
       let* validRules := validRules conditionSetRules availableUserSets in
       if negb (ExportContent.nonempty validRules) then ret ""
       else ret (nl +:+ "# Condition Set Rules" +:+ nl +:+ template validRules))
    (fun error =>
       addWarning ("Failed to export condition set rules: " +:+ String_of error) ;;
       ret "").

End Methods.

End ConditionSetGeneratorSinglePage.

(** ** What the component shows ([ExportContent], export.tsx lines 392-446) *)

Module ExportView.
Import ExportContent.

(** The three things the component renders; each lists the warnings. *)
Inductive View :=
| ErrorView (error : string) (warnings : list string)
| ProgressView (status : string) (warnings : list string)
| SuccessView (savedTo : option string) (warnings : list string).

(** The body of the component after its hooks: [state.error] first, then
    [!state.isComplete], then success. *)
Definition render (state : ExportState) (file : option string) : View :=
  if Js.truthy_opt (error state)
  then ErrorView (default "" (error state)) (warnings state)
  else if negb (isComplete state)
  then ProgressView
         (Js.or_else (Some (status state)) "Exporting environment configuration...")
         (warnings state)
  else SuccessView (if Js.truthy_opt file then file else None) (warnings state).

End ExportView.

(** ** The [formatDescription] helper (UserAttributesGenerator.ts lines 35-48) *)

Module FormatDescription.

(** The whitespace of [\s] and of [trim], among the code units below 256. *)
Definition is_space (c : ascii) : bool := UserAttributesGenerator.is_js_space c.

(** One of [.,!?()-]. *)
Definition is_punctuation (c : ascii) : bool :=
  existsb (Ascii.eqb c) ["."; ","; "!"; "?"; "("; ")"; "-"]%char.

(** The complement of the class [[^\w\s.,!?()-]]. *)
Definition is_basic (c : ascii) : bool :=
  Js.is_ident_char c || is_space c || is_punctuation c.

(** [.replace(/[^\w\s.,!?()-]/g, ' ')] *)
Definition blank_others (s : string) : string :=
  Js.map_chars (fun c => if is_basic c then c else " "%char) s.

(** [.replace(/\s+/g, ' ')]: [in_run] tells that the character before was
    whitespace, so that a run gives one space. *)
Fixpoint collapse (in_run : bool) (s : string) : string :=
  match s with
  | EmptyString => EmptyString
  | String c r =>
      if is_space c
      then if in_run then collapse true r else String " "%char (collapse true r)
      else String c (collapse false r)
  end.

Fixpoint trimStart (s : string) : string :=
  match s with
  | EmptyString => EmptyString
  | String c r => if is_space c then trimStart r else s
  end.

Fixpoint trimEnd (s : string) : string :=
  match s with
  | EmptyString => EmptyString
  | String c r =>
      match trimEnd r with
      | EmptyString => if is_space c then EmptyString else String c EmptyString
      | r' => String c r'
      end
  end.

(** [.trim()] *)
Definition trim (s : string) : string := trimEnd (trimStart s).

(** The helper; [None] is a missing description. *)
Definition formatDescription (text : option string) : string :=
  if Js.truthy_opt text
  then trim (collapse false (blank_others (default "" text)))
  else "".

End FormatDescription.

(** ** The wildcard edition of ConditionSetGenerator (the second class of
    the file that holds UserSetGenerator) *)

Module ConditionSetGeneratorWildcard.
Import Generator GeneratorNotations.

Record ConditionSetRuleData := {
  key : string;
  userSet : string;
  resourceSet : string;
  permission : string;
}.

Record ConditionSetRule := {
  user_set : string;
  resource_set : string;
  rule_permission : string;
}.

(** [permit.api.conditionSetRules.list({userSetKey, permissionKey,
    resourceSetKey})]; a listing that is not an array is the empty list. *)
Record PermitApi := {
  conditionSetRules_list : string -> string -> string -> Result (list ConditionSetRule);
}.

Fixpoint drop (n : nat) (s : string) : string :=
  match n, s with
  | O, _ => s
  | S n', String _ r => drop n' r
  | S _, EmptyString => EmptyString
  end.

(** [s.replace(pattern, replacement)] for a string pattern: the first
    occurrence only. *)
Fixpoint replace_first (pattern replacement s : string) : string :=
  if String.prefix pattern s
  then replacement +:+ drop (String.length pattern) s
  else match s with
       | EmptyString => EmptyString
       | String c r => String c (replace_first pattern replacement r)
       end.

Section Methods.
Variable permit : PermitApi.
(** The compiled Handlebars template [condition-set.hcl]. *)
Variable template : list ConditionSetRuleData -> string.

(** The callback of [rules.map]. *)
Definition to_data (rule : ConditionSetRule) : G (option ConditionSetRuleData) :=
  try_catch
    (let cleanUserSet := replace_first "__autogen_" "" (user_set rule) in
     let cleanResourceSet := resource_set rule in
     let key := "allow_" +:+ cleanResourceSet in
     ret (Some {| key := createSafeId [key];
                  userSet := createSafeId [cleanUserSet];
                  resourceSet := createSafeId [cleanResourceSet];
                  permission := rule_permission rule |}))
    (fun ruleError =>
       addWarning ("Failed to export condition set rule: " +:+ String_of ruleError) ;;
       ret None).

(** The render model handed to the template. *)
Definition validRules (rules : list ConditionSetRule) : G (list ConditionSetRuleData) :=
  let* mapped := map_G to_data rules in
  ret (omap id mapped).

Definition generateHCL : G string :=
  try_catch
    (let* rules := await (conditionSetRules_list permit "*" "*" "*") in
     if negb (ExportContent.nonempty rules) then ret ""
     else
       let* validRules := validRules rules in
       if negb (ExportContent.nonempty validRules) then ret ""
       else ret (nl +:+ "# Condition Set Rules" +:+ nl +:+ template validRules))
    (fun error =>
       addWarning ("Failed to export condition set rules: " +:+ String_of error) ;;
       ret "").

End Methods.

End ConditionSetGeneratorWildcard.

(** * Specification-level definitions

    Closed forms of what the code computes, the notions the
    specification uses, and sample inputs. *)

(** The text of the blocks of a list, one after the other. *)
Definition blocks {A} (block : A -> string) (l : list A) : string :=
  fold_right (fun x rest => block x +:+ rest) "" l.

(** A titled section, omitted when the list is empty. *)
Definition titled {A} (title : string) (block : A -> string) (l : list A) : string :=
  if ExportContent.nonempty l then nl +:+ title +:+ nl +:+ blocks block l else "".

(** ** The monolithic exporter *)

Module ExportSpec.
Import ExportContent.

(** [steps m m' t ws]: from [m] to [m'] the text [t] was appended to the
    artifact and the warnings [ws] to the warning list; the error, the
    completion flag and the sink are untouched. *)
Definition steps (m m' : Machine) (t : string) (ws : list string) : Prop :=
  hcl m' = hcl m +:+ t /\
  warnings (state m') = (warnings (state m) ++ ws)%list /\
  error (state m') = error (state m) /\
  isComplete (state m') = isComplete (state m) /\
  sink m' = sink m.

(** [runs c r t ws]: from every machine, [c] completes as [r] having
    appended [t] and [ws]. *)
Definition runs {A} (c : M A) (r : Completion A) (t : string) (ws : list string) : Prop :=
  forall m, exists m', c m = (r, m') /\ steps m m' t ws.

Definition validResources_of (resources : list Resource) : list Resource :=
  List.filter is_valid_resource resources.

(** Text of the relations phase, and the rejection that ended it, if any. *)
Fixpoint relations_outcome (permit : PermitApi) (rs : list Resource) : string * option Exn :=
  match rs with
  | [] => ("", None)
  | r :: rest =>
      match resourceRelations_list permit (resource_key r) with
      | Rejected e => ("", Some e)
      | Resolved rels =>
          let '(t, e) := relations_outcome permit rest in
          (titled ("# Resource Relations for " +:+ resource_key r) (relation_block r) rels
           +:+ t, e)
      end
  end.

(** The single warning of a guarded block that ended with a rejection. *)
Definition failure_warning (prefix : string) (e : option Exn) : list string :=
  match e with
  | Some e => [prefix +:+ String_of e]
  | None => []
  end.

Definition rejection {A} (r : Result A) : option Exn :=
  match r with Rejected e => Some e | Resolved _ => None end.

Definition listed {A} (r : Result (list A)) : list A :=
  match r with Resolved l => l | Rejected _ => [] end.

Definition validated {A} (invalid : A -> bool) (block : A -> string) (x : A) : string :=
  if invalid x then "" else block x.

Definition complaint {A} (invalid : A -> bool) (msg : A -> string) (x : A) : list string :=
  if invalid x then [msg x] else [].

Section ClosedForms.
Variable JSON_ : JSON.
Variable W : World.
Variables (apiKey authToken file : option string).

Definition user_set_warning (set : ConditionSet) : string :=
  "Invalid user set data: " +:+ stringify_set JSON_ set.

Definition resource_set_warning (set : ConditionSet) : string :=
  "Invalid resource set data: " +:+ stringify_set JSON_ set.

Definition rule_warning (rule : ConditionSetRule) : string :=
  "Invalid condition set rule: " +:+ stringify_rule JSON_ rule.

Definition user_sets_text (sets : list ConditionSet) : string :=
  titled "# User Sets" (validated invalid_user_set (user_set_block JSON_))
    (List.filter is_userset sets).

Definition user_sets_warnings (sets : list ConditionSet) : list string :=
  List.flat_map (complaint invalid_user_set user_set_warning) (List.filter is_userset sets).

Definition resource_sets_text (sets : list ConditionSet) : string :=
  titled "# Resource Sets" (validated invalid_resource_set (resource_set_block JSON_))
    (List.filter is_resourceset sets).

Definition resource_sets_warnings (sets : list ConditionSet) : list string :=
  List.flat_map (complaint invalid_resource_set resource_set_warning)
    (List.filter is_resourceset sets).

Definition rules_text (rules : list ConditionSetRule) : string :=
  titled "# Condition Set Rules" (validated invalid_rule condition_set_rule_block) rules.

Definition rules_warnings (rules : list ConditionSetRule) : list string :=
  List.flat_map (complaint invalid_rule rule_warning) rules.

Definition condition_sets_text (permit : PermitApi) : string :=
  match conditionSets_list permit with
  | Rejected _ => ""
  | Resolved sets =>
      user_sets_text sets +:+ resource_sets_text sets +:+
      rules_text (listed (conditionSetRules_list permit "" "" ""))
  end.

Definition condition_sets_warnings (permit : PermitApi) : list string :=
  match conditionSets_list permit with
  | Rejected e => failure_warning "Failed to export condition sets: " (Some e)
  | Resolved sets =>
      user_sets_warnings sets ++ resource_sets_warnings sets ++
      rules_warnings (listed (conditionSetRules_list permit "" "" "")) ++
      failure_warning "Failed to export condition sets: "
        (rejection (conditionSetRules_list permit "" "" ""))
  end%list.

(** Everything the guarded phases append to the artifact. *)
Definition guarded_text (permit : PermitApi) (valid : list Resource) : string :=
  fst (relations_outcome permit valid) +:+
  titled "# Roles" (role_block JSON_) (listed (roles_list permit)) +:+
  titled "# User Attributes" user_attribute_block
    (listed (resourceAttributes_list permit "__user")) +:+
  condition_sets_text permit.

(** Every warning of a run whose Resources listing resolved. *)
Definition guarded_warnings (permit : PermitApi) (valid : list Resource) : list string :=
  (failure_warning "Failed to export resource relations: "
     (snd (relations_outcome permit valid)) ++
   failure_warning "Failed to export roles: " (rejection (roles_list permit)) ++
   failure_warning "Failed to export user attributes: "
     (rejection (resourceAttributes_list permit "__user")) ++
   condition_sets_warnings permit)%list.

(** The resolved credential, [""] when there is none. *)
Definition credential : string := default "" (key apiKey authToken).

(** What follows the generators in the body of the outer [try]. *)
Definition finish : M unit :=
  if negb (isSubscribed W BeforeSink) then return_
  else
    write_sink W file ;;
    if negb (isSubscribed W AfterSink) then return_
    else setState with_complete.

(** The artifact of a run whose Resources listing resolved to [rs]. *)
Definition artifact (s : option Scope) (k : string) (rs : list Resource) : string :=
  header s k +:+
  titled "# Resources" resource_block (validResources_of rs) +:+
  guarded_text (Permit W k) (validResources_of rs).

(** The run passes validation with the answer [v]. *)
Definition validated_as (k : string) (v : ScopeResult) : Prop :=
  validateApiKeyScope W k "environment" = Resolved v /\
  valid v = true /\ Js.truthy_opt (scope_error v) = false.

(** What a run leaves behind, the status line apart. *)
Record Summary := {
  final_error : option string;
  final_isComplete : bool;
  final_warnings : list string;
  final_sink : list SinkEvent;
}.

Definition summary (m : Machine) : Summary :=
  {| final_error := error (state m); final_isComplete := isComplete (state m);
     final_warnings := warnings (state m); final_sink := sink m |}.

(** [err instanceof Error ? err.message : String(err)] *)
Definition errorMsg (err : Exn) : string :=
  if instanceof_Error err then message err else String_of err.

(** The end of a run whose outer [try] caught [err] after the warnings
    [ws]. *)
Definition failed (err : Exn) (ws : list string) : Summary :=
  if isSubscribed W InCatch
  then {| final_error := Some ("Failed to export configuration: " +:+ errorMsg err);
          final_isComplete := true; final_warnings := ws; final_sink := [] |}
  else {| final_error := None; final_isComplete := false; final_warnings := ws;
          final_sink := [] |}.

Definition stopped (e : option string) (done : bool) (ws : list string)
    (out : list SinkEvent) : Summary :=
  {| final_error := e; final_isComplete := done; final_warnings := ws;
     final_sink := out |}.

(** The closed form of a run. *)
Definition expected : Summary :=
  if negb (Js.truthy_opt (key apiKey authToken))
  then stopped (Some "No API key provided. Please provide a key or login first.")
         true [] []
  else
    match validateApiKeyScope W credential "environment" with
    | Rejected e => failed e []
    | Resolved v =>
        if negb (valid v) || Js.truthy_opt (scope_error v)
        then stopped (Some ("Invalid API key: " +:+ interpolate_nullable (scope_error v)))
               true [] []
        else if negb (isSubscribed W AfterValidation) then stopped None false [] []
        else
          match resources_list (Permit W credential) with
          | Rejected e => failed e []
          | Resolved rs =>
              let ws := guarded_warnings (Permit W credential) (validResources_of rs) in
              let text := artifact (scope v) credential rs in
              if negb (isSubscribed W BeforeSink) then stopped None false ws []
              else if Js.truthy_opt file
              then
                match fs_writeFile W (default "" file) text with
                | Rejected e => failed e ws
                | Resolved _ =>
                    stopped None (isSubscribed W AfterSink) ws
                      [FileWritten (default "" file) text]
                end
              else stopped None (isSubscribed W AfterSink) ws [ConsoleLog text]
          end
    end.

(** The outer [try] applied to a completion of its body. *)
Definition caught (r : Completion unit * Machine) : Completion unit * Machine :=
  match r with
  | (Thrown e, m') => outer_catch W e m'
  | r => r
  end.

End ClosedForms.

End ExportSpec.

Module RunSpec.
Import ExportContent ExportSpec.

(** The text an event carried to the sink. *)
Definition content (ev : SinkEvent) : string :=
  match ev with
  | FileWritten _ text => text
  | ConsoleLog text => text
  end.

(** The head of the artifact before the provider block. *)
Definition preamble (s : option Scope) : string :=
  "# Generated by Permit CLI" +:+ nl +:+
  "# Environment: " +:+ scope_field s environment_id +:+ nl +:+
  "# Project: " +:+ scope_field s project_id +:+ nl +:+
  "# Organization: " +:+ scope_field s organization_id +:+ nl +:+
  nl +:+
  "terraform {" +:+ nl +:+
  "  required_providers {" +:+ nl +:+
  "    permitio = {" +:+ nl +:+
  "      source = " +:+ quoted "permitio/permit-io" +:+ nl +:+
  "      version = " +:+ quoted "~> 0.1.0" +:+ nl +:+
  "    }" +:+ nl +:+
  "  }" +:+ nl +:+
  "}" +:+ nl +:+
  nl.

(** The provider block, with the credential as its [api_key]. *)
Definition provider_block (credential : string) : string :=
  "provider " +:+ quoted "permitio" +:+ " {" +:+ nl +:+
  "  api_key = " +:+ dq +:+ credential +:+ dq +:+ nl +:+
  "}" +:+ nl.

(** The world whose Resources listing leaves out the [__user] resources. *)
Definition without_user (W : World) : World :=
  {| validateApiKeyScope := validateApiKeyScope W;
     Permit := fun k =>
       {| resources_list :=
            match resources_list (Permit W k) with
            | Resolved rs => Resolved (validResources_of rs)
            | Rejected e => Rejected e
            end;
          resourceRelations_list := resourceRelations_list (Permit W k);
          roles_list := roles_list (Permit W k);
          resourceAttributes_list := resourceAttributes_list (Permit W k);
          conditionSets_list := conditionSets_list (Permit W k);
          conditionSetRules_list := conditionSetRules_list (Permit W k) |};
     fs_writeFile := fs_writeFile W;
     isSubscribed := isSubscribed W |}.

(** The sink takes the artifact: there is no file to write, or the write
    succeeds. *)
Definition sink_accepts (W : World) (file : option string) (text : string) : Prop :=
  Js.truthy_opt file = true -> fs_writeFile W (default "" file) text = Resolved tt.

(** The event that carries [text] to the chosen sink. *)
Definition sink_event (file : option string) (text : string) : SinkEvent :=
  if Js.truthy_opt file then FileWritten (default "" file) text else ConsoleLog text.

End RunSpec.

(** ** UserAttributesGenerator *)

Module UserAttributesSpec.
Import Generator UserAttributesGenerator.

(** The type table as the specification lists it. *)
Definition specified_types : list (string * string) :=
  [ ("string", "string"); ("number", "number"); ("boolean", "bool");
    ("bool", "bool"); ("array", "array"); ("object", "json");
    ("json", "json"); ("time", "string") ].

Fixpoint assoc (k : string) (l : list (string * string)) : option string :=
  match l with
  | [] => None
  | (k', v) :: rest => if String.eqb k' k then Some v else assoc k rest
  end.

(** The type an attribute is exported with. *)
Definition specified_type (t : string) : string :=
  default "string" (assoc (Js.toLowerCase t) specified_types).

(** The warning an attribute type causes. *)
Definition type_warnings (t : string) : list string :=
  match assoc (Js.toLowerCase t) specified_types with
  | Some _ => []
  | None => ["Unknown attribute type: " +:+ t +:+ ", using 'string' as default"]
  end.

(** An attribute the specification excludes. *)
Definition excluded (k : string) (attr : AttributeRead) : Prop :=
  In k ["key"; "roles"; "email"; "first_name"; "last_name"] \/
  exists d, attribute_description attr = Some d /\
            (Js.includes (Js.toLowerCase d) "built in attribute" = true \/
             Js.includes (Js.toLowerCase d) "built-in attribute" = true).

Definition kept (entry : string * AttributeRead) : bool :=
  negb (is_builtin_key (fst entry)) && description_allows (snd entry).

(** The entry the specification describes for an attribute. *)
Definition exported (entry : string * AttributeRead) : UserAttributeData :=
  {| resourceKey := generateResourceKey (fst entry);
     key := fst entry;
     type := TypeName (specified_type (attribute_type (snd entry)));
     description := Js.or_empty (attribute_description (snd entry)) |}.

(** The type names that reach a property which [typeMap] inherits: the
    names of properties of [Object.prototype] that lower-casing leaves
    alone. *)
Definition inherits (t : string) : bool :=
  existsb (String.eqb (Js.toLowerCase t)) ["constructor"; "__proto__"].

(** What [normalizeAttributeType] returns for a type, and the warnings it
    adds. *)
Definition normalized (t : string) : TypeValue :=
  if inherits t then Inherited (Js.toLowerCase t) else TypeName (specified_type t).

Definition normalize_warnings (t : string) : list string :=
  if inherits t then [] else type_warnings t.

(** The entry [getUserAttributes] builds for an attribute. *)
Definition rendered (entry : string * AttributeRead) : UserAttributeData :=
  {| resourceKey := generateResourceKey (fst entry);
     key := fst entry;
     type := normalized (attribute_type (snd entry));
     description := Js.or_empty (attribute_description (snd entry)) |}.

End UserAttributesSpec.

(** ** ConditionSetGenerator *)

Module FetchSpec.
Import ConditionSetGenerator.

(** A page that makes the loop go on: it has at least [perPage] records. *)
Definition full_page (p : list ConditionSetRule) : bool :=
  negb (Nat.ltb (List.length p) perPage_).

(** Every page but the last is full, and the last one is not. *)
Fixpoint well_paged (pages : list (list ConditionSetRule)) : bool :=
  match pages with
  | [] => false
  | [p] => negb (full_page p)
  | p :: rest => full_page p && well_paged rest
  end.

End FetchSpec.

Module ConditionSetSpec.

(** The render model of a rule, [None] when the rule is skipped. *)
Definition processed (rule : ConditionSetRules.ConditionSetRule)
    (availableUserSets availableResourceSets : gset string)
  : option ConditionSetRules.ConditionSetRuleData :=
  let u := ConditionSetRules.user_set rule in
  let r := ConditionSetRules.resource_set rule in
  if Js.startsWith u "__autogen_" && negb (bool_decide (u ∈ availableUserSets))
  then None
  else if Js.startsWith r "__autogen_" && negb (bool_decide (r ∈ availableResourceSets))
  then None
  else Some {| ConditionSetRules.key :=
                 ConditionSetRules.ruleKey u r (ConditionSetRules.rule_permission rule);
               ConditionSetRules.userSet := u;
               ConditionSetRules.resourceSet := r;
               ConditionSetRules.permission := ConditionSetRules.rule_permission rule;
               ConditionSetRules.isAutogenerated :=
                 Js.startsWith u "__autogen_" || Js.startsWith r "__autogen_" |}.

End ConditionSetSpec.

(** ** RoleDerivationGenerator *)

Module RoleDerivationSpec.
Import Generator RoleDerivationGenerator.

(** A grant rule that [generateDerivations] reaches: role [target_role] on
    resource [target_resource] is granted by [info]. *)
Record Grant := {
  target_resource : string;
  target_role : string;
  info : GrantInfo;
}.

Definition complete_grant (g : GrantInfo) : bool :=
  Js.truthy (role g) && Js.truthy (on_resource g) && Js.truthy (linked_by_relation g).

Definition grants_of_role (resourceKey : string) (r : ResourceRoleRead) : list Grant :=
  if Js.truthy (role_key r)
  then List.map (fun g => {| target_resource := resourceKey; target_role := role_key r;
                             info := g |})
         (List.filter complete_grant (grants_of r))
  else [].

(** The grant rules of a resource map, in the order the loops visit them. *)
Definition qualifying_grants (resourceMap : list (string * ResourceData)) : list Grant :=
  List.flat_map
    (fun entry => List.flat_map (grants_of_role (fst entry)) (roles (snd entry)))
    resourceMap.

(** The relations of a resource map that have a key, a subject and an
    object, in the order they were gathered. *)
Definition all_relations (resourceMap : list (string * ResourceData)) : list RelationRead :=
  List.flat_map
    (fun entry => List.filter is_complete_relation (relations (snd entry)))
    resourceMap.

Definition relation_mappingKey (r : RelationRead) : string :=
  mappingKey (subject_resource r) (key r) (object_resource r).

Definition grant_mappingKey (g : Grant) : string :=
  mappingKey (on_resource (info g)) (linked_by_relation (info g)) (target_resource g).

(** The relation a grant resolves to: the last gathered one whose mapping
    key is the grant's. *)
Definition resolve (resourceMap : list (string * ResourceData)) (g : Grant)
  : option RelationRead :=
  List.find (fun r => String.eqb (relation_mappingKey r) (grant_mappingKey g))
    (rev (all_relations resourceMap)).

(** The name under which the generator refers to a relation block. *)
Definition relation_block_name (r : RelationRead) : string :=
  subject_resource r +:+ "_" +:+ object_resource r.

(** The derivation the specification describes for a grant resolved to the
    relation [r]. *)
Definition specified_derivation (g : Grant) (r : RelationRead) : RoleDerivationData :=
  {| id := createDerivationId (role (info g)) (target_role g);
     derivation_resource := target_resource g;
     derivation_role := role (info g);
     linked_by := relation_block_name r;
     derivation_on_resource := on_resource (info g);
     to_role := target_role g;
     dependencies :=
       [ "permitio_role." +:+ role (info g);
         "permitio_resource." +:+ on_resource (info g);
         "permitio_role." +:+ target_role g;
         "permitio_resource." +:+ target_resource g;
         "permitio_relation." +:+ relation_block_name r ] |}.

Definition derived (resourceMap : list (string * ResourceData)) (g : Grant)
  : list RoleDerivationData :=
  match resolve resourceMap g with
  | Some r => [specified_derivation g r]
  | None => []
  end.

Definition warned (resourceMap : list (string * ResourceData)) (g : Grant) : list string :=
  match resolve resourceMap g with
  | Some _ => []
  | None => ["Could not find relation mapping for " +:+ grant_mappingKey g]
  end.

(** The relation links role [A] on [R1] to the grant's target resource. *)
Definition links (r : RelationRead) (g : Grant) : Prop :=
  subject_resource r = on_resource (info g) /\
  key r = linked_by_relation (info g) /\
  object_resource r = target_resource g.

Definition no_colon (s : string) : bool :=
  Js.all_chars (fun c => negb (Ascii.eqb c ":"%char)) s.

(** No resource key and no relation key that takes part in a mapping key
    holds a colon. *)
Definition colon_free (resourceMap : list (string * ResourceData)) : bool :=
  forallb (fun r => no_colon (subject_resource r) && no_colon (key r))
    (all_relations resourceMap)
  && forallb (fun g => no_colon (on_resource (info g))
                       && no_colon (linked_by_relation (info g)))
       (qualifying_grants resourceMap).

Definition mapping_of (r : RelationRead) : TerraformRelationMapping :=
  {| relationKey := key r;
     sourceResource := subject_resource r;
     targetResource := object_resource r;
     terraformResourceName := relation_block_name r |}.

Definition mappings_of (rels : list RelationRead) (m : gmap string TerraformRelationMapping)
  : gmap string TerraformRelationMapping :=
  fold_left (fun m r => <[relation_mappingKey r := mapping_of r]> m) rels m.

Section Derivations.
Variable resourceMap : list (string * ResourceData).

(** What one grant rule contributes, as the code computes it from the
    mapping table. *)
Definition grant_derivations (resourceKey roleKey : string) (g : GrantInfo)
  : list RoleDerivationData :=
  if complete_grant g
  then derived resourceMap
         {| target_resource := resourceKey; target_role := roleKey; info := g |}
  else [].

Definition grant_warnings (resourceKey roleKey : string) (g : GrantInfo) : list string :=
  if complete_grant g
  then warned resourceMap
         {| target_resource := resourceKey; target_role := roleKey; info := g |}
  else [].

End Derivations.

End RoleDerivationSpec.

(** ** Further closed forms *)

Module SanitizerSpec.

(** Two identifiers joined by an underscore, an empty one dropping out. *)
Definition glue (a b : string) : string :=
  if Js.truthy a then if Js.truthy b then a +:+ "_" +:+ b else a else b.

End SanitizerSpec.

Module FormatSpec.
Import FormatDescription.

(** A character of a word: a letter, a digit, an underscore or one of
    [.,!?()-]. *)
Definition is_word_char (c : ascii) : bool :=
  Js.is_ident_char c || is_punctuation c.

Definition is_empty (s : string) : bool := negb (Js.truthy s).

(** Words of word characters with single spaces (U+0020) between them: a
    space never follows a space ([after_space]) and never ends the text. *)
Fixpoint spaced (after_space : bool) (s : string) : bool :=
  match s with
  | EmptyString => true
  | String c r =>
      if Ascii.eqb c " "
      then negb after_space && negb (is_empty r) && spaced true r
      else is_word_char c && spaced false r
  end.

(** No space at the start either. *)
Definition tidy (s : string) : bool := spaced true s.

End FormatSpec.

Module PhaseSpec.
Import ExportContent ExportSpec.

(** The relation blocks of one resource, under their title. *)
Definition relations_of (permit : PermitApi) (resource : Resource) : string :=
  titled ("# Resource Relations for " +:+ resource_key resource)
    (relation_block resource)
    (listed (resourceRelations_list permit (resource_key resource))).

(** A section of validated records: the title when there is any record,
    then the blocks of the valid ones. *)
Definition valid_section {A} (title : string) (invalid : A -> bool) (block : A -> string)
    (l : list A) : string :=
  if nonempty l
  then nl +:+ title +:+ nl +:+ blocks block (List.filter (fun x => negb (invalid x)) l)
  else "".

End PhaseSpec.

Module GatherSpec.
Import Generator RoleDerivationGenerator.

(** Both listings of a resource key resolve. *)
Definition gatherable (permit : PermitApi) (k : string) : bool :=
  match resourceRoles_list permit k, resourceRelations_list permit k with
  | Resolved _, Resolved _ => true
  | _, _ => false
  end.

(** What [gatherResourceData] stores for a resource. *)
Definition gathered_data (permit : PermitApi) (r : ResourceRead) : ResourceData :=
  {| resource := r;
     roles := ExportSpec.listed (resourceRoles_list permit (resource_key r));
     relations := ExportSpec.listed (resourceRelations_list permit (resource_key r)) |}.

(** One turn of the loop of [gatherResourceData]. *)
Definition gather_step (permit : PermitApi) (m : list (string * ResourceData))
    (r : ResourceRead) : list (string * ResourceData) :=
  if Js.truthy (resource_key r) && gatherable permit (resource_key r)
  then map_set (resource_key r) (gathered_data permit r) m
  else m.

(** The warning of one turn: the first of the two listings that is
    rejected. *)
Definition gather_warning (permit : PermitApi) (r : ResourceRead) : list string :=
  if Js.truthy (resource_key r)
  then
    match resourceRoles_list permit (resource_key r),
          resourceRelations_list permit (resource_key r) with
    | Rejected e, _ | Resolved _, Rejected e =>
        ["Failed to gather data for resource '" +:+ resource_key r +:+ "': " +:+ String_of e]
    | Resolved _, Resolved _ => []
    end
  else [].

(** An entry of the gathered map holds what the two listings of its key
    answer. *)
Definition faithful_entry (permit : PermitApi) (entry : string * ResourceData) : Prop :=
  Js.truthy (fst entry) = true
  /\ resource_key (resource (snd entry)) = fst entry
  /\ resourceRoles_list permit (fst entry) = Resolved (roles (snd entry))
  /\ resourceRelations_list permit (fst entry) = Resolved (relations (snd entry)).

End GatherSpec.

Module SinglePageSpec.
Import ConditionSetRules.

(** The rule names an autogenerated user set that is not among the
    fetched keys. *)
Definition dangling (availableUserSets : gset string) (rule : ConditionSetRule) : bool :=
  Js.startsWith (user_set rule) "__autogen_"
  && negb (bool_decide (user_set rule ∈ availableUserSets)).

(** The entry the single-page edition renders for a rule. *)
Definition rendered (rule : ConditionSetRule) : ConditionSetRuleData :=
  {| key := ruleKey (user_set rule) (resource_set rule) (rule_permission rule);
     userSet := createSafeId [user_set rule];
     resourceSet := createSafeId [resource_set rule];
     permission := rule_permission rule;
     isAutogenerated := Js.startsWith (user_set rule) "__autogen_" |}.

Definition skip_warning (rule : ConditionSetRule) : string :=
  "Skipping condition set rule referencing non-existent user set: " +:+ user_set rule.

End SinglePageSpec.

Module WildcardSpec.
Import ConditionSetGeneratorWildcard.

(** The entry the wildcard edition renders for a rule. *)
Definition rendered (rule : ConditionSetRule) : ConditionSetRuleData :=
  {| key := createSafeId ["allow_" +:+ resource_set rule];
     userSet := createSafeId [replace_first "__autogen_" "" (user_set rule)];
     resourceSet := createSafeId [resource_set rule];
     permission := rule_permission rule |}.

End WildcardSpec.

(** ** Sample inputs *)

Definition sample_user_resource : UserAttributesGenerator.ResourceRead :=
  {| UserAttributesGenerator.attributes :=
       Some [ ("email", {| UserAttributesGenerator.attribute_type := "string";
                           UserAttributesGenerator.attribute_description := None |});
              ("age", {| UserAttributesGenerator.attribute_type := "Number";
                         UserAttributesGenerator.attribute_description := Some "Age" |});
              ("legacy", {| UserAttributesGenerator.attribute_type := "string";
                            UserAttributesGenerator.attribute_description :=
                              Some "A Built-In Attribute of old" |});
              ("badge", {| UserAttributesGenerator.attribute_type := "uuid";
                           UserAttributesGenerator.attribute_description := None |}) ] |}.

Definition sample_user_api : UserAttributesGenerator.PermitApi :=
  {| UserAttributesGenerator.resources_get := fun _ => Resolved (Some sample_user_resource) |}.

(** A [__user] resource with one attribute, of the type [constructor]. *)
Definition inherited_type_api : UserAttributesGenerator.PermitApi :=
  {| UserAttributesGenerator.resources_get := fun _ =>
       Resolved
         (Some {| UserAttributesGenerator.attributes :=
                    Some [ ("origin",
                            {| UserAttributesGenerator.attribute_type := "constructor";
                               UserAttributesGenerator.attribute_description := None |}) ] |})
  |}.

Definition sample_rule : ConditionSetRules.ConditionSetRule :=
  {| ConditionSetRules.user_set := "us"; ConditionSetRules.resource_set := "rs";
     ConditionSetRules.rule_permission := "doc:read" |}.

(** Pages of 100, 100 and 37 records. *)
Definition sample_pages : list (list ConditionSetRules.ConditionSetRule) :=
  [List.repeat sample_rule 100; List.repeat sample_rule 100; List.repeat sample_rule 37].

(** A source that serves [sample_pages] and nothing after them. *)
Definition sample_paged_api : ConditionSetRules.PermitApi :=
  {| ConditionSetRules.conditionSetRules_list := fun params =>
       Resolved (default [] (sample_pages !! pred (ConditionSetRules.page params)));
     ConditionSetRules.conditionSets_list := Resolved [] |}.

(** Folder members view the documents of the folder; the grant through
    [owner] names a relation that does not exist. *)
Definition sample_resourceMap : list (string * RoleDerivationGenerator.ResourceData) :=
  [ ("folder",
     {| RoleDerivationGenerator.resource :=
          {| RoleDerivationGenerator.resource_key := "folder" |};
        RoleDerivationGenerator.roles :=
          [ {| RoleDerivationGenerator.role_key := "Member";
               RoleDerivationGenerator.granted_to := None |} ];
        RoleDerivationGenerator.relations :=
          [ {| RoleDerivationGenerator.key := "parent";
               RoleDerivationGenerator.subject_resource := "folder";
               RoleDerivationGenerator.object_resource := "document" |} ] |});
    ("document",
     {| RoleDerivationGenerator.resource :=
          {| RoleDerivationGenerator.resource_key := "document" |};
        RoleDerivationGenerator.roles :=
          [ {| RoleDerivationGenerator.role_key := "viewer";
               RoleDerivationGenerator.granted_to :=
                 Some {| RoleDerivationGenerator.users_with_role :=
                           Some [ {| RoleDerivationGenerator.role := "Member";
                                     RoleDerivationGenerator.on_resource := "folder";
                                     RoleDerivationGenerator.linked_by_relation := "parent" |};
                                  {| RoleDerivationGenerator.role := "Member";
                                     RoleDerivationGenerator.on_resource := "folder";
                                     RoleDerivationGenerator.linked_by_relation := "owner" |} ]
                      |} |} ];
        RoleDerivationGenerator.relations := [] |}) ].

(** A rule whose resource set is autogenerated and was not fetched. *)
Definition stale_rule : ConditionSetRules.ConditionSetRule :=
  {| ConditionSetRules.user_set := "admins";
     ConditionSetRules.resource_set := "__autogen_docs";
     ConditionSetRules.rule_permission := "document:read" |}.

(** A source with the rule [stale_rule] and the user set [admins] only. *)
Definition stale_rule_api : ConditionSetRules.PermitApi :=
  {| ConditionSetRules.conditionSetRules_list := fun _ => Resolved [stale_rule];
     ConditionSetRules.conditionSets_list :=
       Resolved [ {| ConditionSetRules.set_type := "userset";
                     ConditionSetRules.set_key := "admins" |} ] |}.

(** A template that prints the resource set of every rule it is given. *)
Definition resource_sets_template (rules : list ConditionSetRules.ConditionSetRuleData)
  : string :=
  Js.join "," (List.map ConditionSetRules.resourceSet rules).

(** A user set whose [name] is missing. *)
Definition nameless_user_set : UserSetGenerator.ConditionSetRead :=
  {| UserSetGenerator.type := "userset";
     UserSetGenerator.key := Some "vip-users";
     UserSetGenerator.name := None;
     UserSetGenerator.description := None;
     UserSetGenerator.conditions := Some (JObject []);
     UserSetGenerator.resource_id := None |}.

Definition nameless_user_set_api : UserSetGenerator.PermitApi :=
  {| UserSetGenerator.conditionSets_list := Resolved [nameless_user_set] |}.

(** A template that prints the key of every set it is given. *)
Definition set_keys_template (sets : list UserSetGenerator.UserSetData) : string :=
  Js.join "," (List.map UserSetGenerator.data_key sets).

(** The same record as the monolithic exporter reads it. *)
Definition nameless_condition_set : ExportContent.ConditionSet :=
  {| ExportContent.set_type := "userset";
     ExportContent.set_key := Some "vip-users";
     ExportContent.set_name := None;
     ExportContent.set_description := None;
     ExportContent.set_resource_id := None;
     ExportContent.set_conditions := Some (JObject []) |}.

Definition sample_JSON : ExportContent.JSON :=
  {| ExportContent.stringify_strings := fun l => "[" +:+ Js.join "," l +:+ "]";
     ExportContent.stringify_indent2 := fun _ => "{}";
     ExportContent.stringify_set := fun set => Js.or_empty (ExportContent.set_key set);
     ExportContent.stringify_rule := fun rule =>
       Js.or_empty (ExportContent.rule_permission rule) |}.

Definition sample_scope : ExportContent.ScopeResult :=
  {| ExportContent.valid := true;
     ExportContent.scope_error := None;
     ExportContent.scope :=
       Some {| ExportContent.environment_id := Some "env1";
               ExportContent.project_id := Some "proj1";
               ExportContent.organization_id := None |} |}.

Definition sample_resources : list ExportContent.Resource :=
  [ {| ExportContent.resource_key := "__user";
       ExportContent.resource_name := "User";
       ExportContent.resource_description := None;
       ExportContent.resource_urn := None;
       ExportContent.resource_actions := [];
       ExportContent.resource_attributes :=
         Some [("tier", {| ExportContent.attribute_type := "string";
                           ExportContent.attribute_description := None |})] |};
    {| ExportContent.resource_key := "document";
       ExportContent.resource_name := "Document";
       ExportContent.resource_description := None;
       ExportContent.resource_urn := None;
       ExportContent.resource_actions :=
         [("read", {| ExportContent.action_name := "Read";
                      ExportContent.action_description := None |})];
       ExportContent.resource_attributes := None |} ].

(** A client for which every listing resolves; attributes are listed for
    [__user] only. *)
Definition sample_api : ExportContent.PermitApi :=
  {| ExportContent.resources_list := Resolved sample_resources;
     ExportContent.resourceRelations_list := fun _ => Resolved [];
     ExportContent.roles_list :=
       Resolved [ {| ExportContent.role_key := "viewer";
                     ExportContent.role_name := "Viewer";
                     ExportContent.role_description := None;
                     ExportContent.role_permissions := Some ["document:read"];
                     ExportContent.role_extends := None |} ];
     ExportContent.resourceAttributes_list := fun k =>
       if String.eqb k "__user"
       then Resolved [ {| ExportContent.user_attribute_key := "tier";
                          ExportContent.user_attribute_type := "string";
                          ExportContent.user_attribute_description := None |} ]
       else Rejected (new_Error "404 Not Found");
     ExportContent.conditionSets_list := Resolved [nameless_condition_set];
     ExportContent.conditionSetRules_list := fun _ _ _ => Resolved [] |}.

Definition sample_world : ExportContent.World :=
  {| ExportContent.validateApiKeyScope := fun _ _ => Resolved sample_scope;
     ExportContent.Permit := fun _ => sample_api;
     ExportContent.fs_writeFile := fun _ _ => Resolved tt;
     ExportContent.isSubscribed := fun _ => true |}.

(** The same client, except that the Resources listing is rejected. *)
Definition resources_down_api : ExportContent.PermitApi :=
  {| ExportContent.resources_list := Rejected (new_Error "503 Service Unavailable");
     ExportContent.resourceRelations_list := ExportContent.resourceRelations_list sample_api;
     ExportContent.roles_list := ExportContent.roles_list sample_api;
     ExportContent.resourceAttributes_list :=
       ExportContent.resourceAttributes_list sample_api;
     ExportContent.conditionSets_list := ExportContent.conditionSets_list sample_api;
     ExportContent.conditionSetRules_list :=
       ExportContent.conditionSetRules_list sample_api |}.

Definition resources_down_world : ExportContent.World :=
  {| ExportContent.validateApiKeyScope := fun _ _ => Resolved sample_scope;
     ExportContent.Permit := fun _ => resources_down_api;
     ExportContent.fs_writeFile := fun _ _ => Resolved tt;
     ExportContent.isSubscribed := fun _ => true |}.

(** The same client, except that the Roles listing is rejected. *)
Definition roles_down_api : ExportContent.PermitApi :=
  {| ExportContent.resources_list := ExportContent.resources_list sample_api;
     ExportContent.resourceRelations_list := ExportContent.resourceRelations_list sample_api;
     ExportContent.roles_list := Rejected (new_Error "503 Service Unavailable");
     ExportContent.resourceAttributes_list :=
       ExportContent.resourceAttributes_list sample_api;
     ExportContent.conditionSets_list := ExportContent.conditionSets_list sample_api;
     ExportContent.conditionSetRules_list :=
       ExportContent.conditionSetRules_list sample_api |}.

Definition roles_down_world : ExportContent.World :=
  {| ExportContent.validateApiKeyScope := fun _ _ => Resolved sample_scope;
     ExportContent.Permit := fun _ => roles_down_api;
     ExportContent.fs_writeFile := fun _ _ => Resolved tt;
     ExportContent.isSubscribed := fun _ => true |}.

(** A world whose file system refuses every write. *)
Definition readonly_world : ExportContent.World :=
  {| ExportContent.validateApiKeyScope := fun _ _ => Resolved sample_scope;
     ExportContent.Permit := fun _ => roles_down_api;
     ExportContent.fs_writeFile := fun _ _ => Rejected (new_Error "EACCES: permission denied");
     ExportContent.isSubscribed := fun _ => true |}.

(** A world whose component is unmounted while the generators run. *)
Definition unmounted_world : ExportContent.World :=
  {| ExportContent.validateApiKeyScope := fun _ _ => Resolved sample_scope;
     ExportContent.Permit := fun _ => roles_down_api;
     ExportContent.fs_writeFile := fun _ _ => Resolved tt;
     ExportContent.isSubscribed := fun c =>
       match c with ExportContent.AfterValidation => true | _ => false end |}.

Definition plain_resource (k : string) : ExportContent.Resource :=
  {| ExportContent.resource_key := k;
     ExportContent.resource_name := k;
     ExportContent.resource_description := None;
     ExportContent.resource_urn := None;
     ExportContent.resource_actions := [];
     ExportContent.resource_attributes := None |}.

(** A client whose relations listing works for [folder] only. *)
Definition relations_down_api : ExportContent.PermitApi :=
  {| ExportContent.resources_list :=
       Resolved [plain_resource "folder"; plain_resource "document"; plain_resource "team"];
     ExportContent.resourceRelations_list := fun k =>
       if String.eqb k "folder"
       then Resolved [ {| ExportContent.relation_key := "parent";
                          ExportContent.relation_name := "Parent";
                          ExportContent.relation_object_resource := "document";
                          ExportContent.relation_description := None |} ]
       else Rejected (new_Error "500 Internal Server Error");
     ExportContent.roles_list := Resolved [];
     ExportContent.resourceAttributes_list := fun _ => Resolved [];
     ExportContent.conditionSets_list := Resolved [];
     ExportContent.conditionSetRules_list := fun _ _ _ => Resolved [] |}.

(** A source that serves a full page whatever page is asked for. *)
Definition endless_api : ConditionSetRules.PermitApi :=
  {| ConditionSetRules.conditionSetRules_list := fun _ =>
       Resolved (List.repeat sample_rule 100);
     ConditionSetRules.conditionSets_list := Resolved [] |}.

(** A source whose second page cannot be fetched. *)
Definition broken_page_api : ConditionSetRules.PermitApi :=
  {| ConditionSetRules.conditionSetRules_list := fun params =>
       if Nat.eqb (ConditionSetRules.page params) 1
       then Resolved (List.repeat sample_rule 100)
       else Rejected (new_Error "502 Bad Gateway");
     ConditionSetRules.conditionSets_list := Resolved [] |}.

(** * Properties *)

(** ** The identifier sanitizer *)

Lemma or_empty_Some (s : string) : Js.or_empty (Some s) = s.
Proof. destruct s; reflexivity. Qed.

Lemma is_ident_char_underscore : Js.is_ident_char "_"%char = true.
Proof. reflexivity. Qed.

Lemma replace_char_ident (c : ascii) :
  Js.is_ident_char (if Js.is_ident_char c then c else "_"%char) = true.
Proof. destruct (Js.is_ident_char c) eqn:E; [exact E | reflexivity]. Qed.

Lemma all_chars_map_chars (p : ascii -> bool) (f : ascii -> ascii) (s : string) :
  (forall c, p (f c) = true) -> Js.all_chars p (Js.map_chars f s) = true.
Proof.
  intros Hf. induction s as [|c s IH]; cbn [Js.map_chars Js.all_chars]; [reflexivity|].
  rewrite Hf, IH. reflexivity.
Qed.

Lemma map_chars_fixed (p : ascii -> bool) (f : ascii -> ascii) (s : string) :
  (forall c, p c = true -> f c = c) ->
  Js.all_chars p s = true -> Js.map_chars f s = s.
Proof.
  intros Hf. induction s as [|c s IH]; cbn [Js.map_chars Js.all_chars]; [reflexivity|].
  intros [Hc Hs]%andb_prop. rewrite (Hf c Hc), (IH Hs). reflexivity.
Qed.

Lemma replace_non_ident_matches (s : string) :
  Js.matches_identifier (Js.replace_non_ident s) = true.
Proof. apply all_chars_map_chars, replace_char_ident. Qed.

Lemma replace_non_ident_fixed (s : string) :
  Js.matches_identifier s = true -> Js.replace_non_ident s = s.
Proof.
  apply map_chars_fixed. intros c Hc. rewrite Hc. reflexivity.
Qed.

Lemma replace_non_ident_idempotent (s : string) :
  Js.replace_non_ident (Js.replace_non_ident s) = Js.replace_non_ident s.
Proof. apply replace_non_ident_fixed, replace_non_ident_matches. Qed.

Lemma createSafeId_single (x : string) : createSafeId [x] = Js.replace_non_ident x.
Proof.
  unfold createSafeId. cbn [List.map]. rewrite or_empty_Some.
  destruct x; reflexivity.
Qed.

Lemma all_chars_app (p : ascii -> bool) (s t : string) :
  Js.all_chars p (s +:+ t) = Js.all_chars p s && Js.all_chars p t.
Proof.
  induction s as [|c s IH]; simpl; [reflexivity|].
  rewrite IH. apply andb_assoc.
Qed.

Lemma join_matches (l : list string) :
  Forall (fun s => Js.matches_identifier s = true) l ->
  Js.matches_identifier (Js.join "_" l) = true.
Proof.
  unfold Js.join, Js.matches_identifier.
  induction 1 as [|s l Hs Hl IH]; [reflexivity|].
  destruct l as [|t l]; cbn [String.concat] in *; [exact Hs|].
  rewrite !all_chars_app, Hs. exact IH.
Qed.

(** C2. The sanitizer is idempotent on a single string, its result on any
    list of parts consists of characters of [[A-Za-z0-9_]] only, and on the
    parts ["a-b"] and ["c d"] it is ["a_b_c_d"]. Being a function of its
    parts, it yields the same identifier for the same parts. *)
Theorem createSafeId_idempotent_and_safe :
  (forall x : string, createSafeId [createSafeId [x]] = createSafeId [x]) /\
  (forall parts : list string, Js.matches_identifier (createSafeId parts) = true) /\
  createSafeId ["a-b"; "c d"] = "a_b_c_d".
Proof.
  split; [|split].
  - intros x. rewrite !createSafeId_single. apply replace_non_ident_idempotent.
  - intros parts. unfold createSafeId. apply join_matches.
    induction parts as [|p parts IH]; cbn [List.map List.filter]; [constructor|].
    rewrite or_empty_Some.
    destruct (Js.truthy (Js.replace_non_ident p)); [constructor|]; auto.
    apply replace_non_ident_matches.
  - reflexivity.
Qed.

(** C5 (as stated). The derivation identifier is not the concatenation of
    the sanitized role keys: [createDerivationId] also lower-cases them. *)
Lemma createDerivationId_differs_from_sanitizer :
  RoleDerivationGenerator.createDerivationId "Admin" "Editor" = "admin_to_editor"
  /\ createSafeId ["Admin"] +:+ "_to_" +:+ createSafeId ["Editor"] = "Admin_to_Editor"
  /\ String.eqb (RoleDerivationGenerator.createDerivationId "Admin" "Editor")
       (createSafeId ["Admin"] +:+ "_to_" +:+ createSafeId ["Editor"]) = false.
Proof. repeat split. Qed.

(** C5 (amended). The derivation identifier is the lower-cased sanitized
    source role key, then ["_to_"], then the lower-cased sanitized target
    role key. *)
Theorem createDerivationId_lowercased_sanitizer (S T : string) :
  RoleDerivationGenerator.createDerivationId S T
  = Js.toLowerCase (createSafeId [S]) +:+ "_to_" +:+ Js.toLowerCase (createSafeId [T]).
Proof.
  unfold RoleDerivationGenerator.createDerivationId, RoleDerivationGenerator.sanitizeId.
  rewrite !createSafeId_single. reflexivity.
Qed.

(** ** The monolithic exporter *)

Lemma append_nil_r (s : string) : s +:+ "" = s.
Proof.
  induction s as [|c s IH]; [reflexivity|].
  change (String c (s +:+ "") = String c s). f_equal; exact IH.
Qed.

Lemma append_assoc (a b c : string) : (a +:+ b) +:+ c = a +:+ (b +:+ c).
Proof.
  induction a as [|x a IH]; [reflexivity|].
  change (String x ((a +:+ b) +:+ c) = String x (a +:+ (b +:+ c))). f_equal; exact IH.
Qed.

Module ExportFacts.
Import ExportContent ExportSpec.

Lemma steps_refl m : steps m m "" [].
Proof.
  unfold steps. rewrite append_nil_r, app_nil_r. auto.
Qed.

Lemma steps_trans m1 m2 m3 t1 t2 w1 w2 :
  steps m1 m2 t1 w1 -> steps m2 m3 t2 w2 ->
  steps m1 m3 (t1 +:+ t2) (w1 ++ w2)%list.
Proof.
  unfold steps. intros (H1 & H2 & H3 & H4 & H5) (G1 & G2 & G3 & G4 & G5).
  rewrite G1, G2, G3, G4, G5, H1, H2, H3, H4, H5.
  rewrite append_assoc, <- app_assoc. auto.
Qed.

Lemma runs_ret {A} (a : A) : runs (ret a) (Normal a) "" [].
Proof. intros m. exists m. split; [reflexivity | apply steps_refl]. Qed.

Lemma runs_bind {A B} (c : M A) (k : A -> M B) a r t1 t2 w1 w2 :
  runs c (Normal a) t1 w1 -> runs (k a) r t2 w2 ->
  runs (bind c k) r (t1 +:+ t2) (w1 ++ w2)%list.
Proof.
  intros Hc Hk m. destruct (Hc m) as (m1 & E1 & S1).
  destruct (Hk m1) as (m2 & E2 & S2). exists m2.
  unfold bind. rewrite E1. split; [exact E2 | eapply steps_trans; eauto].
Qed.

Lemma runs_bind_thrown {A B} (c : M A) (k : A -> M B) e t w :
  runs c (Thrown e) t w -> runs (bind c k) (Thrown e) t w.
Proof.
  intros Hc m. destruct (Hc m) as (m1 & E1 & S1). exists m1.
  unfold bind. rewrite E1. auto.
Qed.

Lemma runs_try_normal (body : M unit) handler t w :
  runs body (Normal tt) t w -> runs (try_catch body handler) (Normal tt) t w.
Proof.
  intros Hc m. destruct (Hc m) as (m1 & E1 & S1). exists m1.
  unfold try_catch. rewrite E1. auto.
Qed.

Lemma runs_try_thrown (body : M unit) handler e r t1 t2 w1 w2 :
  runs body (Thrown e) t1 w1 -> runs (handler e) r t2 w2 ->
  runs (try_catch body handler) r (t1 +:+ t2) (w1 ++ w2)%list.
Proof.
  intros Hc Hk m. destruct (Hc m) as (m1 & E1 & S1).
  destruct (Hk m1) as (m2 & E2 & S2). exists m2.
  unfold try_catch. rewrite E1. split; [exact E2 | eapply steps_trans; eauto].
Qed.

Lemma runs_status s : runs (setState (with_status s)) (Normal tt) "" [].
Proof.
  intros m. eexists. split; [reflexivity|].
  unfold steps; simpl. rewrite append_nil_r, app_nil_r. auto.
Qed.

Lemma runs_addWarning w : runs (addWarning w) (Normal tt) "" [w].
Proof.
  intros m. eexists. split; [reflexivity|].
  unfold steps; simpl. rewrite append_nil_r. auto.
Qed.

Lemma runs_append_hcl t : runs (append_hcl t) (Normal tt) t [].
Proof.
  intros m. eexists. split; [reflexivity|].
  unfold steps; simpl. rewrite app_nil_r. auto.
Qed.

Lemma runs_await_resolved {A} (a : A) : runs (await (Resolved a)) (Normal a) "" [].
Proof. intros m. exists m. split; [reflexivity | apply steps_refl]. Qed.

Lemma runs_await_rejected {A} e : runs (await (@Rejected A e)) (Thrown e) "" [].
Proof. intros m. exists m. split; [reflexivity | apply steps_refl]. Qed.

Lemma runs_eq {A} (c : M A) r t t' w w' :
  runs c r t w -> t = t' -> w = w' -> runs c r t' w'.
Proof. intros H -> ->. exact H. Qed.

(** A loop whose body appends one text and some warnings per element. *)
Lemma runs_for_of {A} (l : list A) (body : A -> M unit)
    (text : A -> string) (warns : A -> list string) :
  (forall x, runs (body x) (Normal tt) (text x) (warns x)) ->
  runs (for_of l body) (Normal tt) (blocks text l) (List.flat_map warns l).
Proof.
  intros Hbody. induction l as [|x l IH]; cbn [for_of blocks fold_right List.flat_map].
  - apply runs_ret.
  - eapply runs_bind; [apply Hbody | exact IH].
Qed.

Lemma flat_map_no_warnings {A} (l : list A) :
  List.flat_map (fun _ => @nil string) l = [].
Proof. induction l; auto. Qed.

Ltac same_text :=
  rewrite ?append_assoc, ?append_nil_r, ?app_nil_r, <- ?app_assoc; reflexivity.

(** [if (l.length > 0) { hcl += title; for (x of l) body(x) }] *)
Lemma runs_section {A} (l : list A) (title : string) (body : A -> M unit)
    (text : A -> string) (warns : A -> list string) :
  (forall x, runs (body x) (Normal tt) (text x) (warns x)) ->
  runs (when (nonempty l) (append_hcl (nl +:+ title +:+ nl) ;; for_of l body))
       (Normal tt) (titled title text l) (List.flat_map warns l).
Proof.
  intros Hbody. unfold titled. destruct l as [|x l]; cbn [nonempty when].
  - apply runs_ret.
  - eapply runs_eq;
      [eapply runs_bind; [apply runs_append_hcl | apply runs_for_of, Hbody] | |];
      same_text.
Qed.

(** *** The phases *)

Section ClosedForms.
Variable JSON_ : JSON.

Local Abbreviation user_set_warning := (ExportSpec.user_set_warning JSON_).
Local Abbreviation resource_set_warning := (ExportSpec.resource_set_warning JSON_).
Local Abbreviation rule_warning := (ExportSpec.rule_warning JSON_).
Local Abbreviation user_sets_text := (ExportSpec.user_sets_text JSON_).
Local Abbreviation user_sets_warnings := (ExportSpec.user_sets_warnings JSON_).
Local Abbreviation resource_sets_text := (ExportSpec.resource_sets_text JSON_).
Local Abbreviation resource_sets_warnings := (ExportSpec.resource_sets_warnings JSON_).
Local Abbreviation rules_warnings := (ExportSpec.rules_warnings JSON_).
Local Abbreviation condition_sets_text := (ExportSpec.condition_sets_text JSON_).
Local Abbreviation condition_sets_warnings := (ExportSpec.condition_sets_warnings JSON_).
Local Abbreviation guarded_text := (ExportSpec.guarded_text JSON_).
Local Abbreviation guarded_warnings := (ExportSpec.guarded_warnings JSON_).

Lemma runs_export_resources permit rs :
  resources_list permit = Resolved rs ->
  runs (export_resources permit) (Normal (validResources_of rs))
       (titled "# Resources" resource_block (validResources_of rs)) [].
Proof.
  intros H. unfold export_resources. rewrite H.
  eapply runs_eq;
    [eapply runs_bind; [apply runs_status|];
     eapply runs_bind; [apply runs_await_resolved|];
     eapply runs_bind; [|apply runs_ret];
     apply runs_section with (warns := fun _ => []);
     intros x; apply runs_append_hcl | |].
  - same_text.
  - rewrite flat_map_no_warnings. reflexivity.
Qed.

Lemma runs_export_resources_rejected permit e :
  resources_list permit = Rejected e ->
  runs (export_resources permit) (Thrown e) "" [].
Proof.
  intros H. unfold export_resources. rewrite H.
  eapply runs_eq;
    [eapply runs_bind; [apply runs_status|];
     apply runs_bind_thrown, runs_await_rejected | |]; reflexivity.
Qed.

Lemma runs_relations_loop permit rs :
  runs (for_of rs (fun resource =>
          let* relations := await (resourceRelations_list permit (resource_key resource)) in
          when (nonempty relations)
            (append_hcl (nl +:+ "# Resource Relations for " +:+ resource_key resource +:+ nl) ;;
             for_of relations (fun relation =>
               append_hcl (relation_block resource relation)))))
       (match snd (relations_outcome permit rs) with
        | None => Normal tt
        | Some e => Thrown e
        end)
       (fst (relations_outcome permit rs)) [].
Proof.
  induction rs as [|r rs IH]; cbn [for_of relations_outcome].
  - apply runs_ret.
  - destruct (resourceRelations_list permit (resource_key r)) as [rels|e]; cbn [fst snd].
    + destruct (relations_outcome permit rs) as [t e]; cbn [fst snd] in *.
      eapply runs_eq;
        [eapply runs_bind;
           [eapply runs_bind; [apply runs_await_resolved|];
            apply (runs_section rels ("# Resource Relations for " +:+ resource_key r)
                     (fun relation => append_hcl (relation_block r relation))
                     (relation_block r) (fun _ => []));
            intros x; apply runs_append_hcl
           | exact IH] | |].
      * same_text.
      * rewrite flat_map_no_warnings. reflexivity.
    + apply runs_bind_thrown.
      eapply runs_eq; [apply runs_bind_thrown, runs_await_rejected | |]; reflexivity.
Qed.

Lemma runs_export_relations permit valid :
  runs (export_relations permit valid) (Normal tt)
       (fst (relations_outcome permit valid))
       (failure_warning "Failed to export resource relations: "
          (snd (relations_outcome permit valid))).
Proof.
  unfold export_relations.
  pose proof (runs_relations_loop permit valid) as Hloop.
  destruct (snd (relations_outcome permit valid)) as [e|]; cbn [failure_warning].
  - eapply runs_eq;
      [eapply runs_bind; [apply runs_status|];
       eapply runs_try_thrown; [exact Hloop | apply runs_addWarning] | |];
      same_text.
  - eapply runs_eq;
      [eapply runs_bind; [apply runs_status|];
       apply runs_try_normal; exact Hloop | |];
      same_text.
Qed.

Lemma runs_export_roles permit :
  runs (export_roles JSON_ permit) (Normal tt)
       (titled "# Roles" (role_block JSON_) (listed (roles_list permit)))
       (failure_warning "Failed to export roles: " (rejection (roles_list permit))).
Proof.
  unfold export_roles.
  destruct (roles_list permit) as [roles|e]; cbn [listed rejection failure_warning].
  - eapply runs_eq;
      [eapply runs_bind; [apply runs_status|];
       apply runs_try_normal;
       eapply runs_bind; [apply runs_await_resolved|];
       apply runs_section with (warns := fun _ => []);
       intros x; apply runs_append_hcl | |].
    + same_text.
    + rewrite flat_map_no_warnings. reflexivity.
  - eapply runs_eq;
      [eapply runs_bind; [apply runs_status|];
       eapply runs_try_thrown;
         [apply runs_bind_thrown, runs_await_rejected | apply runs_addWarning] | |];
      same_text.
Qed.

Lemma runs_export_user_attributes permit :
  runs (export_user_attributes permit) (Normal tt)
       (titled "# User Attributes" user_attribute_block
          (listed (resourceAttributes_list permit "__user")))
       (failure_warning "Failed to export user attributes: "
          (rejection (resourceAttributes_list permit "__user"))).
Proof.
  unfold export_user_attributes.
  destruct (resourceAttributes_list permit "__user") as [attrs|e];
    cbn [listed rejection failure_warning].
  - eapply runs_eq;
      [eapply runs_bind; [apply runs_status|];
       apply runs_try_normal;
       eapply runs_bind; [apply runs_await_resolved|];
       apply runs_section with (warns := fun _ => []);
       intros x; apply runs_append_hcl | |].
    + same_text.
    + rewrite flat_map_no_warnings. reflexivity.
  - eapply runs_eq;
      [eapply runs_bind; [apply runs_status|];
       eapply runs_try_thrown;
         [apply runs_bind_thrown, runs_await_rejected | apply runs_addWarning] | |];
      same_text.
Qed.

(** The body of a validating loop: warn and skip, or append the block. *)
Lemma runs_validated {A} (invalid : A -> bool) (msg block : A -> string) (x : A) :
  runs (if invalid x then addWarning (msg x) else append_hcl (block x))
       (Normal tt) (validated invalid block x) (complaint invalid msg x).
Proof.
  unfold validated, complaint. destruct (invalid x).
  - apply runs_addWarning.
  - apply runs_append_hcl.
Qed.

Lemma runs_export_user_sets sets :
  runs (export_user_sets JSON_ sets) (Normal tt)
       (user_sets_text sets) (user_sets_warnings sets).
Proof.
  unfold export_user_sets, user_sets_text, user_sets_warnings.
  apply runs_section. intros x.
  apply (runs_validated invalid_user_set user_set_warning (user_set_block JSON_)).
Qed.

Lemma runs_export_resource_sets sets :
  runs (export_resource_sets JSON_ sets) (Normal tt)
       (resource_sets_text sets) (resource_sets_warnings sets).
Proof.
  unfold export_resource_sets, resource_sets_text, resource_sets_warnings.
  apply runs_section. intros x.
  apply (runs_validated invalid_resource_set resource_set_warning (resource_set_block JSON_)).
Qed.

Lemma runs_export_rules_resolved permit rules :
  conditionSetRules_list permit "" "" "" = Resolved rules ->
  runs (export_condition_set_rules JSON_ permit) (Normal tt)
       (rules_text rules) (rules_warnings rules).
Proof.
  intros H. unfold export_condition_set_rules, rules_text, rules_warnings. rewrite H.
  eapply runs_eq;
    [eapply runs_bind; [apply runs_status|];
     eapply runs_bind; [apply runs_await_resolved|];
     apply runs_section; intros x;
     apply (runs_validated invalid_rule rule_warning condition_set_rule_block) | |];
    same_text.
Qed.

Lemma runs_export_rules_rejected permit e :
  conditionSetRules_list permit "" "" "" = Rejected e ->
  runs (export_condition_set_rules JSON_ permit) (Thrown e) "" [].
Proof.
  intros H. unfold export_condition_set_rules. rewrite H.
  eapply runs_eq;
    [eapply runs_bind; [apply runs_status|];
     apply runs_bind_thrown, runs_await_rejected | |]; reflexivity.
Qed.

Lemma runs_export_condition_sets permit :
  runs (export_condition_sets JSON_ permit) (Normal tt)
       (condition_sets_text permit) (condition_sets_warnings permit).
Proof.
  unfold export_condition_sets, condition_sets_text, condition_sets_warnings.
  destruct (conditionSets_list permit) as [sets|e].
  - destruct (conditionSetRules_list permit "" "" "") as [rules|e] eqn:Hrules;
      cbn [listed rejection failure_warning].
    + eapply runs_eq;
        [eapply runs_bind; [apply runs_status|];
         apply runs_try_normal;
         eapply runs_bind; [apply runs_await_resolved|];
         eapply runs_bind; [apply runs_export_user_sets|];
         eapply runs_bind; [apply runs_export_resource_sets|];
         apply runs_export_rules_resolved, Hrules | |];
        same_text.
    + eapply runs_eq;
        [eapply runs_bind; [apply runs_status|];
         eapply runs_try_thrown; [|apply runs_addWarning];
         eapply runs_bind; [apply runs_await_resolved|];
         eapply runs_bind; [apply runs_export_user_sets|];
         eapply runs_bind; [apply runs_export_resource_sets|];
         apply runs_export_rules_rejected, Hrules | |];
        same_text.
  - cbn [failure_warning].
    eapply runs_eq;
      [eapply runs_bind; [apply runs_status|];
       eapply runs_try_thrown;
         [apply runs_bind_thrown, runs_await_rejected | apply runs_addWarning] | |];
      same_text.
Qed.

Lemma then_runs {A B} (c : M A) (k : A -> M B) a t w m :
  runs c (Normal a) t w ->
  exists m1, bind c k m = k a m1 /\ steps m m1 t w.
Proof.
  intros Hc. destruct (Hc m) as (m1 & E & S). exists m1.
  unfold bind. rewrite E. auto.
Qed.

Ltac step H m' S :=
  lazymatch goal with
  | |- exists _, bind ?c ?k ?m = _ /\ _ =>
      destruct (then_runs c k _ _ _ m H) as (m' & -> & S)
  end.

(** *** The whole run *)

Variable W : World.
Variables (apiKey authToken file : option string).

Local Abbreviation credential := (ExportSpec.credential apiKey authToken).
Local Abbreviation finish := (ExportSpec.finish W file).
Local Abbreviation artifact := (ExportSpec.artifact JSON_ W).
Local Abbreviation validated_as := (ExportSpec.validated_as W).
Local Abbreviation failed := (ExportSpec.failed W).
Local Abbreviation expected := (ExportSpec.expected JSON_ W apiKey authToken file).
Local Abbreviation caught := (ExportSpec.caught W).

Lemma export_body_generators k v rs m :
  validated_as k v ->
  isSubscribed W AfterValidation = true ->
  resources_list (Permit W k) = Resolved rs ->
  exists m1,
    export_body JSON_ W file k m = finish m1 /\
    hcl m1 = artifact (scope v) k rs /\
    warnings (state m1)
    = (warnings (state m) ++ guarded_warnings (Permit W k) (validResources_of rs))%list /\
    error (state m1) = error (state m) /\
    isComplete (state m1) = isComplete (state m) /\
    sink m1 = sink m.
Proof.
  intros (Hv & Hvalid & Herr) Hsub Hres. unfold export_body.
  step (runs_status "Validating API key...") m1 S1.
  rewrite Hv.
  change (bind (await (Resolved v)) ?k m1) with (k v m1). cbv beta.
  rewrite Hvalid, Herr, Hsub. cbn [negb orb].
  step (runs_status "Initializing Permit client...") m2 S2.
  set (m3 := {| state := state m2; hcl := header (scope v) k; sink := sink m2 |}).
  change (bind (init_hcl ?h) ?k m2) with (k tt m3). cbv beta.
  step (runs_export_resources _ _ Hres) m4 S4.
  step (runs_export_relations (Permit W k) (validResources_of rs)) m5 S5.
  step (runs_export_roles (Permit W k)) m6 S6.
  step (runs_export_user_attributes (Permit W k)) m7 S7.
  step (runs_export_condition_sets (Permit W k)) m8 S8.
  exists m8. split; [reflexivity|].
  pose proof (steps_trans _ _ _ _ _ _ _ S1 S2) as S12.
  pose proof (steps_trans _ _ _ _ _ _ _
                (steps_trans _ _ _ _ _ _ _
                   (steps_trans _ _ _ _ _ _ _
                      (steps_trans _ _ _ _ _ _ _ S4 S5) S6) S7) S8) as S48.
  destruct S12 as (_ & A2 & A3 & A4 & A5).
  destruct S48 as (B1 & B2 & B3 & B4 & B5).
  subst m3. cbn [hcl state sink] in *.
  rewrite B1, B2, B3, B4, B5, A2, A3, A4, A5.
  unfold artifact, guarded_text, guarded_warnings.
  repeat split; try reflexivity.
  - rewrite !append_assoc. reflexivity.
  - rewrite !app_nil_r. cbn [app]. rewrite <- !app_assoc. reflexivity.
Qed.

Lemma try_catch_caught (body : M unit) (m : Machine) :
  try_catch body (outer_catch W) m = caught (body m).
Proof. unfold try_catch, caught. destruct (body m) as [[] ?]; reflexivity. Qed.

Lemma caught_thrown e m :
  error (state m) = None -> isComplete (state m) = false -> sink m = [] ->
  summary (snd (caught (Thrown e, m))) = failed e (warnings (state m)).
Proof.
  intros He Hc Hs. unfold caught, outer_catch, failed, summary, errorMsg.
  destruct (isSubscribed W InCatch); cbn; rewrite ?He, ?Hc, ?Hs; reflexivity.
Qed.

Lemma caught_finish m text :
  error (state m) = None -> isComplete (state m) = false -> sink m = [] ->
  hcl m = text ->
  summary (snd (caught (finish m)))
  = if negb (isSubscribed W BeforeSink) then stopped None false (warnings (state m)) []
    else if Js.truthy_opt file
    then
      match fs_writeFile W (default "" file) text with
      | Rejected e => failed e (warnings (state m))
      | Resolved _ =>
          stopped None (isSubscribed W AfterSink) (warnings (state m))
            [FileWritten (default "" file) text]
      end
    else stopped None (isSubscribed W AfterSink) (warnings (state m)) [ConsoleLog text].
Proof.
  intros He Hc Hs Hh. unfold finish.
  destruct (isSubscribed W BeforeSink); cbn [negb].
  2:{ cbn. unfold summary, stopped. rewrite He, Hc, Hs. reflexivity. }
  unfold write_sink. destruct (Js.truthy_opt file).
  - unfold bind at 1. unfold bind at 1. cbn [setState]. unfold bind at 1.
    cbn [read_hcl hcl]. rewrite Hh. unfold bind at 1.
    destruct (fs_writeFile W (default "" file) text) as [u|e]; cbn [await].
    + destruct (isSubscribed W AfterSink); cbn;
        unfold summary, stopped; cbn; rewrite ?He, ?Hc, ?Hs; reflexivity.
    + rewrite caught_thrown; cbn; auto.
  - unfold bind at 1. unfold bind at 1. cbn [read_hcl]. rewrite Hh.
    destruct (isSubscribed W AfterSink); cbn;
      unfold summary, stopped; cbn; rewrite ?He, ?Hc, ?Hs; reflexivity.
Qed.

Lemma export_body_validation (k : string) (m : Machine) :
  exists m1,
    steps m m1 "" [] /\
    match validateApiKeyScope W k "environment" with
    | Rejected e => export_body JSON_ W file k m = (Thrown e, m1)
    | Resolved v =>
        if negb (valid v) || Js.truthy_opt (scope_error v)
        then export_body JSON_ W file k m
             = (Returned,
                {| state := with_error ("Invalid API key: " +:+
                                        interpolate_nullable (scope_error v)) (state m1);
                   hcl := hcl m1; sink := sink m1 |})
        else if negb (isSubscribed W AfterValidation)
        then export_body JSON_ W file k m = (Returned, m1)
        else True
    end.
Proof.
  unfold export_body.
  destruct (runs_status "Validating API key..." m) as (m1 & E & S).
  exists m1. split; [exact S|].
  assert (forall k' : unit -> M unit,
             bind (setState (with_status "Validating API key...")) k' m = k' tt m1)
    as Hstep by (intros k'; unfold bind; rewrite E; reflexivity).
  destruct (validateApiKeyScope W k "environment") as [v|e] eqn:Hv.
  - destruct (negb (valid v) || Js.truthy_opt (scope_error v)) eqn:Hc;
      [|destruct (negb (isSubscribed W AfterValidation)) eqn:Hs; [|exact I]];
      rewrite Hstep;
      change (bind (await (Resolved v)) ?k m1) with (k v m1); cbv beta;
      rewrite Hc, ?Hs; reflexivity.
  - rewrite Hstep. reflexivity.
Qed.

Lemma export_body_resources_rejected k v e m :
  validated_as k v ->
  isSubscribed W AfterValidation = true ->
  resources_list (Permit W k) = Rejected e ->
  exists m1,
    export_body JSON_ W file k m = (Thrown e, m1) /\
    warnings (state m1) = warnings (state m) /\
    error (state m1) = error (state m) /\
    isComplete (state m1) = isComplete (state m) /\
    sink m1 = sink m.
Proof.
  intros (Hv & Hvalid & Herr) Hsub Hres. unfold export_body.
  destruct (runs_status "Validating API key..." m) as (m1 & E1 & S1).
  unfold bind at 1. rewrite E1, Hv.
  change (bind (await (Resolved v)) ?k m1) with (k v m1). cbv beta.
  rewrite Hvalid, Herr, Hsub. cbn [negb orb].
  destruct (runs_status "Initializing Permit client..." m1) as (m2 & E2 & S2).
  unfold bind at 1. rewrite E2.
  set (m3 := {| state := state m2; hcl := header (scope v) k; sink := sink m2 |}).
  change (bind (init_hcl ?h) ?k m2) with (k tt m3). cbv beta.
  destruct (runs_export_resources_rejected _ _ Hres m3) as (m4 & E4 & S4).
  unfold bind at 1. rewrite E4. exists m4. split; [reflexivity|].
  destruct S1 as (_ & A2 & A3 & A4 & A5), S2 as (_ & B2 & B3 & B4 & B5),
    S4 as (_ & C2 & C3 & C4 & C5).
  subst m3. cbn [state sink] in *.
  rewrite C2, C3, C4, C5, B2, B3, B4, B5, A2, A3, A4, A5, !app_nil_r. auto.
Qed.

(** The run, the status line apart, is its closed form. *)
Lemma summary_run : summary (run JSON_ W apiKey authToken file) = expected.
Proof.
  unfold run, exportConfig, expected.
  destruct (Js.truthy_opt (key apiKey authToken)) eqn:Hkey; cbn [negb]; [|reflexivity].
  fold credential.
  rewrite try_catch_caught.
  destruct (export_body_validation credential initial) as (m1 & S1 & E).
  destruct S1 as (_ & A2 & A3 & A4 & A5). cbn in A2, A3, A4, A5.
  destruct (validateApiKeyScope W credential "environment") as [v|e] eqn:Hv.
  2:{ rewrite E, caught_thrown, A2; auto. }
  destruct (negb (valid v) || Js.truthy_opt (scope_error v)) eqn:Hc.
  { rewrite E. cbn. unfold summary, stopped. cbn. rewrite A2, A5. reflexivity. }
  destruct (negb (isSubscribed W AfterValidation)) eqn:Hs.
  { rewrite E. cbn. unfold summary, stopped. rewrite A2, A3, A4, A5. reflexivity. }
  clear E m1 A2 A3 A4 A5.
  apply orb_false_elim in Hc as [Hvalid Herr].
  apply negb_false_iff in Hvalid, Hs.
  assert (validated_as credential v) as Hval by (split; auto).
  destruct (resources_list (Permit W credential)) as [rs|e] eqn:Hres.
  - destruct (export_body_generators credential v rs initial Hval Hs Hres)
      as (m1 & -> & H1 & H2 & H3 & H4 & H5).
    rewrite (caught_finish m1 _ H3 H4 H5 H1), H2. reflexivity.
  - destruct (export_body_resources_rejected credential v e initial Hval Hs Hres)
      as (m1 & -> & H2 & H3 & H4 & H5).
    rewrite caught_thrown, H2; auto.
Qed.

End ClosedForms.

End ExportFacts.

(** ** The generator monad *)

Module GeneratorFacts.
Import Generator.

(** A mapped callback that never throws: the results in order, and the
    warnings of each element in order. *)
Lemma map_G_resolved {A B} (f : A -> G B) (g : A -> B) (h : A -> list string) l w :
  (forall x w, f x w = (Resolved (g x), (w ++ h x)%list)) ->
  map_G f l w = (Resolved (List.map g l), (w ++ List.flat_map h l)%list).
Proof.
  intros Hf. revert w. induction l as [|x l IH]; intros w; cbn [map_G List.map List.flat_map].
  - unfold ret. rewrite app_nil_r. reflexivity.
  - unfold bind at 1. rewrite Hf. unfold bind at 1. rewrite IH.
    unfold ret. rewrite <- app_assoc. reflexivity.
Qed.

Lemma try_catch_resolved {A} (body : G A) handler w a w' :
  body w = (Resolved a, w') -> try_catch body handler w = (Resolved a, w').
Proof. intros H. unfold try_catch. rewrite H. reflexivity. Qed.

End GeneratorFacts.

(** ** UserAttributesGenerator *)

Module UserAttributesFacts.
Import Generator UserAttributesGenerator UserAttributesSpec.

Lemma lookup_list_to_map_assoc (l : list (string * string)) (k : string) :
  (list_to_map l : gmap string string) !! k = assoc k l.
Proof.
  induction l as [|[k' v] l IH]; cbn [list_to_map assoc foldr].
  - apply lookup_empty.
  - cbn. rewrite lookup_insert. destruct (String.eqb_spec k' k) as [->|Hne].
    + rewrite decide_True; auto.
    + rewrite decide_False; auto.
Qed.

Lemma assoc_Some_In k l v : assoc k l = Some v -> In (k, v) l.
Proof.
  induction l as [|[k' v'] l IH]; cbn [assoc]; [discriminate|].
  destruct (String.eqb_spec k' k) as [->|Hne].
  - intros [= ->]. left; reflexivity.
  - intros H. right. auto.
Qed.

Lemma specified_types_truthy k v :
  assoc k specified_types = Some v -> Js.truthy v = true.
Proof.
  intros H%assoc_Some_In. cbn in H.
  repeat (destruct H as [[= <- <-]|H]; [reflexivity|]). destruct H.
Qed.

Lemma lower_char_not_upper (c : ascii) : Js.is_upper (Js.lower_char c) = false.
Proof. destruct c as [[] [] [] [] [] [] [] []]; reflexivity. Qed.

Lemma toLowerCase_no_upper (t : string) :
  Js.all_chars (fun c => negb (Js.is_upper c)) (Js.toLowerCase t) = true.
Proof.
  apply all_chars_map_chars. intros c. rewrite lower_char_not_upper. reflexivity.
Qed.

(** Of the properties of [Object.prototype], a lower-cased type name can
    only be [constructor] or [__proto__]: the others hold a capital
    letter. *)
Lemma lowered_prototype_key (t : string) :
  existsb (String.eqb (Js.toLowerCase t)) Object_prototype = inherits t.
Proof.
  unfold inherits. pose proof (toLowerCase_no_upper t) as Hlow.
  generalize dependent (Js.toLowerCase t). intros k Hlow.
  assert (forall K, Js.all_chars (fun c => negb (Js.is_upper c)) K = false ->
                    String.eqb k K = false) as Hno.
  { intros K HK. destruct (String.eqb_spec k K) as [->|]; [congruence | reflexivity]. }
  unfold Object_prototype. cbn [existsb].
  rewrite (Hno "__defineGetter__"), (Hno "__defineSetter__"), (Hno "hasOwnProperty"),
    (Hno "__lookupGetter__"), (Hno "__lookupSetter__"), (Hno "isPrototypeOf"),
    (Hno "propertyIsEnumerable"), (Hno "toString"), (Hno "valueOf"),
    (Hno "toLocaleString") by reflexivity.
  destruct (String.eqb k "constructor"), (String.eqb k "__proto__"); reflexivity.
Qed.

Lemma specified_types_not_inherited (t : string) (v : string) :
  assoc (Js.toLowerCase t) specified_types = Some v -> inherits t = false.
Proof.
  unfold inherits. intros H%assoc_Some_In. cbn in H.
  repeat (destruct H as [[= <- <-]|H]; [reflexivity|]). destruct H.
Qed.

(** What [normalizeAttributeType] returns and the warnings it adds, for
    every type name. *)
Lemma normalizeAttributeType_spec (t : string) (w : list string) :
  normalizeAttributeType t w
  = (Resolved (normalized t), (w ++ normalize_warnings t)%list).
Proof.
  unfold normalizeAttributeType, typeMap_get, normalized, normalize_warnings,
    specified_type, type_warnings, typeMap.
  rewrite lookup_list_to_map_assoc. fold specified_types.
  destruct (assoc (Js.toLowerCase t) specified_types) as [v|] eqn:E.
  - rewrite (specified_types_not_inherited t v E). cbn [truthy_value default].
    rewrite (specified_types_truthy _ _ E). unfold ret. rewrite app_nil_r. reflexivity.
  - rewrite lowered_prototype_key. destruct (inherits t); cbn [truthy_value].
    + unfold ret. rewrite app_nil_r. reflexivity.
    + reflexivity.
Qed.

(** On a type name that reaches no inherited property, it does what the
    specification says. *)
Lemma normalizeAttributeType_specified (t : string) (w : list string) :
  inherits t = false ->
  normalizeAttributeType t w
  = (Resolved (TypeName (specified_type t)), (w ++ type_warnings t)%list).
Proof.
  intros H. rewrite normalizeAttributeType_spec. unfold normalized, normalize_warnings.
  rewrite H. reflexivity.
Qed.

Lemma filter_filter_kept (attrs : list (string * AttributeRead)) :
  List.filter (fun entry => description_allows (snd entry))
    (List.filter (fun entry => negb (is_builtin_key (fst entry))) attrs)
  = List.filter kept attrs.
Proof.
  induction attrs as [|x l IH]; cbn [List.filter]; [reflexivity|].
  unfold kept at 1. destruct (negb (is_builtin_key (fst x))); cbn [andb List.filter].
  - destruct (description_allows (snd x)); rewrite IH; reflexivity.
  - exact IH.
Qed.

(** The attributes [getUserAttributes] returns, and the warnings it adds,
    for a [__user] resource that has an attribute map. *)
Lemma getUserAttributes_spec permit r attrs w :
  resources_get permit "__user" = Resolved (Some r) ->
  attributes r = Some attrs ->
  getUserAttributes permit w
  = (Resolved (List.map rendered (List.filter kept attrs)),
     (w ++ List.flat_map (fun entry => normalize_warnings (attribute_type (snd entry)))
             (List.filter kept attrs))%list).
Proof.
  intros Hget Hattrs. unfold getUserAttributes.
  apply GeneratorFacts.try_catch_resolved.
  rewrite Hget. unfold bind at 1, await. cbn [mbind option_bind]. rewrite Hattrs.
  rewrite filter_filter_kept.
  apply GeneratorFacts.map_G_resolved. intros x w'.
  unfold to_data, bind. rewrite normalizeAttributeType_spec. reflexivity.
Qed.

(** When no attribute that is kept has a type name that reaches an
    inherited property, the entries and the warnings are those of the
    specification. *)
Lemma specified_entries (l : list (string * AttributeRead)) :
  List.Forall (fun entry => inherits (attribute_type (snd entry)) = false) l ->
  List.map rendered l = List.map exported l
  /\ List.flat_map (fun entry => normalize_warnings (attribute_type (snd entry))) l
     = List.flat_map (fun entry => type_warnings (attribute_type (snd entry))) l.
Proof.
  induction 1 as [|x l Hx _ [IHm IHw]]; [split; reflexivity|].
  cbn [List.map List.flat_map]. rewrite IHm, IHw.
  unfold rendered at 1, exported at 1, normalized, normalize_warnings. rewrite Hx.
  split; reflexivity.
Qed.

Lemma getUserAttributes_specified permit r attrs w :
  resources_get permit "__user" = Resolved (Some r) ->
  attributes r = Some attrs ->
  List.Forall (fun entry => inherits (attribute_type (snd entry)) = false)
    (List.filter kept attrs) ->
  getUserAttributes permit w
  = (Resolved (List.map exported (List.filter kept attrs)),
     (w ++ List.flat_map (fun entry => type_warnings (attribute_type (snd entry)))
             (List.filter kept attrs))%list).
Proof.
  intros Hget Hattrs Hall. rewrite (getUserAttributes_spec permit r attrs w Hget Hattrs).
  destruct (specified_entries _ Hall) as [-> ->]. reflexivity.
Qed.

Lemma kept_iff_not_excluded (entry : string * AttributeRead) :
  kept entry = false <-> excluded (fst entry) (snd entry).
Proof.
  destruct entry as [k attr]. unfold kept, excluded, description_allows. cbn [fst snd].
  rewrite andb_false_iff, negb_false_iff.
  assert (is_builtin_key k = true <->
          In k ["key"; "roles"; "email"; "first_name"; "last_name"]) as Hkey.
  { unfold is_builtin_key, BUILTIN_USER_ATTRIBUTES. rewrite existsb_exists.
    split.
    - intros (x & Hin & ->%String.eqb_eq). exact Hin.
    - intros Hin. exists k. split; [exact Hin | apply String.eqb_refl]. }
  rewrite Hkey. apply or_iff_compat_l.
  destruct (attribute_description attr) as [d|]; cbn [fmap option_fmap option_map].
  - rewrite or_empty_Some, andb_false_iff, !negb_false_iff. split.
    + intros H. exists d. auto.
    + intros (d' & [= <-] & H). exact H.
  - cbn. split; [discriminate | intros (d & [=] & _)].
Qed.

End UserAttributesFacts.

(** C9. The attribute type [constructor]. The specification exports an
    attribute of an unknown type as [string] and appends one warning; the
    code looks the lower-cased type up in the object literal [typeMap],
    which answers [constructor] (and [__proto__]) with a property inherited
    from [Object.prototype]: [normalizeAttributeType] returns that value,
    which is not a string, and appends no warning. For every other type
    name it does what the specification says, and [getUserAttributes]
    returns, in order, exactly the attributes that are not excluded, each
    with the type of the fixed table, or [string] and one warning. *)
Theorem user_attributes_filtered_and_typed :
  UserAttributesGenerator.normalizeAttributeType "constructor" []
  = (Resolved (UserAttributesGenerator.Inherited "constructor"), [])
  /\ UserAttributesGenerator.normalizeAttributeType "__proto__" []
     = (Resolved (UserAttributesGenerator.Inherited "__proto__"), [])
  /\ UserAttributesGenerator.getUserAttributes inherited_type_api []
     = (Resolved
          [ {| UserAttributesGenerator.resourceKey := "user_origin";
               UserAttributesGenerator.key := "origin";
               UserAttributesGenerator.type := UserAttributesGenerator.Inherited "constructor";
               UserAttributesGenerator.description := "" |} ],
        [])
  /\ UserAttributesSpec.specified_type "constructor" = "string"
  /\ UserAttributesSpec.type_warnings "constructor"
     = ["Unknown attribute type: constructor, using 'string' as default"]
  /\ (forall t,
        UserAttributesSpec.inherits t = true
        <-> Js.toLowerCase t = "constructor" \/ Js.toLowerCase t = "__proto__")
  /\ (forall t w,
        UserAttributesSpec.inherits t = false ->
        UserAttributesGenerator.normalizeAttributeType t w
        = (Resolved (UserAttributesGenerator.TypeName (UserAttributesSpec.specified_type t)),
           (w ++ UserAttributesSpec.type_warnings t)%list))
  /\ (forall permit r attrs w,
        UserAttributesGenerator.resources_get permit "__user" = Resolved (Some r) ->
        UserAttributesGenerator.attributes r = Some attrs ->
        List.Forall
          (fun entry =>
             UserAttributesSpec.inherits (UserAttributesGenerator.attribute_type (snd entry))
             = false)
          (List.filter UserAttributesSpec.kept attrs) ->
        UserAttributesGenerator.getUserAttributes permit w
        = (Resolved (List.map UserAttributesSpec.exported
                       (List.filter UserAttributesSpec.kept attrs)),
           (w ++ List.flat_map
                   (fun entry => UserAttributesSpec.type_warnings
                                   (UserAttributesGenerator.attribute_type (snd entry)))
                   (List.filter UserAttributesSpec.kept attrs))%list))
  /\ (forall entry, UserAttributesSpec.kept entry = false
                    <-> UserAttributesSpec.excluded (fst entry) (snd entry))
  /\ List.map UserAttributesSpec.specified_type
       ["string"; "number"; "boolean"; "bool"; "array"; "object"; "json"; "time";
        "Boolean"; "uuid"]
     = ["string"; "number"; "bool"; "bool"; "array"; "json"; "json"; "string";
        "bool"; "string"]
  /\ List.map (fun t => List.length (UserAttributesSpec.type_warnings t))
       ["string"; "number"; "boolean"; "bool"; "array"; "object"; "json"; "time";
        "Boolean"; "uuid"]
     = [0; 0; 0; 0; 0; 0; 0; 0; 0; 1].
Proof.
  split; [vm_compute; reflexivity|]. split; [vm_compute; reflexivity|].
  split; [vm_compute; reflexivity|]. split; [reflexivity|]. split; [reflexivity|].
  split; [|split; [|split; [|split; [|split]]]].
  - intros t. unfold UserAttributesSpec.inherits. cbn [existsb].
    rewrite orb_false_r, orb_true_iff, !String.eqb_eq. reflexivity.
  - apply UserAttributesFacts.normalizeAttributeType_specified.
  - intros permit r attrs w.
    apply UserAttributesFacts.getUserAttributes_specified.
  - apply UserAttributesFacts.kept_iff_not_excluded.
  - reflexivity.
  - reflexivity.
Qed.

Lemma user_attributes_filtered_and_typed_witness :
  UserAttributesGenerator.getUserAttributes sample_user_api []
  = (Resolved
       [ {| UserAttributesGenerator.resourceKey := "user_age";
            UserAttributesGenerator.key := "age";
            UserAttributesGenerator.type := UserAttributesGenerator.TypeName "number";
            UserAttributesGenerator.description := "Age" |};
         {| UserAttributesGenerator.resourceKey := "user_badge";
            UserAttributesGenerator.key := "badge";
            UserAttributesGenerator.type := UserAttributesGenerator.TypeName "string";
            UserAttributesGenerator.description := "" |} ],
     ["Unknown attribute type: uuid, using 'string' as default"]).
Proof.
  refine (proj1 (proj2 (proj2 (proj2 (proj2 (proj2 (proj2 (proj2
            user_attributes_filtered_and_typed)))))))
            sample_user_api sample_user_resource
            (default [] (UserAttributesGenerator.attributes sample_user_resource))
            [] eq_refl eq_refl _).
  repeat constructor.
Defined.

(** ** ConditionSetGenerator: the paginated fetch *)

Module FetchFacts.
Import ConditionSetGenerator FetchSpec.

Lemma full_page_nonempty p : full_page p = true -> ExportContent.nonempty p = true.
Proof.
  unfold full_page, perPage_. destruct p; [|reflexivity].
  cbn. discriminate.
Qed.

Section Fetch.
Variable permit : PermitApi.

Lemma fetch_all_pages (pages : list (list ConditionSetRule)) :
  forall (s : FetchState) (fuel : nat),
    well_paged pages = true ->
    hasMoreResults s = true ->
    (forall i p, pages !! i = Some p ->
       conditionSetRules_list permit (page_params (currentPage s + i)) = Resolved p) ->
    List.length pages <= fuel ->
    exists s',
      fetch_all permit fuel s = Some (Resolved s') /\
      allConditionSetRules s' = (allConditionSetRules s ++ List.concat pages)%list /\
      requests s'
      = (requests s ++ List.map (fun i => page_params (currentPage s + i))
                         (seq 0 (List.length pages)))%list /\
      hasMoreResults s' = false.
Proof.
  induction pages as [|p rest IH]; intros s fuel Hwell Hmore Hapi Hfuel;
    [discriminate|].
  destruct fuel as [|fuel]; [cbn in Hfuel; lia|].
  cbn [fetch_all]. rewrite Hmore. unfold fetch_page.
  pose proof (Hapi 0 p eq_refl) as Hp. rewrite Nat.add_0_r in Hp. rewrite Hp.
  destruct rest as [|q rest].
  - (* the last page *)
    cbn [well_paged] in Hwell. apply negb_true_iff in Hwell.
    unfold full_page in Hwell. apply negb_false_iff in Hwell.
    destruct (ExportContent.nonempty p) eqn:Hne.
    + rewrite Hwell. eexists. split; [destruct fuel; reflexivity|].
      cbn [allConditionSetRules requests hasMoreResults List.concat List.length seq List.map].
      rewrite app_nil_r, Nat.add_0_r. auto.
    + destruct p; [|discriminate]. eexists. split; [destruct fuel; reflexivity|].
      cbn [allConditionSetRules requests hasMoreResults List.concat List.length seq List.map].
      rewrite !app_nil_r, Nat.add_0_r. auto.
  - (* a full page: the loop goes on with the next one *)
    change (well_paged (p :: q :: rest)) with (full_page p && well_paged (q :: rest)) in Hwell.
    apply andb_prop in Hwell as [Hfull Hrest].
    rewrite (full_page_nonempty p Hfull).
    unfold full_page in Hfull. apply negb_true_iff in Hfull. rewrite Hfull.
    set (s1 := {| allConditionSetRules := (allConditionSetRules s ++ p)%list;
                  currentPage := S (currentPage s);
                  hasMoreResults := hasMoreResults s;
                  requests := (requests s ++ [page_params (currentPage s)])%list |}).
    destruct (IH s1 fuel Hrest Hmore) as (s' & E & Hall & Hreq & Hdone).
    + intros i p' Hi. subst s1. cbn [currentPage].
      replace (S (currentPage s) + i) with (currentPage s + S i) by lia.
      apply Hapi. exact Hi.
    + cbn [List.length] in *. lia.
    + exists s'. split; [exact E|]. subst s1.
      cbn [allConditionSetRules requests currentPage] in *.
      rewrite Hall, Hreq. split; [|split; [|exact Hdone]].
      * cbn [List.concat]. rewrite <- !app_assoc. reflexivity.
      * change (List.length (p :: q :: rest)) with (S (List.length (q :: rest))).
        cbn [seq List.map]. rewrite <- seq_shift, List.map_map, Nat.add_0_r.
        rewrite <- app_assoc. cbn [app]. do 2 f_equal.
        apply List.map_ext. intros i. f_equal. lia.
Qed.

End Fetch.

End FetchFacts.

(** C6. The condition-set-rule fetch asks for pages of 100, starting with
    page 1, and goes on exactly while the page it received was full: when
    the source serves the pages [pages], all full but the last, the loop
    ends, has accumulated exactly the records of these pages, and has
    issued exactly one request per page. *)
Theorem paginated_fetch_stops_after_short_page
    (permit : ConditionSetRules.PermitApi)
    (pages : list (list ConditionSetRules.ConditionSetRule)) (fuel : nat) :
  FetchSpec.well_paged pages = true ->
  (forall i p, pages !! i = Some p ->
     ConditionSetRules.conditionSetRules_list permit
       (ConditionSetGenerator.page_params (S i)) = Resolved p) ->
  List.length pages <= fuel ->
  exists s,
    ConditionSetGenerator.fetch_all permit fuel ConditionSetGenerator.fetch_start
    = Some (Resolved s) /\
    ConditionSetGenerator.allConditionSetRules s = List.concat pages /\
    ConditionSetGenerator.requests s
    = List.map ConditionSetGenerator.page_params (seq 1 (List.length pages)) /\
    Forall (fun q => ConditionSetRules.perPage q = 100)
      (ConditionSetGenerator.requests s).
Proof.
  intros Hwell Hapi Hfuel.
  destruct (FetchFacts.fetch_all_pages permit pages ConditionSetGenerator.fetch_start fuel
              Hwell eq_refl Hapi Hfuel) as (s & E & Hall & Hreq & _).
  exists s. split; [exact E|]. cbn in Hall, Hreq.
  assert (ConditionSetGenerator.requests s
          = List.map ConditionSetGenerator.page_params (seq 1 (List.length pages))) as Hr.
  { rewrite Hreq, <- seq_shift, List.map_map. reflexivity. }
  split; [exact Hall|]. split; [exact Hr|].
  rewrite Hr. apply List.Forall_forall. intros q (i & <- & _)%in_map_iff. reflexivity.
Qed.

Lemma paginated_fetch_stops_after_short_page_witness :
  exists s,
    ConditionSetGenerator.fetch_all sample_paged_api 3 ConditionSetGenerator.fetch_start
    = Some (Resolved s) /\
    List.length (ConditionSetGenerator.allConditionSetRules s) = 237 /\
    List.length (ConditionSetGenerator.requests s) = 3.
Proof.
  destruct (paginated_fetch_stops_after_short_page sample_paged_api sample_pages 3)
    as (s & E & Hall & Hreq & _).
  - reflexivity.
  - intros i p Hi. cbn. rewrite Hi. reflexivity.
  - cbn. lia.
  - exists s. split; [exact E|]. rewrite Hall, Hreq. split; reflexivity.
Defined.

(** ** RoleDerivationGenerator *)

Module RoleDerivationFacts.
Import Generator RoleDerivationGenerator RoleDerivationSpec.

(** A loop that never throws: what it appends to its local variable and to
    the warnings. *)
Lemma for_of_resolved {A S} (l : list A) (body : list S -> A -> G (list S))
    (f : A -> list S) (h : A -> list string) acc w :
  (forall acc x w, body acc x w = (Resolved (acc ++ f x)%list, (w ++ h x)%list)) ->
  for_of l acc body w
  = (Resolved (acc ++ List.flat_map f l)%list, (w ++ List.flat_map h l)%list).
Proof.
  intros Hbody. revert acc w.
  induction l as [|x l IH]; intros acc w; cbn [for_of List.flat_map].
  - unfold ret. rewrite !app_nil_r. reflexivity.
  - unfold bind. rewrite Hbody, IH, <- !app_assoc. reflexivity.
Qed.

Lemma getAllResourceRelations_all resourceMap :
  getAllResourceRelations resourceMap
  = List.map (fun r => {| sourceResourceKey := subject_resource r;
                          targetResourceKey := object_resource r;
                          relation := r |})
      (all_relations resourceMap).
Proof.
  unfold getAllResourceRelations, all_relations.
  induction resourceMap as [|e rm IH]; cbn [List.flat_map]; [reflexivity|].
  rewrite List.map_app, IH. reflexivity.
Qed.

Lemma all_relations_complete resourceMap :
  List.Forall (fun r => is_complete_relation r = true) (all_relations resourceMap).
Proof.
  unfold all_relations. induction resourceMap as [|e rm IH]; cbn [List.flat_map].
  - constructor.
  - apply List.Forall_app. split; [|exact IH].
    apply List.Forall_forall. intros r Hr. apply List.filter_In in Hr. tauto.
Qed.

(** [buildRelationMappings] never throws on gathered relations. *)
Lemma buildRelationMappings_loop (rels : list RelationRead) m w :
  List.Forall (fun r => is_complete_relation r = true) rels ->
  for_of (List.map (fun r => {| sourceResourceKey := subject_resource r;
                                targetResourceKey := object_resource r;
                                relation := r |}) rels) m
    (fun relationMappings rr =>
       if negb (Js.truthy (key (relation rr))) then ret relationMappings
       else
         bind (generateTerraformRelationName (relation rr)) (fun terraformResourceName =>
         ret (<[ mappingKey (sourceResourceKey rr) (key (relation rr)) (targetResourceKey rr) :=
                 {| relationKey := key (relation rr);
                    sourceResource := sourceResourceKey rr;
                    targetResource := targetResourceKey rr;
                    terraformResourceName := terraformResourceName |} ]>
                relationMappings))) w
  = (Resolved (mappings_of rels m), w).
Proof.
  intros Hall. revert m. induction Hall as [|r rels Hr _ IH]; intros m;
    cbn [List.map for_of mappings_of fold_left]; [reflexivity|].
  unfold is_complete_relation in Hr.
  apply andb_prop in Hr as [[Hk Hs]%andb_prop Ho].
  unfold bind at 1. cbn [relation sourceResourceKey targetResourceKey].
  rewrite Hk. cbn [negb]. unfold generateTerraformRelationName.
  rewrite Hk, Hs, Ho. cbn [negb orb]. unfold bind at 1, ret at 1. unfold ret at 1.
  apply IH.
Qed.

Lemma buildRelationMappings_spec resourceMap w :
  buildRelationMappings (getAllResourceRelations resourceMap) w
  = (Resolved (mappings_of (all_relations resourceMap) ∅), w).
Proof.
  unfold buildRelationMappings. rewrite getAllResourceRelations_all.
  apply buildRelationMappings_loop, all_relations_complete.
Qed.

Lemma find_app {A} (p : A -> bool) (l1 l2 : list A) :
  List.find p (l1 ++ l2)
  = match List.find p l1 with Some x => Some x | None => List.find p l2 end.
Proof.
  induction l1 as [|x l1 IH]; cbn [app List.find]; [reflexivity|].
  destruct (p x); [reflexivity | exact IH].
Qed.

Lemma mappings_of_lookup (rels : list RelationRead) m (k : string) :
  mappings_of rels m !! k
  = match List.find (fun r => String.eqb (relation_mappingKey r) k) (rev rels) with
    | Some r => Some (mapping_of r)
    | None => m !! k
    end.
Proof.
  revert m. induction rels as [|r rels IH]; intros m;
    cbn [mappings_of fold_left rev List.find]; [reflexivity|].
  fold (mappings_of rels (<[relation_mappingKey r := mapping_of r]> m)).
  rewrite IH, find_app.
  destruct (List.find _ (rev rels)); [reflexivity|].
  cbn [List.find]. rewrite lookup_insert.
  destruct (String.eqb_spec (relation_mappingKey r) k) as [->|Hne].
  - rewrite decide_True; auto.
  - rewrite decide_False; auto.
Qed.

Section Derivations.
Variable resourceMap : list (string * ResourceData).

Local Abbreviation grant_derivations := (RoleDerivationSpec.grant_derivations resourceMap).
Local Abbreviation grant_warnings := (RoleDerivationSpec.grant_warnings resourceMap).

Lemma derive_grant_spec resourceKey roleKey derivations g w :
  derive_grant (mappings_of (all_relations resourceMap) ∅) resourceKey roleKey
    derivations g w
  = (Resolved (derivations ++ grant_derivations resourceKey roleKey g)%list,
     (w ++ grant_warnings resourceKey roleKey g)%list).
Proof.
  unfold derive_grant, grant_derivations, grant_warnings, complete_grant.
  destruct (Js.truthy (role g)); cbn [negb orb andb];
    [|unfold ret; rewrite !app_nil_r; reflexivity].
  destruct (Js.truthy (on_resource g)); cbn [negb orb andb];
    [|unfold ret; rewrite !app_nil_r; reflexivity].
  destruct (Js.truthy (linked_by_relation g)); cbn [negb orb andb];
    [|unfold ret; rewrite !app_nil_r; reflexivity].
  rewrite mappings_of_lookup, lookup_empty.
  unfold derived, warned, resolve, grant_mappingKey. cbn [info target_resource target_role].
  destruct (List.find _ (rev (all_relations resourceMap))) as [r|].
  - unfold ret. rewrite app_nil_r. reflexivity.
  - unfold bind, addWarning, ret. rewrite app_nil_r. reflexivity.
Qed.

Lemma flat_map_map_filter {A B C} (f : B -> list C) (g : A -> B) (p : A -> bool) l :
  List.flat_map f (List.map g (List.filter p l))
  = List.flat_map (fun x => if p x then f (g x) else []) l.
Proof.
  induction l as [|x l IH]; cbn [List.filter List.flat_map]; [reflexivity|].
  destruct (p x); cbn [List.map List.flat_map]; rewrite IH; reflexivity.
Qed.

Lemma derive_role_spec resourceKey derivations r w :
  derive_role (mappings_of (all_relations resourceMap) ∅) resourceKey derivations r w
  = (Resolved (derivations
               ++ List.flat_map (derived resourceMap) (grants_of_role resourceKey r))%list,
     (w ++ List.flat_map (warned resourceMap) (grants_of_role resourceKey r))%list).
Proof.
  unfold derive_role, grants_of_role.
  destruct (Js.truthy (role_key r)); cbn [negb orb List.flat_map];
    [|unfold ret; rewrite !app_nil_r; reflexivity].
  rewrite !flat_map_map_filter.
  destruct (grants_of r) as [|g gs] eqn:Hg; cbn [ExportContent.nonempty negb];
    [unfold ret; cbn [List.flat_map]; rewrite !app_nil_r; reflexivity|].
  apply for_of_resolved with
    (f := grant_derivations resourceKey (role_key r))
    (h := grant_warnings resourceKey (role_key r)).
  intros. apply derive_grant_spec.
Qed.

Lemma flat_map_flat_map {A B C} (f : B -> list C) (g : A -> list B) l :
  List.flat_map f (List.flat_map g l) = List.flat_map (fun x => List.flat_map f (g x)) l.
Proof.
  induction l as [|x l IH]; cbn [List.flat_map]; [reflexivity|].
  rewrite List.flat_map_app, IH. reflexivity.
Qed.

(** [generateDerivations] never throws; every qualifying grant contributes
    its derivation or its warning. *)
Lemma generateDerivations_spec w :
  generateDerivations resourceMap w
  = (Resolved (List.flat_map (derived resourceMap) (qualifying_grants resourceMap)),
     (w ++ List.flat_map (warned resourceMap) (qualifying_grants resourceMap))%list).
Proof.
  unfold generateDerivations, bind. rewrite buildRelationMappings_spec.
  unfold qualifying_grants. rewrite !flat_map_flat_map.
  apply (for_of_resolved _ _
           (fun entry => List.flat_map (derived resourceMap)
                           (List.flat_map (grants_of_role (fst entry)) (roles (snd entry))))
           (fun entry => List.flat_map (warned resourceMap)
                           (List.flat_map (grants_of_role (fst entry)) (roles (snd entry))))
           [] w).
  intros acc entry w'. rewrite !flat_map_flat_map.
  apply for_of_resolved. intros. apply derive_role_spec.
Qed.

Lemma append_cons (c : ascii) (s t : string) : String c s +:+ t = String c (s +:+ t).
Proof. reflexivity. Qed.

(** A colon-free prefix is determined by the text it starts. *)
Lemma colon_prefix_inj (a b x y : string) :
  no_colon a = true -> no_colon b = true ->
  a +:+ ":" +:+ x = b +:+ ":" +:+ y -> a = b /\ x = y.
Proof.
  revert b. induction a as [|c a IH]; intros [|d b] Ha Hb H.
  - change (String ":" x = String ":" y) in H. injection H as ->. auto.
  - change (String ":" x = String d (b +:+ ":" +:+ y)) in H. injection H as <- _.
    cbn in Hb. discriminate.
  - change (String c (a +:+ ":" +:+ x) = String ":" y) in H. injection H as -> _.
    cbn in Ha. discriminate.
  - change (String c (a +:+ ":" +:+ x) = String d (b +:+ ":" +:+ y)) in H.
    injection H as -> H.
    cbn [no_colon Js.all_chars] in Ha, Hb.
    apply andb_prop in Ha as [_ Ha]. apply andb_prop in Hb as [_ Hb].
    destruct (IH b Ha Hb H) as [-> ->]. auto.
Qed.

Lemma mappingKey_inj (s1 r1 t1 s2 r2 t2 : string) :
  no_colon s1 = true -> no_colon r1 = true ->
  no_colon s2 = true -> no_colon r2 = true ->
  mappingKey s1 r1 t1 = mappingKey s2 r2 t2 -> s1 = s2 /\ r1 = r2 /\ t1 = t2.
Proof.
  unfold mappingKey. intros Hs1 Hr1 Hs2 Hr2 H.
  apply colon_prefix_inj in H as [-> H]; [|assumption..].
  apply colon_prefix_inj in H as [-> ->]; auto.
Qed.

(** With colon-free keys, a grant resolves to a relation exactly when a
    gathered relation links its source resource to its target resource
    under its relation key. *)
Lemma resolve_links (g : Grant) :
  colon_free resourceMap = true ->
  In g (qualifying_grants resourceMap) ->
  match resolve resourceMap g with
  | Some r => In r (all_relations resourceMap) /\ links r g
  | None => forall r, In r (all_relations resourceMap) -> ~ links r g
  end.
Proof.
  unfold colon_free. intros [Hrels Hgrants]%andb_prop Hg.
  rewrite forallb_forall in Hrels, Hgrants.
  apply Hgrants in Hg. apply andb_prop in Hg as [Hg1 Hg2].
  unfold resolve. destruct (List.find _ _) as [r|] eqn:Hfind.
  - apply List.find_some in Hfind as [Hin Heq].
    apply List.in_rev in Hin. split; [exact Hin|].
    apply String.eqb_eq in Heq. apply Hrels in Hin.
    apply andb_prop in Hin as [Hr1 Hr2].
    unfold relation_mappingKey, grant_mappingKey in Heq.
    apply mappingKey_inj in Heq; auto.
  - intros r Hin (H1 & H2 & H3).
    apply List.in_rev in Hin.
    pose proof (List.find_none _ _ Hfind r Hin) as Hne. cbv beta in Hne.
    unfold relation_mappingKey, grant_mappingKey in Hne.
    rewrite H1, H2, H3, String.eqb_refl in Hne. discriminate.
Qed.

End Derivations.

End RoleDerivationFacts.

(** C4. [generateDerivations] visits every grant rule (role [B] on [R2]
    granted by role [A] on [R1] through relation [rel]) once. A rule whose
    mapping key [R1:rel:R2] is that of a gathered relation yields one
    derivation whose dependency list is, in this order, the role-[A] block,
    the resource-[R1] block, the role-[B] block, the resource-[R2] block and
    the relation block; a rule without such a relation yields no derivation
    and one warning. When no key holds a colon, the relation found is one
    with subject [R1], key [rel] and object [R2], and none is found exactly
    when no such relation was gathered. *)
Theorem role_derivations_depend_in_order
    (resourceMap : list (string * RoleDerivationGenerator.ResourceData))
    (w : list string) :
  RoleDerivationGenerator.generateDerivations resourceMap w
  = (Resolved (List.flat_map (RoleDerivationSpec.derived resourceMap)
                 (RoleDerivationSpec.qualifying_grants resourceMap)),
     (w ++ List.flat_map (RoleDerivationSpec.warned resourceMap)
             (RoleDerivationSpec.qualifying_grants resourceMap))%list)
  /\ (forall g,
        (RoleDerivationSpec.derived resourceMap g, RoleDerivationSpec.warned resourceMap g)
        = match RoleDerivationSpec.resolve resourceMap g with
          | Some r =>
              ([ {| RoleDerivationGenerator.id :=
                      RoleDerivationGenerator.createDerivationId
                        (RoleDerivationGenerator.role (RoleDerivationSpec.info g))
                        (RoleDerivationSpec.target_role g);
                    RoleDerivationGenerator.derivation_resource :=
                      RoleDerivationSpec.target_resource g;
                    RoleDerivationGenerator.derivation_role :=
                      RoleDerivationGenerator.role (RoleDerivationSpec.info g);
                    RoleDerivationGenerator.linked_by :=
                      RoleDerivationSpec.relation_block_name r;
                    RoleDerivationGenerator.derivation_on_resource :=
                      RoleDerivationGenerator.on_resource (RoleDerivationSpec.info g);
                    RoleDerivationGenerator.to_role := RoleDerivationSpec.target_role g;
                    RoleDerivationGenerator.dependencies :=
                      [ "permitio_role."
                          +:+ RoleDerivationGenerator.role (RoleDerivationSpec.info g);
                        "permitio_resource."
                          +:+ RoleDerivationGenerator.on_resource (RoleDerivationSpec.info g);
                        "permitio_role." +:+ RoleDerivationSpec.target_role g;
                        "permitio_resource." +:+ RoleDerivationSpec.target_resource g;
                        "permitio_relation." +:+ RoleDerivationSpec.relation_block_name r ]
                 |} ], [])
          | None =>
              ([], ["Could not find relation mapping for "
                    +:+ RoleDerivationSpec.grant_mappingKey g])
          end)
  /\ (RoleDerivationSpec.colon_free resourceMap = true ->
      forall g, In g (RoleDerivationSpec.qualifying_grants resourceMap) ->
        match RoleDerivationSpec.resolve resourceMap g with
        | Some r => In r (RoleDerivationSpec.all_relations resourceMap)
                    /\ RoleDerivationSpec.links r g
        | None => forall r, In r (RoleDerivationSpec.all_relations resourceMap) ->
                            ~ RoleDerivationSpec.links r g
        end).
Proof.
  split; [|split].
  - apply RoleDerivationFacts.generateDerivations_spec.
  - intros g. unfold RoleDerivationSpec.derived, RoleDerivationSpec.warned.
    destruct (RoleDerivationSpec.resolve resourceMap g); reflexivity.
  - intros Hcf g Hg. apply RoleDerivationFacts.resolve_links; assumption.
Qed.

Lemma role_derivations_depend_in_order_witness :
  RoleDerivationGenerator.generateDerivations sample_resourceMap []
  = (Resolved
       [ {| RoleDerivationGenerator.id := "member_to_viewer";
            RoleDerivationGenerator.derivation_resource := "document";
            RoleDerivationGenerator.derivation_role := "Member";
            RoleDerivationGenerator.linked_by := "folder_document";
            RoleDerivationGenerator.derivation_on_resource := "folder";
            RoleDerivationGenerator.to_role := "viewer";
            RoleDerivationGenerator.dependencies :=
              [ "permitio_role.Member"; "permitio_resource.folder";
                "permitio_role.viewer"; "permitio_resource.document";
                "permitio_relation.folder_document" ] |} ],
     ["Could not find relation mapping for folder:owner:document"])
  /\ RoleDerivationSpec.colon_free sample_resourceMap = true.
Proof.
  split.
  - exact (proj1 (role_derivations_depend_in_order sample_resourceMap [])).
  - reflexivity.
Defined.

(** ** Condition sets and their rules *)

Module ConditionSetFacts.
Import Generator ConditionSetSpec.

Lemma processConditionSetRule_spec rule us rs w :
  ConditionSetGenerator.processConditionSetRule rule us rs w
  = (Resolved (processed rule us rs), w).
Proof.
  unfold ConditionSetGenerator.processConditionSetRule, processed, try_catch.
  destruct (_ && _); [reflexivity|].
  destruct (_ && _); reflexivity.
Qed.

Lemma process_all_spec rules us rs w :
  ConditionSetGenerator.process_all rules us rs w
  = (Resolved (omap (fun rule => processed rule us rs) rules), w).
Proof.
  unfold ConditionSetGenerator.process_all, bind.
  rewrite (GeneratorFacts.map_G_resolved _ (fun rule => processed rule us rs) (fun _ => [])).
  - unfold ret. rewrite ExportFacts.flat_map_no_warnings, app_nil_r.
    f_equal. f_equal. induction rules as [|x l IH]; cbn; [reflexivity|].
    rewrite IH. reflexivity.
  - intros x w'. rewrite processConditionSetRule_spec, app_nil_r. reflexivity.
Qed.

Lemma not_available t (k : string) (sets : list ConditionSetRules.ConditionSetRead) :
  ~ In k (List.map ConditionSetRules.set_key sets) ->
  bool_decide (k ∈ ConditionSetGenerator.keys_of_type t sets) = false.
Proof.
  intros Hnot. apply bool_decide_eq_false. unfold ConditionSetGenerator.keys_of_type.
  rewrite elem_of_list_to_set, list_elem_of_In. intros Hin. apply Hnot.
  apply in_map_iff in Hin as (s & <- & Hs). apply List.filter_In in Hs as [Hs _].
  apply in_map. exact Hs.
Qed.

(** A rule that refers to an autogenerated set which is not among the
    fetched condition sets is skipped, whichever of its two sets that is. *)
Lemma stale_rule_is_skipped rule (sets : list ConditionSetRules.ConditionSetRead) :
  (Js.startsWith (ConditionSetRules.user_set rule) "__autogen_" = true /\
   ~ In (ConditionSetRules.user_set rule) (List.map ConditionSetRules.set_key sets)) \/
  (Js.startsWith (ConditionSetRules.resource_set rule) "__autogen_" = true /\
   ~ In (ConditionSetRules.resource_set rule) (List.map ConditionSetRules.set_key sets)) ->
  processed rule (ConditionSetGenerator.keys_of_type "userset" sets)
    (ConditionSetGenerator.keys_of_type "resourceset" sets) = None.
Proof.
  unfold processed. intros [[Hauto Hnot]|[Hauto Hnot]].
  - rewrite Hauto, (not_available _ _ _ Hnot). reflexivity.
  - rewrite Hauto, (not_available _ _ _ Hnot). cbn [negb andb].
    destruct (_ && _); reflexivity.
Qed.

(** What the edition with [processConditionSetRule] hands to the
    template: the rules that are not skipped, in order. *)
Lemma render_rules_spec permit template rules sets w :
  ConditionSetRules.conditionSets_list permit = Resolved sets ->
  ConditionSetGenerator.render_rules permit template rules w
  = (Resolved
       (let valid :=
          omap (fun rule =>
                  processed rule (ConditionSetGenerator.keys_of_type "userset" sets)
                    (ConditionSetGenerator.keys_of_type "resourceset" sets)) rules in
        if ExportContent.nonempty rules && ExportContent.nonempty valid
        then nl +:+ "# Condition Set Rules" +:+ nl +:+ template valid
        else ""), w).
Proof.
  intros Hsets. unfold ConditionSetGenerator.render_rules. rewrite Hsets.
  unfold bind at 1, await. destruct rules as [|rule rules]; [reflexivity|].
  cbn [ExportContent.nonempty negb andb]. unfold bind. rewrite process_all_spec.
  cbv zeta. destruct (omap _ _); reflexivity.
Qed.

End ConditionSetFacts.

(** C8 (the single-page edition). A rule whose autogenerated resource set
    was not fetched is rendered, without a warning: this edition checks the
    user set only. The edition with [processConditionSetRule] skips the same
    rule. *)
Theorem single_page_edition_renders_stale_resource_set :
  ConditionSetGeneratorSinglePage.generateHCL stale_rule_api resource_sets_template []
  = (Resolved (nl +:+ "# Condition Set Rules" +:+ nl +:+ "__autogen_docs"), [])
  /\ (exists run, ConditionSetGenerator.generateHCL stale_rule_api resource_sets_template 1
                  = Some run /\ run [] = (Resolved "", [])).
Proof.
  split.
  - vm_compute. reflexivity.
  - eexists. split; [reflexivity|]. vm_compute. reflexivity.
Qed.

(** C7 ([UserSetGenerator]). A user set without a name is handed to the
    template and rendered, and no warning is appended: the generator class
    does not validate the required fields. The loop of the monolithic
    exporter skips the same record with exactly one warning. *)
Theorem user_set_generator_renders_nameless_set :
  UserSetGenerator.generateHCL nameless_user_set_api (fun _ => "{}") set_keys_template []
  = (Resolved (nl +:+ "# User Sets" +:+ nl +:+ "vip_users"), [])
  /\ UserSetGenerator.data_name
       <$> UserSetGenerator.validSets (fun _ => "{}") [nameless_user_set]
     = [None]
  /\ ExportContent.export_user_sets sample_JSON [nameless_condition_set] ExportContent.initial
     = (ExportContent.Normal tt,
        {| ExportContent.state :=
             {| ExportContent.status := "Warning: Invalid user set data: vip-users";
                ExportContent.isComplete := false;
                ExportContent.error := None;
                ExportContent.warnings := ["Invalid user set data: vip-users"] |};
           ExportContent.hcl := nl +:+ "# User Sets" +:+ nl;
           ExportContent.sink := [] |}).
Proof.
  split; [|split]; vm_compute; reflexivity.
Qed.

(** ** The run of the monolithic exporter *)

Module RunFacts.
Import ExportContent ExportSpec ExportFacts RunSpec.

Section Run.
Variable JSON_ : JSON.
Variable W : World.
Variables (apiKey authToken file : option string).

Local Abbreviation the_run := (run JSON_ W apiKey authToken file).
Local Abbreviation the_key := (credential apiKey authToken).

Lemma header_provider_block s k : header s k = preamble s +:+ provider_block k.
Proof.
  unfold header, preamble, provider_block, quoted.
  rewrite !append_assoc. reflexivity.
Qed.

(** A run whose Resources listing is rejected ends in the error state,
    with no warning and nothing written. *)
Lemma run_resources_rejected v e :
  Js.truthy_opt (key apiKey authToken) = true ->
  validated_as W the_key v ->
  isSubscribed W AfterValidation = true ->
  isSubscribed W InCatch = true ->
  resources_list (Permit W the_key) = Rejected e ->
  summary the_run
  = stopped (Some ("Failed to export configuration: " +:+ errorMsg e)) true [] [].
Proof.
  intros Hkey (Hv & Hvalid & Herr) Hsub Hcatch Hres.
  rewrite summary_run. unfold expected.
  rewrite Hkey, Hv, Hvalid, Herr, Hsub, Hres. cbn [negb orb].
  unfold failed. rewrite Hcatch. reflexivity.
Qed.

(** A validated run that is not abandoned, whose Resources listing
    resolves and whose sink takes the artifact, completes without error:
    every failure of a guarded phase is a warning of the run. *)
Lemma run_completes v rs :
  Js.truthy_opt (key apiKey authToken) = true ->
  validated_as W the_key v ->
  (forall c, isSubscribed W c = true) ->
  resources_list (Permit W the_key) = Resolved rs ->
  sink_accepts W file (artifact JSON_ W (scope v) the_key rs) ->
  summary the_run
  = stopped None true
      (guarded_warnings JSON_ (Permit W the_key) (validResources_of rs))
      [sink_event file (artifact JSON_ W (scope v) the_key rs)].
Proof.
  intros Hkey (Hv & Hvalid & Herr) Hsub Hres Hsink.
  rewrite summary_run. unfold expected.
  rewrite Hkey, Hv, Hvalid, Herr, Hres, !Hsub. cbn [negb orb].
  unfold sink_event. destruct (Js.truthy_opt file) eqn:Hfile; [|reflexivity].
  rewrite (Hsink Hfile). reflexivity.
Qed.

(** Whatever reaches the sink is the artifact of a validated run whose
    Resources listing resolved, and it is the only thing that reaches
    it. *)
Lemma sink_holds_artifact ev :
  In ev (sink the_run) ->
  exists v rs,
    validated_as W the_key v /\
    resources_list (Permit W the_key) = Resolved rs /\
    sink the_run = [ev] /\
    content ev = artifact JSON_ W (scope v) the_key rs.
Proof.
  change (sink the_run) with (final_sink (summary the_run)).
  rewrite summary_run. unfold expected, failed, stopped.
  destruct (Js.truthy_opt (key apiKey authToken)); cbn [negb final_sink]; [|intros []].
  destruct (validateApiKeyScope W the_key "environment") as [v|e] eqn:Hv.
  2:{ destruct (isSubscribed W InCatch); intros []. }
  destruct (valid v) eqn:Hvalid; cbn [negb orb final_sink]; [|intros []].
  destruct (Js.truthy_opt (scope_error v)) eqn:Herr; cbn [final_sink]; [intros []|].
  destruct (isSubscribed W AfterValidation); cbn [negb final_sink]; [|intros []].
  destruct (resources_list (Permit W the_key)) as [rs|e] eqn:Hres.
  2:{ destruct (isSubscribed W InCatch); intros []. }
  cbv zeta.
  destruct (isSubscribed W BeforeSink); cbn [negb final_sink]; [|intros []].
  destruct (Js.truthy_opt file).
  - destruct (fs_writeFile W (default "" file) _) as [u|e].
    + cbn [final_sink]. intros [<-|[]]. exists v, rs. repeat split; auto.
    + destruct (isSubscribed W InCatch); intros [].
  - cbn [final_sink]. intros [<-|[]]. exists v, rs. repeat split; auto.
Qed.

(** The error state has four origins only: no credential, the scope check,
    the Resources listing, and the write to the file. *)
Lemma run_error_origins :
  final_error (summary the_run) <> None ->
  Js.truthy_opt (key apiKey authToken) = false \/
  (exists e, validateApiKeyScope W the_key "environment" = Rejected e) \/
  (exists v, validateApiKeyScope W the_key "environment" = Resolved v /\
             (valid v = false \/ Js.truthy_opt (scope_error v) = true)) \/
  (exists e, resources_list (Permit W the_key) = Rejected e) \/
  (exists text e, Js.truthy_opt file = true /\
                  fs_writeFile W (default "" file) text = Rejected e).
Proof.
  rewrite summary_run. unfold expected, failed, stopped.
  destruct (Js.truthy_opt (key apiKey authToken)); cbn [negb]; [|auto].
  destruct (validateApiKeyScope W the_key "environment") as [v|e] eqn:Hv;
    [|right; left; eauto].
  destruct (valid v) eqn:Hvalid; cbn [negb orb];
    [|intros _; right; right; left; exists v; auto].
  destruct (Js.truthy_opt (scope_error v)) eqn:Herr;
    [intros _; right; right; left; exists v; auto|].
  destruct (isSubscribed W AfterValidation); cbn [negb final_error]; [|congruence].
  destruct (resources_list (Permit W the_key)) as [rs|e] eqn:Hres;
    [|right; right; right; left; eauto].
  cbv zeta.
  destruct (isSubscribed W BeforeSink); cbn [negb final_error]; [|congruence].
  destruct (Js.truthy_opt file); cbn [final_error]; [|congruence].
  destruct (fs_writeFile W (default "" file) _) as [u|e] eqn:Hw;
    cbn [final_error]; [congruence|].
  intros _. right; right; right; right. eauto.
Qed.

End Run.

Lemma validResources_of_idempotent rs :
  validResources_of (validResources_of rs) = validResources_of rs.
Proof.
  unfold validResources_of. induction rs as [|r rs IH]; cbn [List.filter]; [reflexivity|].
  destruct (is_valid_resource r) eqn:Hr; cbn [List.filter]; rewrite ?Hr, IH; reflexivity.
Qed.

Lemma validResources_of_keys rs :
  List.Forall (fun r => resource_key r <> "__user") (validResources_of rs).
Proof.
  apply List.Forall_forall. intros r [_ Hr]%List.filter_In.
  unfold is_valid_resource in Hr. apply negb_true_iff, String.eqb_neq in Hr. exact Hr.
Qed.

Lemma relations_outcome_ext p p' rs :
  (forall k, resourceRelations_list p k = resourceRelations_list p' k) ->
  relations_outcome p rs = relations_outcome p' rs.
Proof.
  intros H. induction rs as [|r rs IH]; cbn [relations_outcome]; [reflexivity|].
  rewrite H, IH. reflexivity.
Qed.

Lemma guarded_ext JSON_ p p' valid :
  (forall k, resourceRelations_list p k = resourceRelations_list p' k) ->
  roles_list p = roles_list p' ->
  (forall k, resourceAttributes_list p k = resourceAttributes_list p' k) ->
  conditionSets_list p = conditionSets_list p' ->
  (forall a b c, conditionSetRules_list p a b c = conditionSetRules_list p' a b c) ->
  guarded_text JSON_ p valid = guarded_text JSON_ p' valid /\
  guarded_warnings JSON_ p valid = guarded_warnings JSON_ p' valid.
Proof.
  intros Hrel Hroles Hattrs Hsets Hrules.
  unfold guarded_text, guarded_warnings, condition_sets_text, condition_sets_warnings.
  rewrite (relations_outcome_ext p p' valid Hrel), Hroles, Hattrs, Hsets, Hrules.
  auto.
Qed.

(** Leaving the [__user] resources out of the Resources listing changes
    nothing of a run. *)
Lemma run_without_user JSON_ W apiKey authToken file :
  summary (run JSON_ (without_user W) apiKey authToken file)
  = summary (run JSON_ W apiKey authToken file).
Proof.
  rewrite !summary_run. unfold expected, failed, artifact.
  set (k := credential apiKey authToken).
  destruct (guarded_ext JSON_ (Permit (without_user W) k) (Permit W k))
    with (valid := validResources_of (validResources_of
                     (listed (resources_list (Permit W k)))))
    as [Htext Hwarn]; try reflexivity.
  change (validateApiKeyScope (without_user W)) with (validateApiKeyScope W).
  change (fs_writeFile (without_user W)) with (fs_writeFile W).
  change (isSubscribed (without_user W)) with (isSubscribed W).
  change (resources_list (Permit (without_user W) k))
    with (match resources_list (Permit W k) with
          | Resolved rs => Resolved (validResources_of rs)
          | Rejected e => Rejected e
          end).
  destruct (resources_list (Permit W k)) as [rs|e]; [|reflexivity].
  cbn [listed] in Htext, Hwarn. cbv zeta.
  rewrite Htext, Hwarn, !validResources_of_idempotent. reflexivity.
Qed.

End RunFacts.

(** C1 (the Resources listing). With a valid credential, a rejected
    Resources listing ends the run in the error state, with no warning and
    nothing written, whereas a rejected Roles listing is one warning of a
    run that completes. *)
Theorem resources_listing_failure_aborts_export :
  ExportSpec.summary
    (ExportContent.run sample_JSON resources_down_world (Some "permit_key_abc") None None)
  = ExportSpec.stopped
      (Some "Failed to export configuration: 503 Service Unavailable") true [] []
  /\ ExportSpec.final_error
       (ExportSpec.summary
          (ExportContent.run sample_JSON roles_down_world (Some "permit_key_abc") None None))
     = None
  /\ ExportSpec.final_warnings
       (ExportSpec.summary
          (ExportContent.run sample_JSON roles_down_world (Some "permit_key_abc") None None))
     = [ "Failed to export roles: Error: 503 Service Unavailable";
         "Invalid user set data: vip-users" ].
Proof.
  split; [|split]; vm_compute; reflexivity.
Qed.

(** C3. No resource that gets a resource block has the key [__user]:
    leaving the [__user] resources out of the Resources listing changes
    nothing of a run, and an artifact that reaches the sink holds the blocks
    of the other resources only. The User Attributes section of that
    artifact lists the attributes requested for [__user], and
    [UserAttributesGenerator.getUserAttributes] reads the resource [__user]
    and no other: it returns attributes of that resource. *)
Theorem user_pseudo_resource_is_not_exported
    (JSON_ : ExportContent.JSON) (W : ExportContent.World)
    (apiKey authToken file : option string) :
  (forall rs,
     List.Forall (fun r => ExportContent.resource_key r <> "__user")
       (ExportSpec.validResources_of rs))
  /\ ExportSpec.summary
       (ExportContent.run JSON_ (RunSpec.without_user W) apiKey authToken file)
     = ExportSpec.summary (ExportContent.run JSON_ W apiKey authToken file)
  /\ (forall ev,
        In ev (ExportContent.sink (ExportContent.run JSON_ W apiKey authToken file)) ->
        exists v rs,
          let permit := ExportContent.Permit W (ExportSpec.credential apiKey authToken) in
          ExportContent.resources_list permit = Resolved rs /\
          RunSpec.content ev
          = ExportContent.header (ExportContent.scope v)
              (ExportSpec.credential apiKey authToken) +:+
            titled "# Resources" ExportContent.resource_block
              (List.filter (fun r => negb (String.eqb (ExportContent.resource_key r) "__user"))
                 rs) +:+
            fst (ExportSpec.relations_outcome permit (ExportSpec.validResources_of rs)) +:+
            titled "# Roles" (ExportContent.role_block JSON_)
              (ExportSpec.listed (ExportContent.roles_list permit)) +:+
            titled "# User Attributes" ExportContent.user_attribute_block
              (ExportSpec.listed (ExportContent.resourceAttributes_list permit "__user")) +:+
            ExportSpec.condition_sets_text JSON_ permit)
  /\ (forall permit w,
        UserAttributesGenerator.getUserAttributes permit w
        = UserAttributesGenerator.getUserAttributes
            {| UserAttributesGenerator.resources_get := fun _ =>
                 UserAttributesGenerator.resources_get permit "__user" |} w)
  /\ (forall permit r attrs w,
        UserAttributesGenerator.resources_get permit "__user" = Resolved (Some r) ->
        UserAttributesGenerator.attributes r = Some attrs ->
        exists data ws,
          UserAttributesGenerator.getUserAttributes permit w = (Resolved data, ws) /\
          List.map UserAttributesGenerator.key data
          = List.map fst (List.filter UserAttributesSpec.kept attrs)).
Proof.
  split; [|split; [|split; [|split]]].
  - apply RunFacts.validResources_of_keys.
  - apply RunFacts.run_without_user.
  - intros ev Hev.
    destruct (RunFacts.sink_holds_artifact JSON_ W apiKey authToken file ev Hev)
      as (v & rs & _ & Hres & _ & Hcontent).
    exists v, rs. split; [exact Hres|]. rewrite Hcontent. reflexivity.
  - reflexivity.
  - intros permit r attrs w Hget Hattrs. eexists _, _. split.
    + apply UserAttributesFacts.getUserAttributes_spec with (r := r); eassumption.
    + rewrite List.map_map. reflexivity.
Qed.

Lemma user_pseudo_resource_is_not_exported_witness :
  (exists text,
     ExportContent.sink
       (ExportContent.run sample_JSON sample_world (Some "permit_key_abc") None None)
     = [ExportContent.ConsoleLog text] /\
     Js.includes text ("resource " +:+ quoted "permitio_resource" +:+ " " +:+ quoted "document")
     = true /\
     Js.includes text ("resource " +:+ quoted "permitio_resource" +:+ " " +:+ quoted "__user")
     = false /\
     Js.includes text
       ("resource " +:+ quoted "permitio_user_attribute" +:+ " " +:+ quoted "tier")
     = true)
  /\ ExportSpec.summary
       (ExportContent.run sample_JSON (RunSpec.without_user sample_world)
          (Some "permit_key_abc") None None)
     = ExportSpec.summary
         (ExportContent.run sample_JSON sample_world (Some "permit_key_abc") None None).
Proof.
  split.
  - eexists. split; [vm_compute; reflexivity|]. split; [|split]; vm_compute; reflexivity.
  - exact (proj1 (proj2 (user_pseudo_resource_is_not_exported sample_JSON sample_world
                           (Some "permit_key_abc") None None))).
Defined.

(** C10. The head of the artifact ends with the provider block whose
    [api_key] is the credential of the run, verbatim. Whatever reaches the
    sink, the file or the standard output, starts with that head; and a
    validated run that is not abandoned, whose Resources listing resolves
    and whose sink takes the artifact, sends exactly that artifact to the
    sink. *)
Theorem artifact_header_embeds_credential
    (JSON_ : ExportContent.JSON) (W : ExportContent.World)
    (apiKey authToken file : option string) :
  (forall s k,
     ExportContent.header s k
     = RunSpec.preamble s +:+
       "provider " +:+ quoted "permitio" +:+ " {" +:+ nl +:+
       "  api_key = " +:+ dq +:+ k +:+ dq +:+ nl +:+
       "}" +:+ nl)
  /\ (forall ev,
        In ev (ExportContent.sink (ExportContent.run JSON_ W apiKey authToken file)) ->
        exists v rest,
          ExportSpec.validated_as W (ExportSpec.credential apiKey authToken) v /\
          ExportContent.sink (ExportContent.run JSON_ W apiKey authToken file) = [ev] /\
          RunSpec.content ev
          = ExportContent.header (ExportContent.scope v)
              (ExportSpec.credential apiKey authToken) +:+ rest)
  /\ (forall v rs,
        Js.truthy_opt (ExportContent.key apiKey authToken) = true ->
        ExportSpec.validated_as W (ExportSpec.credential apiKey authToken) v ->
        (forall c, ExportContent.isSubscribed W c = true) ->
        ExportContent.resources_list
          (ExportContent.Permit W (ExportSpec.credential apiKey authToken))
        = Resolved rs ->
        RunSpec.sink_accepts W file
          (ExportSpec.artifact JSON_ W (ExportContent.scope v)
             (ExportSpec.credential apiKey authToken) rs) ->
        ExportContent.sink (ExportContent.run JSON_ W apiKey authToken file)
        = [RunSpec.sink_event file
             (ExportSpec.artifact JSON_ W (ExportContent.scope v)
                (ExportSpec.credential apiKey authToken) rs)]).
Proof.
  split; [|split].
  - intros s k. rewrite RunFacts.header_provider_block. reflexivity.
  - intros ev Hev.
    destruct (RunFacts.sink_holds_artifact JSON_ W apiKey authToken file ev Hev)
      as (v & rs & Hv & _ & Hsink & Hcontent).
    exists v. eexists. split; [exact Hv|]. split; [exact Hsink|].
    rewrite Hcontent. reflexivity.
  - intros v rs Hkey Hv Hsub Hres Hsink.
    change (ExportContent.sink ?m) with (ExportSpec.final_sink (ExportSpec.summary m)).
    rewrite (RunFacts.run_completes JSON_ W apiKey authToken file v rs); auto.
Qed.

Lemma artifact_header_embeds_credential_witness :
  exists rest,
    ExportContent.sink
      (ExportContent.run sample_JSON sample_world None (Some "permit_key_abc")
         (Some "out.tf"))
    = [ExportContent.FileWritten "out.tf"
         (RunSpec.preamble (ExportContent.scope sample_scope) +:+
          RunSpec.provider_block "permit_key_abc" +:+ rest)].
Proof.
  destruct (proj2 (proj2 (artifact_header_embeds_credential sample_JSON sample_world
                            None (Some "permit_key_abc") (Some "out.tf")))
              sample_scope sample_resources) as [].
  - reflexivity.
  - repeat split.
  - reflexivity.
  - reflexivity.
  - intros _. reflexivity.
  - eexists. vm_compute. reflexivity.
Defined.

(** ** More on the identifier sanitizer *)

Module SanitizerFacts.
Import SanitizerSpec.

Lemma createSafeId_parts (parts : list string) :
  createSafeId parts
  = Js.join "_" (List.filter Js.truthy (List.map Js.replace_non_ident parts)).
Proof.
  unfold createSafeId. do 2 f_equal. apply List.map_ext. intros a. rewrite or_empty_Some. reflexivity.
Qed.

Lemma truthy_replace_non_ident (s : string) :
  Js.truthy (Js.replace_non_ident s) = Js.truthy s.
Proof. destruct s; reflexivity. Qed.

Lemma length_map_chars f (s : string) :
  String.length (Js.map_chars f s) = String.length s.
Proof. induction s as [|c s IH]; cbn; [reflexivity | rewrite IH; reflexivity]. Qed.

Lemma truthy_append (a b : string) : Js.truthy (a +:+ b) = Js.truthy a || Js.truthy b.
Proof. destruct a; reflexivity. Qed.

Lemma join_cons (sep a : string) (l : list string) :
  Js.join sep (a :: l) = match l with [] => a | _ :: _ => a +:+ sep +:+ Js.join sep l end.
Proof. destruct l; reflexivity. Qed.

Lemma truthy_join (l : list string) :
  Forall (fun s => Js.truthy s = true) l ->
  Js.truthy (Js.join "_" l) = ExportContent.nonempty l.
Proof.
  intros H. destruct H as [|a l Ha Hl]; [reflexivity|].
  rewrite join_cons. destruct l; cbn [ExportContent.nonempty]; [exact Ha|].
  rewrite truthy_append, Ha. reflexivity.
Qed.

Lemma join_app (l1 l2 : list string) :
  Forall (fun s => Js.truthy s = true) l1 ->
  Forall (fun s => Js.truthy s = true) l2 ->
  Js.join "_" (l1 ++ l2)%list = glue (Js.join "_" l1) (Js.join "_" l2).
Proof.
  intros H1 H2. unfold glue. rewrite (truthy_join l2 H2).
  induction H1 as [|a l1 Ha Hl IH]; [reflexivity|].
  rewrite (truthy_join (a :: l1)) by (constructor; assumption).
  rewrite (truthy_join l1 Hl) in IH.
  cbn [ExportContent.nonempty app].
  rewrite !join_cons. destruct l1 as [|b l1].
  - cbn [app]. destruct l2; cbn [ExportContent.nonempty]; reflexivity.
  - cbn [ExportContent.nonempty app] in *. rewrite IH.
    destruct l2; cbn [ExportContent.nonempty]; [reflexivity|].
    rewrite !append_assoc. reflexivity.
Qed.

Lemma safe_parts_truthy (parts : list string) :
  Forall (fun s => Js.truthy s = true)
    (List.filter Js.truthy (List.map Js.replace_non_ident parts)).
Proof. apply List.Forall_forall. intros s [_ Hs]%List.filter_In. exact Hs. Qed.

Lemma createSafeId_app (p q : list string) :
  createSafeId (p ++ q)%list = glue (createSafeId p) (createSafeId q).
Proof.
  rewrite !createSafeId_parts, List.map_app, List.filter_app.
  apply join_app; apply safe_parts_truthy.
Qed.

Lemma createSafeId_nil : createSafeId [] = "".
Proof. reflexivity. Qed.

Lemma createSafeId_cons (a : string) (l : list string) :
  createSafeId (a :: l) = glue (Js.replace_non_ident a) (createSafeId l).
Proof.
  change (a :: l) with ([a] ++ l)%list. rewrite createSafeId_app, createSafeId_single.
  reflexivity.
Qed.

Lemma createSafeId_matches (parts : list string) :
  Js.matches_identifier (createSafeId parts) = true.
Proof.
  rewrite createSafeId_parts. apply join_matches.
  apply List.Forall_forall. intros s [Hs _]%List.filter_In.
  apply List.in_map_iff in Hs as (x & <- & _). apply replace_non_ident_matches.
Qed.

Lemma truthy_glue (a b : string) : Js.truthy (glue a b) = Js.truthy a || Js.truthy b.
Proof.
  unfold glue. destruct (Js.truthy a) eqn:Ha, (Js.truthy b) eqn:Hb; auto.
  rewrite truthy_append, Ha. reflexivity.
Qed.

Lemma truthy_createSafeId (parts : list string) :
  Js.truthy (createSafeId parts) = existsb Js.truthy parts.
Proof.
  induction parts as [|a l IH]; [reflexivity|].
  rewrite createSafeId_cons, truthy_glue, truthy_replace_non_ident, IH. reflexivity.
Qed.

Lemma glue_empty_l (b : string) : glue "" b = b.
Proof. reflexivity. Qed.

Lemma glue_truthy_l (a b : string) :
  Js.truthy a = true -> glue a b = if Js.truthy b then a +:+ "_" +:+ b else a.
Proof. unfold glue. intros ->. reflexivity. Qed.

Lemma glue_falsy_l (a b : string) : Js.truthy a = false -> glue a b = b.
Proof. unfold glue. intros ->. reflexivity. Qed.

End SanitizerFacts.

(** X1. The identifier of a list of parts that is given in two pieces is
    the two identifiers joined by one underscore, an empty identifier
    dropping out; so sanitizing identifiers that were sanitized before is
    the same as sanitizing all the parts at once. *)
Theorem createSafeId_of_identifiers_flattens :
  (forall p q : list string,
     createSafeId (p ++ q)%list = SanitizerSpec.glue (createSafeId p) (createSafeId q))
  /\ (forall pss : list (list string),
        createSafeId (List.map createSafeId pss) = createSafeId (List.concat pss)).
Proof.
  split; [apply SanitizerFacts.createSafeId_app|].
  induction pss as [|p pss IH]; [reflexivity|].
  cbn [List.map List.concat].
  rewrite SanitizerFacts.createSafeId_cons, SanitizerFacts.createSafeId_app, IH.
  rewrite replace_non_ident_fixed by apply SanitizerFacts.createSafeId_matches.
  reflexivity.
Qed.

(** X2. Empty parts leave no trace in an identifier: the identifier of a
    list of parts is that of its non-empty parts, it is empty exactly when
    every part is empty, and a single part keeps its length. *)
Theorem createSafeId_ignores_empty_parts :
  (forall parts : list string,
     createSafeId (List.filter Js.truthy parts) = createSafeId parts)
  /\ (forall parts : list string,
        createSafeId parts = "" <-> Forall (fun part => part = "") parts)
  /\ (forall part : string,
        String.length (createSafeId [part]) = String.length part).
Proof.
  split; [|split].
  - induction parts as [|a l IH]; [reflexivity|]. cbn [List.filter].
    destruct (Js.truthy a) eqn:Ha.
    + rewrite !SanitizerFacts.createSafeId_cons, IH. reflexivity.
    + rewrite IH, SanitizerFacts.createSafeId_cons.
      rewrite SanitizerFacts.glue_falsy_l; [reflexivity|].
      rewrite SanitizerFacts.truthy_replace_non_ident. exact Ha.
  - intros parts. pose proof (SanitizerFacts.truthy_createSafeId parts) as H.
    split.
    + intros E. rewrite E in H. cbn in H. symmetry in H.
      apply List.Forall_forall. intros x Hx.
      destruct x as [|c x]; [reflexivity|].
      assert (existsb Js.truthy parts = true) as Hex
        by (apply List.existsb_exists; exists (String c x); auto).
      congruence.
    + intros Hall. destruct (createSafeId parts) as [|c s] eqn:E; [reflexivity|].
      cbn in H. symmetry in H. apply List.existsb_exists in H as (x & Hx & Ht).
      rewrite List.Forall_forall in Hall. rewrite (Hall x Hx) in Ht. discriminate.
  - intros part. rewrite createSafeId_single. apply SanitizerFacts.length_map_chars.
Qed.

(** X3. The key the generator classes give a condition set rule is an
    identifier; when the user set, the resource set and the permission are
    all non-empty it is the sanitizer applied to the three of them. *)
Theorem ruleKey_is_identifier_of_three_parts :
  (forall u r p : string,
     Js.matches_identifier (ConditionSetRules.ruleKey u r p) = true)
  /\ (forall u r p : string,
        Js.truthy u = true -> Js.truthy r = true -> Js.truthy p = true ->
        ConditionSetRules.ruleKey u r p = createSafeId [u; r; p]).
Proof.
  split.
  - intros u r p. unfold ConditionSetRules.ruleKey, Js.matches_identifier.
    rewrite !all_chars_app.
    pose proof (SanitizerFacts.createSafeId_matches [u]) as Hu.
    pose proof (SanitizerFacts.createSafeId_matches [r]) as Hr.
    pose proof (SanitizerFacts.createSafeId_matches [p]) as Hp.
    unfold Js.matches_identifier in Hu, Hr, Hp. rewrite Hu, Hr, Hp. reflexivity.
  - intros u r p Hu Hr Hp.
    rewrite <- SanitizerFacts.truthy_replace_non_ident in Hu, Hr, Hp.
    rewrite !SanitizerFacts.createSafeId_cons, SanitizerFacts.createSafeId_nil.
    unfold ConditionSetRules.ruleKey. rewrite !createSafeId_single.
    rewrite (SanitizerFacts.glue_truthy_l _ "" Hp). cbn [Js.truthy].
    rewrite (SanitizerFacts.glue_truthy_l _ _ Hr), Hp.
    rewrite (SanitizerFacts.glue_truthy_l _ _ Hu), SanitizerFacts.truthy_append, Hr.
    reflexivity.
Qed.

Lemma ruleKey_is_identifier_of_three_parts_witness :
  ConditionSetRules.ruleKey "__autogen_admins" "docs" "document:read"
  = "__autogen_admins_docs_document_read"
  /\ createSafeId ["__autogen_admins"; "docs"; "document:read"]
     = "__autogen_admins_docs_document_read".
Proof.
  pose proof (proj2 ruleKey_is_identifier_of_three_parts
                "__autogen_admins" "docs" "document:read") as E.
  split; [|rewrite <- E]; reflexivity.
Defined.

(** ** The description helper of the user attribute template *)

Module FormatFacts.
Import FormatDescription FormatSpec.

Ltac each_char c := destruct c as [[] [] [] [] [] [] [] []]; vm_compute; auto.

Lemma is_space_space : is_space " " = true.
Proof. reflexivity. Qed.

Lemma word_char_not_space (c : ascii) :
  is_word_char c = true -> is_space c = false /\ Ascii.eqb c " " = false.
Proof. each_char c. Qed.

Lemma basic_char (c : ascii) :
  is_basic c = true -> is_space c = false -> is_word_char c = true.
Proof.
  unfold is_basic, is_word_char. intros H Hs. rewrite Hs, orb_false_r in H. exact H.
Qed.

Lemma word_char_basic (c : ascii) : is_word_char c = true -> is_basic c = true.
Proof.
  unfold is_basic, is_word_char. intros H.
  destruct (Js.is_ident_char c); cbn in *; [reflexivity|]. rewrite H. apply orb_true_r.
Qed.

Lemma not_space_not_blank (c : ascii) : is_space c = false -> Ascii.eqb c " " = false.
Proof. each_char c. Qed.

Lemma blank_others_basic (s : string) : Js.all_chars is_basic (blank_others s) = true.
Proof.
  apply all_chars_map_chars. intros c. destruct (is_basic c) eqn:E; [exact E | reflexivity].
Qed.

(** The two replacements and [trimStart] together. *)
Lemma trimStart_collapse (b : bool) (u : string) :
  trimStart (collapse b u) = collapse true u.
Proof.
  revert b. induction u as [|c r IH]; intros b; [reflexivity|].
  cbn [collapse]. destruct (is_space c) eqn:Hc.
  - destruct b; [apply IH|]. cbn [trimStart]. rewrite is_space_space. apply IH.
  - cbn [trimStart]. rewrite Hc. reflexivity.
Qed.

Lemma trimEnd_cons (c : ascii) (r : string) :
  trimEnd (String c r)
  = if is_empty (trimEnd r)
    then if is_space c then "" else String c ""
    else String c (trimEnd r).
Proof. cbn [trimEnd]. destruct (trimEnd r); reflexivity. Qed.

Lemma spaced_trimEnd_collapse (b : bool) (u : string) :
  Js.all_chars is_basic u = true ->
  spaced b (trimEnd (collapse b u)) = true.
Proof.
  revert b. induction u as [|c r IH]; intros b; [reflexivity|].
  cbn [Js.all_chars collapse]. intros [Hc Hr]%andb_prop.
  destruct (is_space c) eqn:Hs.
  - destruct b; [apply IH, Hr|].
    rewrite trimEnd_cons, is_space_space.
    destruct (is_empty (trimEnd (collapse true r))) eqn:He; [reflexivity|].
    cbn [spaced]. rewrite Ascii.eqb_refl, He. cbn [negb andb]. apply IH, Hr.
  - pose proof (basic_char c Hc Hs) as Hw.
    rewrite trimEnd_cons, Hs.
    destruct (is_empty (trimEnd (collapse false r))) eqn:He;
      cbn [spaced]; rewrite (not_space_not_blank c Hs), Hw; [reflexivity|].
    apply IH, Hr.
Qed.

Lemma formatDescription_text (s : string) :
  Js.truthy s = true ->
  formatDescription (Some s) = trimEnd (collapse true (blank_others s)).
Proof.
  intros Hs. unfold formatDescription, trim. cbn [Js.truthy_opt default].
  rewrite Hs, trimStart_collapse. reflexivity.
Qed.

Lemma formatDescription_spaced (text : option string) :
  tidy (formatDescription text) = true.
Proof.
  destruct text as [[|c s]|]; try reflexivity.
  rewrite formatDescription_text by reflexivity.
  apply spaced_trimEnd_collapse, blank_others_basic.
Qed.

(** A tidy text is left as it is by each of the three steps. *)
Lemma spaced_basic (b : bool) (s : string) :
  spaced b s = true -> Js.all_chars is_basic s = true.
Proof.
  revert b. induction s as [|c r IH]; intros b; [reflexivity|].
  cbn [spaced Js.all_chars]. destruct (Ascii.eqb c " ") eqn:E.
  - apply Ascii.eqb_eq in E as ->. intros [_ H]%andb_prop. rewrite (IH _ H). reflexivity.
  - intros [Hw H]%andb_prop. rewrite (word_char_basic c Hw), (IH _ H). reflexivity.
Qed.

Lemma spaced_weaken (b : bool) (s : string) : spaced true s = true -> spaced b s = true.
Proof.
  destruct b; [auto|]. destruct s as [|c r]; [reflexivity|]. cbn [spaced].
  destruct (Ascii.eqb c " "); [discriminate | auto].
Qed.

Lemma collapse_spaced (b : bool) (s : string) : spaced b s = true -> collapse b s = s.
Proof.
  revert b. induction s as [|c r IH]; intros b; [reflexivity|].
  cbn [spaced collapse]. destruct (Ascii.eqb c " ") eqn:E.
  - apply Ascii.eqb_eq in E as ->. rewrite is_space_space.
    intros [[Hb _]%andb_prop H]%andb_prop. destruct b; [discriminate|].
    rewrite (IH _ H). reflexivity.
  - intros [Hw H]%andb_prop. rewrite (proj1 (word_char_not_space c Hw)), (IH _ H).
    reflexivity.
Qed.

Lemma trimEnd_spaced (b : bool) (s : string) : spaced b s = true -> trimEnd s = s.
Proof.
  revert b. induction s as [|c r IH]; intros b; [reflexivity|].
  rewrite trimEnd_cons. cbn [spaced]. destruct (Ascii.eqb c " ") eqn:E.
  - intros [[_ He]%andb_prop H]%andb_prop. rewrite (IH _ H).
    apply negb_true_iff in He. rewrite He. reflexivity.
  - intros [Hw H]%andb_prop. rewrite (IH _ H), (proj1 (word_char_not_space c Hw)).
    destruct r; reflexivity.
Qed.

Lemma formatDescription_tidy_fixed (s : string) :
  tidy s = true -> formatDescription (Some s) = s.
Proof.
  intros H. destruct s as [|c r]; [reflexivity|].
  rewrite formatDescription_text by reflexivity.
  unfold blank_others. rewrite map_chars_fixed with (p := is_basic).
  - rewrite (collapse_spaced _ _ H). apply (trimEnd_spaced _ _ H).
  - intros x Hx. rewrite Hx. reflexivity.
  - apply (spaced_basic _ _ H).
Qed.

(** [trim] gives the empty string exactly for a text of white space. *)
Lemma all_space_trimStart (s : string) :
  Js.all_chars is_space (trimStart s) = Js.all_chars is_space s.
Proof.
  induction s as [|c r IH]; [reflexivity|]. cbn [trimStart].
  destruct (is_space c) eqn:Hc; [|reflexivity].
  cbn [Js.all_chars]. rewrite Hc. exact IH.
Qed.

Lemma truthy_trimEnd (s : string) :
  Js.truthy (trimEnd s) = negb (Js.all_chars is_space s).
Proof.
  induction s as [|c r IH]; [reflexivity|]. rewrite trimEnd_cons.
  cbn [Js.all_chars]. unfold is_empty. rewrite IH, negb_involutive.
  destruct (Js.all_chars is_space r), (is_space c); reflexivity.
Qed.

Lemma truthy_trim (s : string) :
  Js.truthy (trim s) = negb (UserAttributesGenerator.trims_to_empty s).
Proof.
  unfold trim, UserAttributesGenerator.trims_to_empty.
  rewrite truthy_trimEnd, all_space_trimStart. reflexivity.
Qed.

Lemma spaced_word_chars (b : bool) (s : string) :
  spaced b s = true ->
  Js.all_chars (fun c => is_word_char c || Ascii.eqb c " ") s = true.
Proof.
  revert b. induction s as [|c r IH]; intros b; [reflexivity|].
  cbn [spaced Js.all_chars]. destruct (Ascii.eqb c " ") eqn:E.
  - intros [_ H]%andb_prop. rewrite (IH _ H), orb_true_r. reflexivity.
  - intros [Hw H]%andb_prop. rewrite Hw, (IH _ H). reflexivity.
Qed.

Lemma spaced_no_double_space (b : bool) (s : string) :
  spaced b s = true -> Js.includes s "  " = false.
Proof.
  revert b. induction s as [|c r IH]; intros b; [reflexivity|].
  cbn [spaced Js.includes]. destruct (Ascii.eqb c " ") eqn:E.
  - apply Ascii.eqb_eq in E as ->. intros [[_ He]%andb_prop H]%andb_prop.
    rewrite (IH _ H), orb_false_r. destruct r as [|d r]; [reflexivity|].
    cbn [spaced] in H. destruct (Ascii.eqb d " ") eqn:Ed; [discriminate|].
    cbn [String.prefix]. destruct (ascii_dec " " " "); [|reflexivity].
    destruct (ascii_dec " " d) as [<-|]; [discriminate | reflexivity].
  - intros [_ H]%andb_prop. rewrite (IH _ H), orb_false_r.
    cbn [String.prefix]. destruct (ascii_dec " " c) as [<-|]; [discriminate | reflexivity].
Qed.

Lemma length_trimStart (s : string) : String.length (trimStart s) <= String.length s.
Proof.
  induction s as [|c r IH]; [reflexivity|]. cbn [trimStart].
  destruct (is_space c); cbn [String.length]; lia.
Qed.

Lemma length_trimEnd (s : string) : String.length (trimEnd s) <= String.length s.
Proof.
  induction s as [|c r IH]; [reflexivity|]. rewrite trimEnd_cons.
  destruct (is_empty _); [destruct (is_space c)|]; cbn [String.length]; lia.
Qed.

Lemma length_collapse (b : bool) (s : string) :
  String.length (collapse b s) <= String.length s.
Proof.
  revert b. induction s as [|c r IH]; intros b; [reflexivity|]. cbn [collapse].
  destruct (is_space c); [destruct b|]; cbn [String.length];
    try pose proof (IH true); try pose proof (IH false); lia.
Qed.

End FormatFacts.

(** X4. Whatever the description, [formatDescription] returns words of
    letters, digits, underscores and the marks [.,!?()-] with single
    spaces between them: no other character (so no quote, no backslash and
    no line break), no space at either end and no two spaces in a row. The
    result is never longer than the description. *)
Theorem formatDescription_yields_spaced_words (text : option string) :
  FormatSpec.tidy (FormatDescription.formatDescription text) = true
  /\ Js.all_chars (fun c => FormatSpec.is_word_char c || Ascii.eqb c " ")
       (FormatDescription.formatDescription text) = true
  /\ Js.includes (FormatDescription.formatDescription text) "  " = false
  /\ String.length (FormatDescription.formatDescription text)
     <= String.length (default "" text).
Proof.
  pose proof (FormatFacts.formatDescription_spaced text) as H.
  split; [exact H|]. split; [exact (FormatFacts.spaced_word_chars _ _ H)|]. split.
  - exact (FormatFacts.spaced_no_double_space _ _ H).
  - unfold FormatDescription.formatDescription.
    destruct (Js.truthy_opt text); [|cbn; lia].
    unfold FormatDescription.trim, FormatDescription.blank_others.
    etransitivity; [apply FormatFacts.length_trimEnd|].
    etransitivity; [apply FormatFacts.length_trimStart|].
    etransitivity; [apply FormatFacts.length_collapse|].
    rewrite SanitizerFacts.length_map_chars. reflexivity.
Qed.

(** X5. [formatDescription] is idempotent, and it leaves alone every text
    that is already of the form it produces. *)
Theorem formatDescription_idempotent :
  (forall text : option string,
     FormatDescription.formatDescription (Some (FormatDescription.formatDescription text))
     = FormatDescription.formatDescription text)
  /\ (forall s : string,
        FormatSpec.tidy s = true -> FormatDescription.formatDescription (Some s) = s).
Proof.
  split.
  - intros text. apply FormatFacts.formatDescription_tidy_fixed,
      FormatFacts.formatDescription_spaced.
  - apply FormatFacts.formatDescription_tidy_fixed.
Qed.

(** ** More on the run of the monolithic exporter *)

Module PhaseFacts.
Import ExportContent ExportSpec ExportFacts PhaseSpec.

Lemma relations_outcome_until_rejection permit before r after e :
  Forall (fun x => rejection (resourceRelations_list permit (resource_key x)) = None) before ->
  resourceRelations_list permit (resource_key r) = Rejected e ->
  relations_outcome permit (before ++ r :: after)%list
  = (blocks (relations_of permit) before, Some e).
Proof.
  intros Hbefore Hr. induction Hbefore as [|x before Hx _ IH]; cbn [app relations_outcome].
  - rewrite Hr. reflexivity.
  - destruct (resourceRelations_list permit (resource_key x)) eqn:E; [|discriminate].
    rewrite IH. cbn [blocks fold_right]. unfold relations_of at 2. rewrite E. reflexivity.
Qed.

Lemma relations_outcome_resolved permit rs :
  Forall (fun x => rejection (resourceRelations_list permit (resource_key x)) = None) rs ->
  relations_outcome permit rs = (blocks (relations_of permit) rs, None).
Proof.
  intros Hrs. induction Hrs as [|x rs Hx _ IH]; cbn [relations_outcome]; [reflexivity|].
  destruct (resourceRelations_list permit (resource_key x)) eqn:E; [|discriminate].
  rewrite IH. cbn [blocks fold_right]. unfold relations_of at 2. rewrite E. reflexivity.
Qed.

Lemma blocks_validated {A} (invalid : A -> bool) (block : A -> string) (l : list A) :
  blocks (validated invalid block) l
  = blocks block (List.filter (fun x => negb (invalid x)) l).
Proof.
  induction l as [|x l IH]; [reflexivity|].
  cbn [blocks fold_right List.filter]. unfold validated at 1.
  fold (blocks (validated invalid block) l). rewrite IH.
  destruct (invalid x); reflexivity.
Qed.

Lemma titled_validated {A} title (invalid : A -> bool) (block : A -> string) (l : list A) :
  titled title (validated invalid block) l = valid_section title invalid block l.
Proof. unfold titled, valid_section. rewrite blocks_validated. reflexivity. Qed.

Lemma flat_map_complaint {A} (invalid : A -> bool) (msg : A -> string) (l : list A) :
  List.flat_map (complaint invalid msg) l = List.map msg (List.filter invalid l).
Proof.
  induction l as [|x l IH]; [reflexivity|].
  cbn [List.flat_map List.filter]. unfold complaint at 1. rewrite IH.
  destruct (invalid x); reflexivity.
Qed.

End PhaseFacts.

Module OutcomeFacts.
Import ExportContent ExportSpec ExportFacts.

Ltac outcome_cases :=
  rewrite summary_run; unfold expected, failed, stopped;
  repeat match goal with
    | |- context [Js.truthy_opt (key ?a ?b)] => destruct (Js.truthy_opt (key a b)) eqn:?
    | |- context [match ?x with Resolved _ => _ | Rejected _ => _ end] => destruct x eqn:?
    | |- context [valid ?v] => destruct (valid v) eqn:?
    | |- context [Js.truthy_opt (scope_error ?v)] =>
        destruct (Js.truthy_opt (scope_error v)) eqn:?
    | |- context [isSubscribed ?W ?c] => destruct (isSubscribed W c) eqn:?
    | |- context [Js.truthy_opt ?f] => is_var f; destruct (Js.truthy_opt f) eqn:?
    | _ => progress cbn [negb orb andb final_error final_isComplete final_sink final_warnings]
    | _ => progress cbv zeta
    end.

End OutcomeFacts.

(** X6. Whatever the world, a run sends at most one text to the sink. A run
    that ends with an error has written nothing, is marked complete and
    carries a non-empty message; a run that is complete without an error has
    written exactly one text. *)
Theorem run_writes_at_most_once
    (JSON_ : ExportContent.JSON) (W : ExportContent.World)
    (apiKey authToken file : option string) :
  List.length
    (ExportSpec.final_sink
       (ExportSpec.summary (ExportContent.run JSON_ W apiKey authToken file))) <= 1
  /\ (forall msg,
        ExportSpec.final_error
          (ExportSpec.summary (ExportContent.run JSON_ W apiKey authToken file)) = Some msg ->
        Js.truthy msg = true
        /\ ExportSpec.final_isComplete
             (ExportSpec.summary (ExportContent.run JSON_ W apiKey authToken file)) = true
        /\ ExportSpec.final_sink
             (ExportSpec.summary (ExportContent.run JSON_ W apiKey authToken file)) = [])
  /\ (ExportSpec.final_error
        (ExportSpec.summary (ExportContent.run JSON_ W apiKey authToken file)) = None ->
      ExportSpec.final_isComplete
        (ExportSpec.summary (ExportContent.run JSON_ W apiKey authToken file)) = true ->
      exists ev,
        ExportSpec.final_sink
          (ExportSpec.summary (ExportContent.run JSON_ W apiKey authToken file)) = [ev]).
Proof.
  split; [|split].
  - OutcomeFacts.outcome_cases; cbn; lia.
  - intros msg. OutcomeFacts.outcome_cases; intros [= <-]; auto.
  - OutcomeFacts.outcome_cases; try discriminate; eauto.
Qed.

(** X7. What the component shows once a run has ended. The error view
    carries the error of the run, and nothing was written then. The success
    view appears only when exactly one text reached the sink and there is no
    error; it names the file when one was given. The spinner stays only for
    a run that found the component unmounted at one of its checks. Each view
    lists the warnings of the run. *)
Theorem final_view_reflects_run
    (JSON_ : ExportContent.JSON) (W : ExportContent.World)
    (apiKey authToken file : option string) :
  match ExportView.render
          (ExportContent.state (ExportContent.run JSON_ W apiKey authToken file)) file with
  | ExportView.ErrorView msg ws =>
      ExportSpec.final_error
        (ExportSpec.summary (ExportContent.run JSON_ W apiKey authToken file)) = Some msg
      /\ ExportContent.sink (ExportContent.run JSON_ W apiKey authToken file) = []
      /\ ws = ExportContent.warnings
                (ExportContent.state (ExportContent.run JSON_ W apiKey authToken file))
  | ExportView.ProgressView _ ws =>
      (exists c, ExportContent.isSubscribed W c = false)
      /\ ws = ExportContent.warnings
                (ExportContent.state (ExportContent.run JSON_ W apiKey authToken file))
  | ExportView.SuccessView saved ws =>
      (exists ev, ExportContent.sink (ExportContent.run JSON_ W apiKey authToken file) = [ev])
      /\ ExportSpec.final_error
           (ExportSpec.summary (ExportContent.run JSON_ W apiKey authToken file)) = None
      /\ saved = (if Js.truthy_opt file then file else None)
      /\ ws = ExportContent.warnings
                (ExportContent.state (ExportContent.run JSON_ W apiKey authToken file))
  end.
Proof.
  unfold ExportView.render.
  change (ExportContent.error (ExportContent.state ?m))
    with (ExportSpec.final_error (ExportSpec.summary m)).
  change (ExportContent.isComplete (ExportContent.state ?m))
    with (ExportSpec.final_isComplete (ExportSpec.summary m)).
  change (ExportContent.sink ?m) with (ExportSpec.final_sink (ExportSpec.summary m)).
  generalize (ExportContent.warnings
                (ExportContent.state (ExportContent.run JSON_ W apiKey authToken file))).
  generalize (ExportContent.status
                (ExportContent.state (ExportContent.run JSON_ W apiKey authToken file))).
  intros st ws.
  OutcomeFacts.outcome_cases; cbn [Js.truthy_opt default negb];
    rewrite ?SanitizerFacts.truthy_append; cbn [Js.truthy orb negb];
    repeat split; eauto.
Qed.

(** X8. Once the Resources listing has resolved, no failing listing can
    abort the export: a validated run that stays mounted and whose sink
    takes the artifact ends complete and without error, whatever the
    relations, roles, user attributes, condition sets and condition set
    rules listings do. Each failure is one warning, in the order of the
    phases, and the artifact is written once. *)
Theorem listing_failures_after_resources_never_abort
    (JSON_ : ExportContent.JSON) (W : ExportContent.World)
    (apiKey authToken file : option string)
    (v : ExportContent.ScopeResult) (rs : list ExportContent.Resource) :
  Js.truthy_opt (ExportContent.key apiKey authToken) = true ->
  ExportSpec.validated_as W (ExportSpec.credential apiKey authToken) v ->
  (forall c, ExportContent.isSubscribed W c = true) ->
  ExportContent.resources_list
    (ExportContent.Permit W (ExportSpec.credential apiKey authToken)) = Resolved rs ->
  RunSpec.sink_accepts W file
    (ExportSpec.artifact JSON_ W (ExportContent.scope v)
       (ExportSpec.credential apiKey authToken) rs) ->
  let permit := ExportContent.Permit W (ExportSpec.credential apiKey authToken) in
  let m := ExportContent.run JSON_ W apiKey authToken file in
  ExportContent.error (ExportContent.state m) = None
  /\ ExportContent.isComplete (ExportContent.state m) = true
  /\ ExportContent.warnings (ExportContent.state m)
     = (ExportSpec.failure_warning "Failed to export resource relations: "
          (snd (ExportSpec.relations_outcome permit (ExportSpec.validResources_of rs))) ++
        ExportSpec.failure_warning "Failed to export roles: "
          (ExportSpec.rejection (ExportContent.roles_list permit)) ++
        ExportSpec.failure_warning "Failed to export user attributes: "
          (ExportSpec.rejection (ExportContent.resourceAttributes_list permit "__user")) ++
        ExportSpec.condition_sets_warnings JSON_ permit)%list
  /\ List.length (ExportContent.sink m) = 1.
Proof.
  intros Hkey Hv Hsub Hres Hsink permit m.
  pose proof (RunFacts.run_completes JSON_ W apiKey authToken file v rs
                Hkey Hv Hsub Hres Hsink) as H.
  change (ExportContent.error (ExportContent.state m))
    with (ExportSpec.final_error (ExportSpec.summary m)).
  change (ExportContent.isComplete (ExportContent.state m))
    with (ExportSpec.final_isComplete (ExportSpec.summary m)).
  change (ExportContent.warnings (ExportContent.state m))
    with (ExportSpec.final_warnings (ExportSpec.summary m)).
  change (ExportContent.sink m) with (ExportSpec.final_sink (ExportSpec.summary m)).
  subst m. rewrite H. repeat split.
Qed.

Lemma listing_failures_after_resources_never_abort_witness :
  ExportContent.error
    (ExportContent.state
       (ExportContent.run sample_JSON roles_down_world (Some "permit_key_abc") None None))
  = None
  /\ ExportContent.warnings
       (ExportContent.state
          (ExportContent.run sample_JSON roles_down_world (Some "permit_key_abc") None None))
     = [ "Failed to export roles: Error: 503 Service Unavailable";
         "Invalid user set data: vip-users" ].
Proof.
  destruct (listing_failures_after_resources_never_abort sample_JSON roles_down_world
              (Some "permit_key_abc") None None sample_scope sample_resources)
    as (He & _ & Hw & _).
  - reflexivity.
  - repeat split.
  - reflexivity.
  - reflexivity.
  - intros [=].
  - split; [exact He|]. rewrite Hw. vm_compute. reflexivity.
Defined.

(** X9. A write to the file that is rejected ends the run with the error
    [Failed to export configuration: ...]; the warnings collected by the
    phases stay, and nothing counts as written. *)
Theorem rejected_write_is_reported
    (JSON_ : ExportContent.JSON) (W : ExportContent.World)
    (apiKey authToken : option string) (path : string)
    (v : ExportContent.ScopeResult) (rs : list ExportContent.Resource) (e : Exn) :
  Js.truthy_opt (ExportContent.key apiKey authToken) = true ->
  ExportSpec.validated_as W (ExportSpec.credential apiKey authToken) v ->
  (forall c, ExportContent.isSubscribed W c = true) ->
  ExportContent.resources_list
    (ExportContent.Permit W (ExportSpec.credential apiKey authToken)) = Resolved rs ->
  Js.truthy path = true ->
  ExportContent.fs_writeFile W path
    (ExportSpec.artifact JSON_ W (ExportContent.scope v)
       (ExportSpec.credential apiKey authToken) rs) = Rejected e ->
  ExportSpec.summary (ExportContent.run JSON_ W apiKey authToken (Some path))
  = {| ExportSpec.final_error :=
         Some ("Failed to export configuration: " +:+
               (if instanceof_Error e then message e else String_of e));
       ExportSpec.final_isComplete := true;
       ExportSpec.final_warnings :=
         ExportSpec.guarded_warnings JSON_
           (ExportContent.Permit W (ExportSpec.credential apiKey authToken))
           (ExportSpec.validResources_of rs);
       ExportSpec.final_sink := [] |}.
Proof.
  intros Hkey (Hv & Hvalid & Herr) Hsub Hres Hpath Hwrite.
  rewrite ExportFacts.summary_run. unfold ExportSpec.expected, ExportSpec.failed.
  rewrite Hkey, Hv, Hvalid, Herr, Hres, !Hsub. cbn [negb orb Js.truthy_opt].
  change (default "" (Some path)) with path. cbv zeta.
  rewrite Hpath, Hwrite. reflexivity.
Qed.

Lemma rejected_write_is_reported_witness :
  ExportSpec.summary
    (ExportContent.run sample_JSON readonly_world (Some "permit_key_abc") None (Some "out.tf"))
  = {| ExportSpec.final_error :=
         Some "Failed to export configuration: EACCES: permission denied";
       ExportSpec.final_isComplete := true;
       ExportSpec.final_warnings :=
         [ "Failed to export roles: Error: 503 Service Unavailable";
           "Invalid user set data: vip-users" ];
       ExportSpec.final_sink := [] |}.
Proof.
  rewrite (rejected_write_is_reported sample_JSON readonly_world (Some "permit_key_abc") None
             "out.tf" sample_scope sample_resources (new_Error "EACCES: permission denied")).
  - vm_compute. reflexivity.
  - reflexivity.
  - repeat split.
  - reflexivity.
  - reflexivity.
  - reflexivity.
  - reflexivity.
Defined.

(** X10. A run that finds the component unmounted after the validation or
    before the write sends nothing to the sink, and it is not marked
    complete unless it ended with an error. *)
Theorem unmounted_run_writes_nothing
    (JSON_ : ExportContent.JSON) (W : ExportContent.World)
    (apiKey authToken file : option string) :
  ExportContent.isSubscribed W ExportContent.AfterValidation = false \/
  ExportContent.isSubscribed W ExportContent.BeforeSink = false ->
  ExportContent.sink (ExportContent.run JSON_ W apiKey authToken file) = []
  /\ (ExportContent.error
        (ExportContent.state (ExportContent.run JSON_ W apiKey authToken file)) = None ->
      ExportContent.isComplete
        (ExportContent.state (ExportContent.run JSON_ W apiKey authToken file)) = false).
Proof.
  change (ExportContent.error (ExportContent.state ?m))
    with (ExportSpec.final_error (ExportSpec.summary m)).
  change (ExportContent.isComplete (ExportContent.state ?m))
    with (ExportSpec.final_isComplete (ExportSpec.summary m)).
  change (ExportContent.sink ?m) with (ExportSpec.final_sink (ExportSpec.summary m)).
  intros Hun.
  OutcomeFacts.outcome_cases; split; auto; try discriminate;
    destruct Hun; congruence.
Qed.

Lemma unmounted_run_writes_nothing_witness :
  ExportContent.isSubscribed unmounted_world ExportContent.BeforeSink = false
  /\ ExportContent.sink
       (ExportContent.run sample_JSON unmounted_world (Some "permit_key_abc") None None)
     = []
  /\ ExportContent.warnings
       (ExportContent.state
          (ExportContent.run sample_JSON unmounted_world (Some "permit_key_abc") None None))
     = [ "Failed to export roles: Error: 503 Service Unavailable";
         "Invalid user set data: vip-users" ].
Proof.
  split; [reflexivity|]. split.
  - apply (unmounted_run_writes_nothing sample_JSON unmounted_world
             (Some "permit_key_abc") None None).
    right. reflexivity.
  - vm_compute. reflexivity.
Defined.

(** X11. The relations phase stops at the first resource whose relations
    listing is rejected: the relation blocks of the resources before it
    stay in the artifact, the resources after it are not asked for, and the
    phase ends normally with the one warning
    [Failed to export resource relations: ...]. *)
Theorem relations_phase_stops_at_first_rejection
    (permit : ExportContent.PermitApi)
    (before after : list ExportContent.Resource) (r : ExportContent.Resource) (e : Exn) :
  Forall (fun x =>
            ExportSpec.rejection
              (ExportContent.resourceRelations_list permit (ExportContent.resource_key x))
            = None) before ->
  ExportContent.resourceRelations_list permit (ExportContent.resource_key r) = Rejected e ->
  ExportSpec.runs (ExportContent.export_relations permit (before ++ r :: after)%list)
    (ExportContent.Normal tt)
    (blocks (PhaseSpec.relations_of permit) before)
    ["Failed to export resource relations: " +:+ String_of e].
Proof.
  intros Hbefore Hr.
  pose proof (ExportFacts.runs_export_relations permit (before ++ r :: after)%list) as H.
  rewrite (PhaseFacts.relations_outcome_until_rejection permit before r after e Hbefore Hr)
    in H.
  exact H.
Qed.

Lemma relations_phase_stops_at_first_rejection_witness :
  exists m,
    ExportContent.export_relations relations_down_api
      [plain_resource "folder"; plain_resource "document"; plain_resource "team"]
      ExportContent.initial
    = (ExportContent.Normal tt, m)
    /\ ExportContent.warnings (ExportContent.state m)
       = ["Failed to export resource relations: Error: 500 Internal Server Error"]
    /\ Js.includes (ExportContent.hcl m) "# Resource Relations for folder" = true
    /\ Js.includes (ExportContent.hcl m) "# Resource Relations for document" = false.
Proof.
  destruct (relations_phase_stops_at_first_rejection relations_down_api
              [plain_resource "folder"] [plain_resource "team"] (plain_resource "document")
              (new_Error "500 Internal Server Error")) with (m := ExportContent.initial)
    as (m & E & Ht & Hw & _).
  - repeat constructor.
  - reflexivity.
  - exists m. split; [exact E|]. rewrite Hw, Ht. repeat split; vm_compute; reflexivity.
Defined.

(** X12. The three validating loops of the exporter (user sets, resource
    sets, condition set rules). Each writes its title when the listing has a
    record of its kind, then the blocks of the valid records in the order
    of the listing; each invalid record is skipped with one warning that
    carries its JSON text; nothing is thrown. *)
Theorem invalid_records_are_skipped_with_one_warning (JSON_ : ExportContent.JSON) :
  (forall sets,
     ExportSpec.runs (ExportContent.export_user_sets JSON_ sets) (ExportContent.Normal tt)
       (PhaseSpec.valid_section "# User Sets" ExportContent.invalid_user_set
          (ExportContent.user_set_block JSON_)
          (List.filter ExportContent.is_userset sets))
       (List.map (fun set => "Invalid user set data: "
                             +:+ ExportContent.stringify_set JSON_ set)
          (List.filter ExportContent.invalid_user_set
             (List.filter ExportContent.is_userset sets))))
  /\ (forall sets,
        ExportSpec.runs (ExportContent.export_resource_sets JSON_ sets)
          (ExportContent.Normal tt)
          (PhaseSpec.valid_section "# Resource Sets" ExportContent.invalid_resource_set
             (ExportContent.resource_set_block JSON_)
             (List.filter ExportContent.is_resourceset sets))
          (List.map (fun set => "Invalid resource set data: "
                                +:+ ExportContent.stringify_set JSON_ set)
             (List.filter ExportContent.invalid_resource_set
                (List.filter ExportContent.is_resourceset sets))))
  /\ (forall permit rules,
        ExportContent.conditionSetRules_list permit "" "" "" = Resolved rules ->
        ExportSpec.runs (ExportContent.export_condition_set_rules JSON_ permit)
          (ExportContent.Normal tt)
          (PhaseSpec.valid_section "# Condition Set Rules" ExportContent.invalid_rule
             ExportContent.condition_set_rule_block rules)
          (List.map (fun rule => "Invalid condition set rule: "
                                 +:+ ExportContent.stringify_rule JSON_ rule)
             (List.filter ExportContent.invalid_rule rules))).
Proof.
  split; [|split].
  - intros sets. eapply ExportFacts.runs_eq; [apply ExportFacts.runs_export_user_sets | |].
    + apply PhaseFacts.titled_validated.
    + apply PhaseFacts.flat_map_complaint.
  - intros sets. eapply ExportFacts.runs_eq; [apply ExportFacts.runs_export_resource_sets | |].
    + apply PhaseFacts.titled_validated.
    + apply PhaseFacts.flat_map_complaint.
  - intros permit rules Hrules.
    eapply ExportFacts.runs_eq;
      [apply ExportFacts.runs_export_rules_resolved, Hrules | |].
    + apply PhaseFacts.titled_validated.
    + apply PhaseFacts.flat_map_complaint.
Qed.

(** ** More on the generator classes *)

Module GatherFacts.
Import Generator RoleDerivationGenerator GatherSpec.

Lemma gather_one_spec permit m r w :
  gather_one permit m r w
  = (Resolved (gather_step permit m r), (w ++ gather_warning permit r)%list).
Proof.
  unfold gather_one, gather_step, gather_warning, gatherable, gathered_data.
  destruct (Js.truthy (resource_key r)); cbn [negb andb];
    [|unfold ret; rewrite app_nil_r; reflexivity].
  unfold try_catch, bind, await, ret, addWarning.
  destruct (resourceRoles_list permit (resource_key r)) as [roles|e];
    [|reflexivity].
  destruct (resourceRelations_list permit (resource_key r)) as [rels|e];
    [|reflexivity].
  rewrite app_nil_r. reflexivity.
Qed.

Lemma gather_loop_spec permit rs m w :
  for_of rs m (gather_one permit) w
  = (Resolved (fold_left (gather_step permit) rs m),
     (w ++ List.flat_map (gather_warning permit) rs)%list).
Proof.
  revert m w. induction rs as [|r rs IH]; intros m w; cbn [for_of fold_left List.flat_map].
  - unfold ret. rewrite app_nil_r. reflexivity.
  - unfold bind. rewrite gather_one_spec, IH, <- app_assoc. reflexivity.
Qed.

Lemma gatherResourceData_spec permit w :
  gatherResourceData permit w
  = match resources_list permit with
    | Resolved rs =>
        (Resolved (fold_left (gather_step permit) rs []),
         (w ++ List.flat_map (gather_warning permit) rs)%list)
    | Rejected e =>
        (Resolved [], (w ++ ["Failed to gather resources: " +:+ String_of e])%list)
    end.
Proof.
  unfold gatherResourceData, try_catch, bind at 1, await.
  destruct (resources_list permit) as [rs|e]; [|reflexivity].
  rewrite gather_loop_spec. reflexivity.
Qed.

Lemma map_set_keys {V} (k : string) (v : V) (m : list (string * V)) :
  List.map fst (map_set k v m)
  = if existsb (String.eqb k) (List.map fst m) then List.map fst m
    else (List.map fst m ++ [k])%list.
Proof.
  induction m as [|[k' v'] m IH]; [reflexivity|].
  cbn [map_set List.map fst existsb]. rewrite (String.eqb_sym k k').
  destruct (String.eqb k' k) eqn:E; cbn [List.map fst orb].
  - apply String.eqb_eq in E as ->. reflexivity.
  - rewrite IH. destruct (existsb _ _); reflexivity.
Qed.

Lemma map_set_In {V} (k : string) (v : V) (m : list (string * V)) (entry : string * V) :
  In entry (map_set k v m) -> entry = (k, v) \/ In entry m.
Proof.
  induction m as [|[k' v'] m IH]; cbn [map_set].
  - intros [<-|[]]. auto.
  - destruct (String.eqb k' k).
    + intros [<-|H]; [auto | right; right; exact H].
    + intros [<-|H]; [right; left; reflexivity|].
      destruct (IH H); [auto | right; right; assumption].
Qed.

Lemma existsb_eqb_In (k : string) (l : list string) :
  existsb (String.eqb k) l = true <-> In k l.
Proof.
  rewrite List.existsb_exists. split.
  - intros (x & Hx & ->%String.eqb_eq). exact Hx.
  - intros H. exists k. split; [exact H | apply String.eqb_refl].
Qed.

Lemma map_set_NoDup {V} (k : string) (v : V) (m : list (string * V)) :
  NoDup (List.map fst m) -> NoDup (List.map fst (map_set k v m)).
Proof.
  intros H. rewrite map_set_keys. destruct (existsb _ _) eqn:E; [exact H|].
  apply NoDup_app. split; [exact H|]. split.
  - intros x Hx [->|[]]%list_elem_of_In. apply list_elem_of_In, existsb_eqb_In in Hx.
    congruence.
  - apply NoDup_singleton.
Qed.

Lemma listed_resolved {A} (r : Result (list A)) :
  ExportSpec.rejection r = None -> r = Resolved (ExportSpec.listed r).
Proof. destruct r; [reflexivity | discriminate]. Qed.

Lemma gatherable_resolved permit k :
  gatherable permit k = true ->
  resourceRoles_list permit k = Resolved (ExportSpec.listed (resourceRoles_list permit k))
  /\ resourceRelations_list permit k
     = Resolved (ExportSpec.listed (resourceRelations_list permit k)).
Proof.
  unfold gatherable.
  destruct (resourceRoles_list permit k), (resourceRelations_list permit k);
    try discriminate; auto.
Qed.

(** The invariant of the loop. *)
Lemma gather_fold_invariant permit rs m :
  NoDup (List.map fst m) -> List.Forall (faithful_entry permit) m ->
  NoDup (List.map fst (fold_left (gather_step permit) rs m))
  /\ List.Forall (faithful_entry permit) (fold_left (gather_step permit) rs m).
Proof.
  revert m. induction rs as [|r rs IH]; intros m Hm Hf; cbn [fold_left]; [auto|].
  apply IH; unfold gather_step;
    destruct (Js.truthy (resource_key r)) eqn:Ht; cbn [andb]; try assumption;
    destruct (gatherable permit (resource_key r)) eqn:Hg; try assumption.
  - apply map_set_NoDup, Hm.
  - apply List.Forall_forall. intros entry [->|Hin]%map_set_In.
    + destruct (gatherable_resolved _ _ Hg) as [Hroles Hrels].
      repeat split; assumption.
    + rewrite List.Forall_forall in Hf. apply Hf, Hin.
Qed.

Lemma gather_fold_keys permit rs m k :
  In k (List.map fst (fold_left (gather_step permit) rs m))
  <-> In k (List.map fst m)
      \/ exists r, In r rs /\ resource_key r = k /\ Js.truthy k = true
                   /\ gatherable permit k = true.
Proof.
  revert m. induction rs as [|r rs IH]; intros m; cbn [fold_left].
  - split; [auto | intros [H|(r & [] & _)]; exact H].
  - rewrite IH. unfold gather_step.
    destruct (Js.truthy (resource_key r) && gatherable permit (resource_key r)) eqn:E.
    + apply andb_prop in E as [Ht Hg]. rewrite map_set_keys.
      destruct (existsb _ _) eqn:Hex.
      * split.
        -- intros [H|(x & Hx & Hk)]; [auto | right; exists x; split; [right|]; auto].
        -- intros [H|(x & [<-|Hx] & Hk & Hrest)]; [auto| |right; eauto].
           left. subst k. apply existsb_eqb_In, Hex.
      * split.
        -- intros [[H|[<-|[]]]%List.in_app_or|(x & Hx & Hk)]; [auto| |].
           ++ right. exists r. split; [left; reflexivity|]. auto.
           ++ right. exists x. split; [right|]; auto.
        -- intros [H|(x & [<-|Hx] & Hk & Hrest)].
           ++ left. apply List.in_or_app. auto.
           ++ left. apply List.in_or_app. right. left. exact Hk.
           ++ right. eauto.
    + split.
      * intros [H|(x & Hx & Hk)]; [auto | right; exists x; split; [right|]; auto].
      * intros [H|(x & [<-|Hx] & Hk & Ht & Hg)]; [auto| |right; eauto].
        subst k. rewrite Ht, Hg in E. discriminate.
Qed.

Lemma gather_warning_length permit r : List.length (gather_warning permit r) <= 1.
Proof.
  unfold gather_warning. destruct (Js.truthy _); [|cbn; lia].
  destruct (resourceRoles_list permit _); [|cbn; lia].
  destruct (resourceRelations_list permit _); cbn; lia.
Qed.

Lemma flat_map_length_le {A B} (f : A -> list B) (l : list A) :
  (forall x, List.length (f x) <= 1) -> List.length (List.flat_map f l) <= List.length l.
Proof.
  intros Hf. induction l as [|x l IH]; cbn [List.flat_map List.length]; [lia|].
  rewrite List.length_app. specialize (Hf x). lia.
Qed.

End GatherFacts.

(** X13. [gatherResourceData] never throws. The map it returns holds each
    resource key once; an entry holds the roles and the relations that the
    two listings answer for its key; and a key is in the map exactly when a
    listed resource has it, it is not empty, and both its listings resolve.
    A resource is warned about at most once; when the resources listing
    itself is rejected the map is empty and there is the one warning
    [Failed to gather resources: ...]. *)
Theorem gatherResourceData_never_throws
    (permit : RoleDerivationGenerator.PermitApi) (w : list string) :
  exists m ws,
    RoleDerivationGenerator.gatherResourceData permit w = (Resolved m, (w ++ ws)%list)
    /\ NoDup (List.map fst m)
    /\ List.Forall (GatherSpec.faithful_entry permit) m
    /\ match RoleDerivationGenerator.resources_list permit with
       | Resolved rs =>
           (forall k,
              In k (List.map fst m)
              <-> exists r, In r rs /\ RoleDerivationGenerator.resource_key r = k
                            /\ Js.truthy k = true /\ GatherSpec.gatherable permit k = true)
           /\ ws = List.flat_map (GatherSpec.gather_warning permit) rs
           /\ List.length ws <= List.length rs
       | Rejected e =>
           m = [] /\ ws = ["Failed to gather resources: " +:+ String_of e]
       end.
Proof.
  rewrite GatherFacts.gatherResourceData_spec.
  destruct (RoleDerivationGenerator.resources_list permit) as [rs|e].
  - eexists _, _. split; [reflexivity|].
    destruct (GatherFacts.gather_fold_invariant permit rs [])
      as [Hnodup Hfaithful]; [constructor | constructor |].
    split; [exact Hnodup|]. split; [exact Hfaithful|]. split; [|split; [reflexivity|]].
    + intros k. rewrite GatherFacts.gather_fold_keys. cbn [List.map In]. tauto.
    + apply GatherFacts.flat_map_length_le, GatherFacts.gather_warning_length.
  - eexists _, _. split; [reflexivity|]. repeat split; constructor.
Qed.

(** X14. [generateHCL] of the role derivation generator never throws, and
    the warning of its outer handler, [Failed to generate role derivations],
    never appears: after the gathering, building the relation table cannot
    fail, because only relations with key, subject and object reach it. The
    text is the titled rendering of the derivations of the gathered map, or
    empty when there is none. *)
Theorem role_derivation_generateHCL_never_throws
    (permit : RoleDerivationGenerator.PermitApi)
    (template : list RoleDerivationGenerator.RoleDerivationData -> string)
    (w : list string) :
  exists m w1,
    RoleDerivationGenerator.gatherResourceData permit w = (Resolved m, w1)
    /\ RoleDerivationGenerator.generateHCL permit template w
       = (Resolved
            (let derivations :=
               List.flat_map (RoleDerivationSpec.derived m)
                 (RoleDerivationSpec.qualifying_grants m) in
             if ExportContent.nonempty derivations
             then nl +:+ "# Role Derivations" +:+ nl +:+ template derivations
             else ""),
          (w1 ++ List.flat_map (RoleDerivationSpec.warned m)
                   (RoleDerivationSpec.qualifying_grants m))%list).
Proof.
  pose proof (GatherFacts.gatherResourceData_spec permit w) as Hg.
  assert (exists m w1, RoleDerivationGenerator.gatherResourceData permit w = (Resolved m, w1))
    as (m & w1 & E).
  { rewrite Hg. destruct (RoleDerivationGenerator.resources_list permit); eauto. }
  exists m, w1. split; [exact E|].
  unfold RoleDerivationGenerator.generateHCL, Generator.try_catch, Generator.bind at 1.
  rewrite E. destruct m as [|entry m].
  - cbn. rewrite app_nil_r. reflexivity.
  - cbn [ExportContent.nonempty negb]. unfold Generator.bind.
    rewrite RoleDerivationFacts.generateDerivations_spec. cbv zeta.
    destruct (List.flat_map _ _); reflexivity.
Qed.

Module DerivationMoreFacts.
Import Generator RoleDerivationGenerator RoleDerivationSpec.

Lemma derived_or_warned resourceMap g :
  List.length (derived resourceMap g) + List.length (warned resourceMap g) = 1.
Proof. unfold derived, warned. destruct (resolve resourceMap g); reflexivity. Qed.

Lemma flat_map_lengths {A B C} (f : A -> list B) (h : A -> list C) (l : list A) :
  (forall x, List.length (f x) + List.length (h x) = 1) ->
  List.length (List.flat_map f l) + List.length (List.flat_map h l) = List.length l.
Proof.
  intros H. induction l as [|x l IH]; [reflexivity|].
  cbn [List.flat_map List.length]. rewrite !List.length_app. specialize (H x). lia.
Qed.

Lemma Forall_flat_map {A B} (P : B -> Prop) (f : A -> list B) (l : list A) :
  (forall x, List.Forall P (f x)) -> List.Forall P (List.flat_map f l).
Proof.
  intros H. induction l as [|x l IH]; cbn [List.flat_map]; [constructor|].
  apply List.Forall_app. auto.
Qed.

End DerivationMoreFacts.

(** X15. [generateDerivations] turns every grant rule that has a role, a
    resource and a relation into exactly one derivation or exactly one
    warning, in the order of the rules; nothing is merged, so two rules can
    yield two derivations with the same identifier. The identifier and the
    dependencies of a derivation are determined by its own fields. *)
Theorem every_grant_is_derived_or_warned
    (resourceMap : list (string * RoleDerivationGenerator.ResourceData))
    (w : list string) :
  exists derivations warnings,
    RoleDerivationGenerator.generateDerivations resourceMap w
    = (Resolved derivations, (w ++ warnings)%list)
    /\ List.length derivations + List.length warnings
       = List.length (RoleDerivationSpec.qualifying_grants resourceMap)
    /\ List.Forall
         (fun d =>
            RoleDerivationGenerator.id d
            = RoleDerivationGenerator.createDerivationId
                (RoleDerivationGenerator.derivation_role d)
                (RoleDerivationGenerator.to_role d)
            /\ RoleDerivationGenerator.dependencies d
               = [ "permitio_role." +:+ RoleDerivationGenerator.derivation_role d;
                   "permitio_resource." +:+ RoleDerivationGenerator.derivation_on_resource d;
                   "permitio_role." +:+ RoleDerivationGenerator.to_role d;
                   "permitio_resource." +:+ RoleDerivationGenerator.derivation_resource d;
                   "permitio_relation." +:+ RoleDerivationGenerator.linked_by d ])
         derivations.
Proof.
  eexists _, _. split; [apply RoleDerivationFacts.generateDerivations_spec|]. split.
  - apply DerivationMoreFacts.flat_map_lengths, DerivationMoreFacts.derived_or_warned.
  - apply DerivationMoreFacts.Forall_flat_map. intros g.
    unfold RoleDerivationSpec.derived.
    destruct (RoleDerivationSpec.resolve resourceMap g); repeat constructor.
Qed.

Module IdentifierFacts.

Lemma lower_sanitized_char (c : ascii) :
  Js.is_lower_ident_char
    (Js.lower_char (if Js.is_ident_char c then c else "_"%char)) = true.
Proof. FormatFacts.each_char c. Qed.

Lemma sanitized_lower_char (c : ascii) :
  Js.is_lower_ident_char
    (if Js.is_lower_ident_char (Js.lower_char c) then Js.lower_char c else "_"%char) = true.
Proof. FormatFacts.each_char c. Qed.

Lemma lower_char_idempotent (c : ascii) : Js.lower_char (Js.lower_char c) = Js.lower_char c.
Proof. FormatFacts.each_char c. Qed.

Lemma map_chars_map_chars f g (s : string) :
  Js.map_chars f (Js.map_chars g s) = Js.map_chars (fun c => f (g c)) s.
Proof. induction s as [|c s IH]; cbn; [reflexivity | rewrite IH; reflexivity]. Qed.

Lemma sanitizeId_lower (s : string) :
  Js.all_chars Js.is_lower_ident_char (RoleDerivationGenerator.sanitizeId s) = true.
Proof.
  unfold RoleDerivationGenerator.sanitizeId, Js.toLowerCase, Js.replace_non_ident.
  rewrite map_chars_map_chars. apply all_chars_map_chars. intros c.
  apply lower_sanitized_char.
Qed.

Lemma length_append (a b : string) :
  String.length (a +:+ b) = String.length a + String.length b.
Proof.
  induction a as [|c a IH]; [reflexivity|].
  change (S (String.length (a +:+ b)) = S (String.length a + String.length b)).
  rewrite IH. reflexivity.
Qed.

Lemma length_sanitizeId (s : string) :
  String.length (RoleDerivationGenerator.sanitizeId s) = String.length s.
Proof.
  unfold RoleDerivationGenerator.sanitizeId, Js.toLowerCase, Js.replace_non_ident.
  rewrite !SanitizerFacts.length_map_chars. reflexivity.
Qed.

End IdentifierFacts.


(** X17. For an attribute key of code units below 256, on which
    [toLowerCase] keeps the length, the resource key of a user attribute is
    [user_] followed by as many characters as the attribute key has, each a
    lower-case letter, a digit or an underscore; the case of the attribute
    key does not matter. *)
Theorem generateResourceKey_is_prefixed_lower_case_identifier (k : string) :
  Js.startsWith (UserAttributesGenerator.generateResourceKey k) "user_" = true
  /\ Js.all_chars Js.is_lower_ident_char (UserAttributesGenerator.generateResourceKey k)
     = true
  /\ String.length (UserAttributesGenerator.generateResourceKey k) = 5 + String.length k
  /\ UserAttributesGenerator.generateResourceKey (Js.toLowerCase k)
     = UserAttributesGenerator.generateResourceKey k.
Proof.
  unfold UserAttributesGenerator.generateResourceKey.
  split; [destruct (Js.replace_non_lower_ident _); reflexivity|]. split; [|split].
  - rewrite all_chars_app. cbn [Js.all_chars andb]. 
    change (Js.all_chars Js.is_lower_ident_char "user_") with true. cbn [andb].
    unfold Js.replace_non_lower_ident, Js.toLowerCase.
    rewrite IdentifierFacts.map_chars_map_chars. apply all_chars_map_chars.
    intros c. apply IdentifierFacts.sanitized_lower_char.
  - rewrite IdentifierFacts.length_append.
    unfold Js.replace_non_lower_ident, Js.toLowerCase.
    rewrite !SanitizerFacts.length_map_chars. reflexivity.
  - f_equal. f_equal. unfold Js.toLowerCase.
    rewrite IdentifierFacts.map_chars_map_chars.
    induction k as [|c k IH]; cbn [Js.map_chars]; [reflexivity|].
    rewrite IdentifierFacts.lower_char_idempotent, IH. reflexivity.
Qed.

Module UserAttributesMoreFacts.
Import Generator UserAttributesGenerator UserAttributesSpec.

Lemma getUserAttributes_outcome permit w :
  getUserAttributes permit w
  = match resources_get permit "__user" with
    | Rejected e =>
        (Rejected e, (w ++ ["Error fetching user attributes: " +:+ errorMessage e])%list)
    | Resolved r =>
        let attrs := List.filter kept (default [] (r ≫= attributes)) in
        (Resolved (List.map rendered attrs),
         (w ++ List.flat_map (fun entry => normalize_warnings (attribute_type (snd entry)))
                 attrs)%list)
    end.
Proof.
  destruct (resources_get permit "__user") as [r|e] eqn:E.
  - destruct (r ≫= attributes) as [attrs|] eqn:Ha.
    + destruct r as [r|]; [|discriminate]. cbn in Ha.
      rewrite (UserAttributesFacts.getUserAttributes_spec permit r attrs w E Ha).
      reflexivity.
    + unfold getUserAttributes, try_catch, bind, await. rewrite E, Ha.
      cbn. rewrite app_nil_r. reflexivity.
  - unfold getUserAttributes, try_catch, bind, await. rewrite E. reflexivity.
Qed.

End UserAttributesMoreFacts.

(** X18. [generateHCL] of the user attributes generator never throws (for
    a template that renders). A rejected fetch of the [__user] resource
    gives the empty text and two warnings, [Error fetching user attributes]
    and [Failed to export user attributes], with the same message. An
    absent resource, or one without an attribute to export, gives the empty
    text and no warning. A rendering that [trim] empties gives the empty
    text and the warning that the generated content is empty. Otherwise the
    text is the title followed by the rendering. The template gets the
    entries of [getUserAttributes], whose types and type warnings are those
    of [normalizeAttributeType]: for the types [constructor] and [__proto__]
    an inherited property and no warning. *)
Theorem user_attributes_generateHCL_outcomes
    (permit : UserAttributesGenerator.PermitApi)
    (template : list UserAttributesGenerator.UserAttributeData -> string)
    (w : list string) :
  UserAttributesGenerator.generateHCL permit template w
  = match UserAttributesGenerator.resources_get permit "__user" with
    | Rejected e =>
        (Resolved "",
         (w ++ [ "Error fetching user attributes: "
                   +:+ UserAttributesGenerator.errorMessage e;
                 "Failed to export user attributes: "
                   +:+ UserAttributesGenerator.errorMessage e ])%list)
    | Resolved r =>
        let attrs :=
          List.filter UserAttributesSpec.kept
            (default [] (r ≫= UserAttributesGenerator.attributes)) in
        let type_warnings :=
          List.flat_map
            (fun entry => UserAttributesSpec.normalize_warnings
                            (UserAttributesGenerator.attribute_type (snd entry))) attrs in
        let content := template (List.map UserAttributesSpec.rendered attrs) in
        if ExportContent.nonempty attrs
        then
          if Js.truthy (FormatDescription.trim content)
          then (Resolved (nl +:+ "# User Attributes" +:+ nl +:+ content),
                (w ++ type_warnings)%list)
          else (Resolved "",
                (w ++ type_warnings
                   ++ ["Failed to export user attributes: Generated HCL content is empty"])
                %list)
        else (Resolved "", w)
    end.
Proof.
  unfold UserAttributesGenerator.generateHCL, Generator.try_catch, Generator.bind at 1.
  rewrite UserAttributesMoreFacts.getUserAttributes_outcome.
  destruct (UserAttributesGenerator.resources_get permit "__user") as [r|e].
  - cbv zeta. rewrite FormatFacts.truthy_trim.
    destruct (List.filter _ _) as [|entry attrs].
    + cbn. rewrite app_nil_r. reflexivity.
    + cbn [List.map ExportContent.nonempty negb].
      destruct (UserAttributesGenerator.trims_to_empty _); cbn [negb].
      * unfold Generator.throw, Generator.bind, Generator.addWarning, Generator.ret.
        rewrite <- app_assoc. reflexivity.
      * reflexivity.
  - unfold Generator.bind, Generator.addWarning, Generator.ret.
    rewrite <- app_assoc. reflexivity.
Qed.

(** X19. [normalizeAttributeType] on every type name. When the lower-cased
    name is [constructor] or [__proto__], it returns the property that
    [typeMap] inherits under that name, which is not a string, and adds no
    warning. For every other name it returns one of the five types [string],
    [number], [bool], [array] and [json], with the one warning
    [Unknown attribute type] exactly when the lower-cased name is none of
    the eight keys of the table; and it returns each of those five types
    unchanged and without a warning. *)
Theorem normalizeAttributeType_outcomes (t : string) (w : list string) :
  exists v ws,
    UserAttributesGenerator.normalizeAttributeType t w = (Resolved v, (w ++ ws)%list)
    /\ (In (Js.toLowerCase t) ["constructor"; "__proto__"] ->
        v = UserAttributesGenerator.Inherited (Js.toLowerCase t) /\ ws = [])
    /\ (~ In (Js.toLowerCase t) ["constructor"; "__proto__"] ->
        exists ty,
          v = UserAttributesGenerator.TypeName ty
          /\ In ty ["string"; "number"; "bool"; "array"; "json"]
          /\ UserAttributesGenerator.normalizeAttributeType ty w
             = (Resolved (UserAttributesGenerator.TypeName ty), w)
          /\ (ws = [] <->
              In (Js.toLowerCase t)
                ["string"; "number"; "boolean"; "bool"; "array"; "object"; "json"; "time"])
          /\ (ws = []
              \/ ws = ["Unknown attribute type: " +:+ t +:+ ", using 'string' as default"])).
Proof.
  eexists _, _. split; [apply UserAttributesFacts.normalizeAttributeType_spec|].
  unfold UserAttributesSpec.normalized, UserAttributesSpec.normalize_warnings.
  assert (UserAttributesSpec.inherits t = true
          <-> In (Js.toLowerCase t) ["constructor"; "__proto__"]) as Hin.
  { unfold UserAttributesSpec.inherits. cbn [existsb In].
    rewrite orb_false_r, orb_true_iff, !String.eqb_eq.
    split; [intros [->| ->]; auto | intros [<-|[<-|[]]]; auto]. }
  destruct (UserAttributesSpec.inherits t).
  - split; [auto|]. intros Hnot. destruct Hnot. apply Hin. reflexivity.
  - split; [intros H%Hin; discriminate|]. intros _. clear Hin.
    exists (UserAttributesSpec.specified_type t).
    split; [reflexivity|].
    unfold UserAttributesSpec.specified_type, UserAttributesSpec.type_warnings.
    generalize (Js.toLowerCase t). intros k.
    unfold UserAttributesSpec.specified_types, UserAttributesSpec.assoc.
    repeat match goal with
      | |- context [String.eqb ?a k] =>
          let E := fresh "E" in
          destruct (String.eqb a k) eqn:E;
            [apply String.eqb_eq in E; subst k | apply String.eqb_neq in E]
      end;
      cbn [default from_option id];
      (split; [cbn [In]; auto 10|]); (split; [vm_compute; reflexivity|]);
      (split; [|auto]);
      (split; [intros H; first [discriminate H | cbn [In]; auto 10]
              | first [reflexivity
                      | intros [?|[?|[?|[?|[?|[?|[?|[?|[]]]]]]]]]; congruence]]).
Qed.

(** ** The editions of the condition set rules generator *)

Module FetchMoreFacts.
Import Generator ConditionSetGenerator FetchSpec.

Section Fetch.
Variable permit : PermitApi.

Lemma fetch_page_full (s : FetchState) (p : list ConditionSetRule) :
  conditionSetRules_list permit (page_params (currentPage s)) = Resolved p ->
  full_page p = true ->
  fetch_page permit s
  = Resolved {| allConditionSetRules := (allConditionSetRules s ++ p)%list;
                currentPage := S (currentPage s);
                hasMoreResults := hasMoreResults s;
                requests := (requests s ++ [page_params (currentPage s)])%list |}.
Proof.
  intros Hp Hfull. unfold fetch_page. rewrite Hp, (FetchFacts.full_page_nonempty p Hfull).
  unfold full_page in Hfull. apply negb_true_iff in Hfull. rewrite Hfull. reflexivity.
Qed.

(** The loop does not end while full pages keep coming. *)
Lemma fetch_all_endless (fuel : nat) :
  forall s : FetchState,
    hasMoreResults s = true ->
    (forall n, exists p, conditionSetRules_list permit (page_params n) = Resolved p
                         /\ full_page p = true) ->
    fetch_all permit fuel s = None.
Proof.
  induction fuel as [|fuel IH]; intros s Hmore Hfull.
  - cbn [fetch_all]. rewrite Hmore. reflexivity.
  - cbn [fetch_all]. rewrite Hmore.
    destruct (Hfull (currentPage s)) as (p & Hp & Hp').
    rewrite (fetch_page_full s p Hp Hp'). apply IH; [exact Hmore | exact Hfull].
Qed.

(** A rejected page ends the loop with that rejection. *)
Lemma fetch_all_rejected (pages : list (list ConditionSetRule)) (e : Exn) :
  forall (s : FetchState) (fuel : nat),
    forallb full_page pages = true ->
    hasMoreResults s = true ->
    (forall i p, pages !! i = Some p ->
       conditionSetRules_list permit (page_params (currentPage s + i)) = Resolved p) ->
    conditionSetRules_list permit (page_params (currentPage s + List.length pages))
    = Rejected e ->
    List.length pages < fuel ->
    fetch_all permit fuel s = Some (Rejected e).
Proof.
  induction pages as [|p pages IH]; intros s fuel Hfull Hmore Hserved Hrej Hfuel.
  - destruct fuel as [|fuel]; [cbn in Hfuel; lia|].
    cbn [fetch_all]. rewrite Hmore. unfold fetch_page.
    cbn [List.length] in Hrej. rewrite Nat.add_0_r in Hrej. rewrite Hrej. reflexivity.
  - destruct fuel as [|fuel]; [cbn in Hfuel; lia|].
    cbn [forallb] in Hfull. apply andb_prop in Hfull as [Hp Hfull].
    cbn [fetch_all]. rewrite Hmore.
    rewrite (fetch_page_full s p); [| |exact Hp].
    2:{ rewrite <- (Nat.add_0_r (currentPage s)). apply Hserved. reflexivity. }
    apply IH; cbn [currentPage hasMoreResults]; auto.
    + intros i q Hq. rewrite Nat.add_succ_comm. apply Hserved. exact Hq.
    + rewrite Nat.add_succ_comm. exact Hrej.
    + cbn [List.length] in Hfuel. lia.
Qed.

End Fetch.

End FetchMoreFacts.

(** X20. [processConditionSetRule] never throws and never warns. It
    skips a rule exactly when the rule names an autogenerated user set that
    is not among the fetched user sets, or an autogenerated resource set
    that is not among the fetched resource sets. A rule it keeps is handed
    on with its user set, resource set and permission as they are, and with
    the key made of their identifiers. *)
Theorem processConditionSetRule_skips_exactly_unknown_autogenerated_sets
    (rule : ConditionSetRules.ConditionSetRule)
    (availableUserSets availableResourceSets : gset string) (w : list string) :
  exists out,
    ConditionSetGenerator.processConditionSetRule rule availableUserSets availableResourceSets w
    = (Resolved out, w)
    /\ (out = None <->
        (Js.startsWith (ConditionSetRules.user_set rule) "__autogen_" = true
         /\ ConditionSetRules.user_set rule ∉ availableUserSets)
        \/ (Js.startsWith (ConditionSetRules.resource_set rule) "__autogen_" = true
            /\ ConditionSetRules.resource_set rule ∉ availableResourceSets))
    /\ (forall data, out = Some data ->
          ConditionSetRules.userSet data = ConditionSetRules.user_set rule
          /\ ConditionSetRules.resourceSet data = ConditionSetRules.resource_set rule
          /\ ConditionSetRules.permission data = ConditionSetRules.rule_permission rule
          /\ ConditionSetRules.key data
             = ConditionSetRules.ruleKey (ConditionSetRules.user_set rule)
                 (ConditionSetRules.resource_set rule)
                 (ConditionSetRules.rule_permission rule)
          /\ ConditionSetRules.isAutogenerated data
             = Js.startsWith (ConditionSetRules.user_set rule) "__autogen_"
               || Js.startsWith (ConditionSetRules.resource_set rule) "__autogen_").
Proof.
  eexists. split; [apply ConditionSetFacts.processConditionSetRule_spec|].
  unfold ConditionSetSpec.processed.
  destruct (Js.startsWith (ConditionSetRules.user_set rule) "__autogen_") eqn:Hu;
    destruct (Js.startsWith (ConditionSetRules.resource_set rule) "__autogen_") eqn:Hr;
    cbn [andb orb];
    destruct (bool_decide (ConditionSetRules.user_set rule ∈ availableUserSets)) eqn:Eu;
    destruct (bool_decide (ConditionSetRules.resource_set rule ∈ availableResourceSets))
      eqn:Er;
    cbn [negb];
    try apply bool_decide_eq_true in Eu; try apply bool_decide_eq_false in Eu;
    try apply bool_decide_eq_true in Er; try apply bool_decide_eq_false in Er;
    (split; [split; [try discriminate; auto | intros [[? ?]|[? ?]]; try discriminate;
                                               try reflexivity; try contradiction]
            | intros data [= <-]; repeat split; try discriminate]).
Qed.

(** X21. When a page of condition set rules cannot be fetched, the rules
    of the pages fetched before it are dropped: the generator returns the
    empty text with the one warning
    [Failed to export condition set rules: ...]. *)
Theorem rejected_page_discards_fetched_rules
    (permit : ConditionSetRules.PermitApi)
    (template : list ConditionSetRules.ConditionSetRuleData -> string)
    (pages : list (list ConditionSetRules.ConditionSetRule)) (e : Exn) (fuel : nat) :
  forallb FetchSpec.full_page pages = true ->
  (forall i p, pages !! i = Some p ->
     ConditionSetRules.conditionSetRules_list permit
       (ConditionSetGenerator.page_params (S i)) = Resolved p) ->
  ConditionSetRules.conditionSetRules_list permit
    (ConditionSetGenerator.page_params (S (List.length pages))) = Rejected e ->
  List.length pages < fuel ->
  exists run,
    ConditionSetGenerator.generateHCL permit template fuel = Some run
    /\ forall w,
         run w = (Resolved "",
                  (w ++ ["Failed to export condition set rules: " +:+ String_of e])%list).
Proof.
  intros Hfull Hserved Hrej Hfuel. unfold ConditionSetGenerator.generateHCL.
  rewrite (FetchMoreFacts.fetch_all_rejected permit pages e
             ConditionSetGenerator.fetch_start fuel); auto.
  eexists. split; [reflexivity|]. intros w. reflexivity.
Qed.

Lemma rejected_page_discards_fetched_rules_witness :
  exists run,
    ConditionSetGenerator.generateHCL broken_page_api resource_sets_template 2 = Some run
    /\ run [] = (Resolved "", ["Failed to export condition set rules: Error: 502 Bad Gateway"]).
Proof.
  destruct (rejected_page_discards_fetched_rules broken_page_api resource_sets_template
              [List.repeat sample_rule 100] (new_Error "502 Bad Gateway") 2)
    as (run & E & Hrun).
  - reflexivity.
  - intros [|i] p [= <-]. reflexivity.
  - reflexivity.
  - cbn. lia.
  - exists run. split; [exact E|]. rewrite Hrun. reflexivity.
Defined.

(** X22. The fetch loop has no bound of its own: against a source that
    answers every page request with a full page, it is still running after
    any number of turns, and [generateHCL] does not return. *)
Theorem fetch_loop_runs_on_while_pages_are_full
    (permit : ConditionSetRules.PermitApi)
    (template : list ConditionSetRules.ConditionSetRuleData -> string) :
  (forall n, exists p,
     ConditionSetRules.conditionSetRules_list permit (ConditionSetGenerator.page_params n)
     = Resolved p
     /\ FetchSpec.full_page p = true) ->
  forall fuel,
    ConditionSetGenerator.fetch_all permit fuel ConditionSetGenerator.fetch_start = None
    /\ ConditionSetGenerator.generateHCL permit template fuel = None.
Proof.
  intros Hfull fuel.
  assert (ConditionSetGenerator.fetch_all permit fuel ConditionSetGenerator.fetch_start = None)
    as E by (apply FetchMoreFacts.fetch_all_endless; [reflexivity | exact Hfull]).
  split; [exact E|]. unfold ConditionSetGenerator.generateHCL. rewrite E. reflexivity.
Qed.

Lemma fetch_loop_runs_on_while_pages_are_full_witness :
  ConditionSetGenerator.fetch_all endless_api 1000 ConditionSetGenerator.fetch_start = None
  /\ ConditionSetGenerator.generateHCL endless_api resource_sets_template 1000 = None.
Proof.
  apply (fetch_loop_runs_on_while_pages_are_full endless_api resource_sets_template).
  intros n. exists (List.repeat sample_rule 100). split; reflexivity.
Defined.

(** X23. The paginated generator as a whole. When the pages are served as
    in C6, [generateHCL] returns. If the condition sets listing is then
    rejected, the result is the empty text and one warning, even when there
    is no rule at all. Otherwise no warning is added, and the text is the
    titled rendering of the rules of all the pages, in order, that
    [processConditionSetRule] keeps, or empty when it keeps none. *)
Theorem paginated_generator_renders_rules_of_all_pages
    (permit : ConditionSetRules.PermitApi)
    (template : list ConditionSetRules.ConditionSetRuleData -> string)
    (pages : list (list ConditionSetRules.ConditionSetRule)) (fuel : nat) :
  FetchSpec.well_paged pages = true ->
  (forall i p, pages !! i = Some p ->
     ConditionSetRules.conditionSetRules_list permit
       (ConditionSetGenerator.page_params (S i)) = Resolved p) ->
  List.length pages <= fuel ->
  exists run,
    ConditionSetGenerator.generateHCL permit template fuel = Some run
    /\ forall w,
         run w
         = match ConditionSetRules.conditionSets_list permit with
           | Rejected e =>
               (Resolved "",
                (w ++ ["Failed to export condition set rules: " +:+ String_of e])%list)
           | Resolved sets =>
               let valid :=
                 omap (fun rule =>
                         ConditionSetSpec.processed rule
                           (ConditionSetGenerator.keys_of_type "userset" sets)
                           (ConditionSetGenerator.keys_of_type "resourceset" sets))
                   (List.concat pages) in
               (Resolved (if ExportContent.nonempty valid
                          then nl +:+ "# Condition Set Rules" +:+ nl +:+ template valid
                          else ""), w)
           end.
Proof.
  intros Hpaged Hserved Hfuel.
  destruct (FetchFacts.fetch_all_pages permit pages ConditionSetGenerator.fetch_start fuel)
    as (s & Hfetch & Hall & _); auto.
  unfold ConditionSetGenerator.generateHCL. rewrite Hfetch.
  eexists. split; [reflexivity|]. intros w.
  unfold Generator.try_catch, Generator.bind at 1, Generator.await.
  rewrite Hall. cbn [app ConditionSetGenerator.allConditionSetRules
                     ConditionSetGenerator.fetch_start].
  destruct (ConditionSetRules.conditionSets_list permit) as [sets|e] eqn:Hsets.
  - rewrite (ConditionSetFacts.render_rules_spec permit template _ sets w Hsets).
    cbv zeta. destruct (List.concat pages); reflexivity.
  - unfold ConditionSetGenerator.render_rules, Generator.bind at 1, Generator.await.
    rewrite Hsets. reflexivity.
Qed.

Lemma paginated_generator_renders_rules_of_all_pages_witness :
  exists run,
    ConditionSetGenerator.generateHCL sample_paged_api
      (fun rules => Js.join "," (List.map ConditionSetRules.permission (take 2 rules))) 3
    = Some run
    /\ run [] = (Resolved (nl +:+ "# Condition Set Rules" +:+ nl +:+ "doc:read,doc:read"), []).
Proof.
  destruct (paginated_generator_renders_rules_of_all_pages sample_paged_api
              (fun rules => Js.join "," (List.map ConditionSetRules.permission (take 2 rules)))
              sample_pages 3)
    as (run & E & Hrun).
  - reflexivity.
  - intros [|[|[|i]]] p [= <-]; reflexivity.
  - cbn. lia.
  - exists run. split; [exact E|]. rewrite Hrun. vm_compute. reflexivity.
Defined.

Module EditionFacts.
Import Generator.

Lemma process_rule_spec us rule w :
  ConditionSetGeneratorSinglePage.process_rule us rule w
  = (Resolved (if SinglePageSpec.dangling us rule then None
               else Some (SinglePageSpec.rendered rule)),
     (w ++ (if SinglePageSpec.dangling us rule then [SinglePageSpec.skip_warning rule]
            else []))%list).
Proof.
  unfold ConditionSetGeneratorSinglePage.process_rule, SinglePageSpec.dangling, try_catch.
  destruct (_ && _); [reflexivity|]. unfold ret. rewrite app_nil_r. reflexivity.
Qed.

Lemma omap_filter {A B} (skip : A -> bool) (f : A -> B) (l : list A) :
  omap id (List.map (fun x => if skip x then None else Some (f x)) l)
  = List.map f (List.filter (fun x => negb (skip x)) l).
Proof.
  induction l as [|x l IH]; [reflexivity|]. cbn [List.map List.filter].
  destruct (skip x); cbn; rewrite <- IH; reflexivity.
Qed.

Lemma flat_map_filter {A B} (skip : A -> bool) (f : A -> B) (l : list A) :
  List.flat_map (fun x => if skip x then [f x] else []) l
  = List.map f (List.filter skip l).
Proof.
  induction l as [|x l IH]; [reflexivity|]. cbn [List.flat_map List.filter].
  destruct (skip x); cbn; rewrite IH; reflexivity.
Qed.

Lemma filter_partition_length {A} (p : A -> bool) (l : list A) :
  List.length (List.filter (fun x => negb (p x)) l) + List.length (List.filter p l)
  = List.length l.
Proof.
  induction l as [|x l IH]; [reflexivity|]. cbn [List.filter].
  destruct (p x); cbn [negb List.length]; lia.
Qed.

Lemma validRules_spec rules us w :
  ConditionSetGeneratorSinglePage.validRules rules us w
  = (Resolved (List.map SinglePageSpec.rendered
                 (List.filter (fun rule => negb (SinglePageSpec.dangling us rule)) rules)),
     (w ++ List.map SinglePageSpec.skip_warning
             (List.filter (SinglePageSpec.dangling us) rules))%list).
Proof.
  unfold ConditionSetGeneratorSinglePage.validRules, bind.
  rewrite (GeneratorFacts.map_G_resolved _
             (fun rule => if SinglePageSpec.dangling us rule then None
                          else Some (SinglePageSpec.rendered rule))
             (fun rule => if SinglePageSpec.dangling us rule
                          then [SinglePageSpec.skip_warning rule] else []))
    by (intros; apply process_rule_spec).
  unfold ret. rewrite omap_filter, flat_map_filter. reflexivity.
Qed.

Lemma prefix_append (p s : string) : String.prefix p (p +:+ s) = true.
Proof.
  induction p as [|c p IH]; [destruct s; reflexivity|].
  change (String.prefix (String c p) (String c (p +:+ s)) = true).
  cbn [String.prefix]. destruct (ascii_dec c c); [exact IH | congruence].
Qed.

Lemma drop_append (p s : string) :
  ConditionSetGeneratorWildcard.drop (String.length p) (p +:+ s) = s.
Proof.
  induction p as [|c p IH]; [reflexivity|].
  change (ConditionSetGeneratorWildcard.drop (S (String.length p)) (String c (p +:+ s)) = s).
  exact IH.
Qed.

Lemma replace_first_prefix (p r s : string) :
  ConditionSetGeneratorWildcard.replace_first p r (p +:+ s) = r +:+ s.
Proof.
  destruct (p +:+ s) eqn:E;
    cbn [ConditionSetGeneratorWildcard.replace_first]; rewrite <- E;
    rewrite prefix_append, drop_append; reflexivity.
Qed.

Lemma prefix_nil (s : string) : String.prefix "" s = true.
Proof. destruct s; reflexivity. Qed.

Lemma replace_first_absent (p r s : string) :
  Js.includes s p = false -> ConditionSetGeneratorWildcard.replace_first p r s = s.
Proof.
  induction s as [|c s IH]; cbn [Js.includes ConditionSetGeneratorWildcard.replace_first].
  - rewrite orb_false_r. intros ->. reflexivity.
  - intros [Hp Hs]%orb_false_elim. rewrite Hp, (IH Hs). reflexivity.
Qed.

Lemma wildcard_to_data_spec rule w :
  ConditionSetGeneratorWildcard.to_data rule w = (Resolved (Some (WildcardSpec.rendered rule)), w).
Proof. reflexivity. Qed.

Lemma wildcard_validRules_spec rules w :
  ConditionSetGeneratorWildcard.validRules rules w
  = (Resolved (List.map WildcardSpec.rendered rules), w).
Proof.
  unfold ConditionSetGeneratorWildcard.validRules, bind.
  rewrite (GeneratorFacts.map_G_resolved _ (fun rule => Some (WildcardSpec.rendered rule))
             (fun _ => []))
    by (intros; rewrite app_nil_r; apply wildcard_to_data_spec).
  unfold ret. rewrite ExportFacts.flat_map_no_warnings, app_nil_r.
  f_equal. f_equal. induction rules as [|x l IH]; cbn; [reflexivity|].
  rewrite IH. reflexivity.
Qed.

Lemma replace_non_ident_append (a b : string) :
  Js.replace_non_ident (a +:+ b) = Js.replace_non_ident a +:+ Js.replace_non_ident b.
Proof.
  unfold Js.replace_non_ident. induction a as [|c a IH]; [reflexivity|].
  change (String c a +:+ b) with (String c (a +:+ b)). cbn [Js.map_chars].
  rewrite IH. reflexivity.
Qed.

End EditionFacts.

(** X24. The single-page edition asks for one page of a hundred rules and
    for the condition sets; a rejection of either gives the empty text and
    the one warning [Failed to export condition set rules: ...]. Otherwise
    each rule goes either to the template or to the warnings, never to both
    and never to neither: the rules whose user set is autogenerated and is
    not the key of a fetched condition set, of whatever type, are skipped
    with one warning each that names the user set, and all the others are
    rendered in order. The resource set of a rule plays no part in the
    choice. *)
Theorem single_page_edition_renders_or_warns
    (permit : ConditionSetRules.PermitApi)
    (template : list ConditionSetRules.ConditionSetRuleData -> string)
    (w : list string) :
  ConditionSetGeneratorSinglePage.generateHCL permit template w
  = match ConditionSetRules.conditionSetRules_list permit
            ConditionSetGeneratorSinglePage.params,
          ConditionSetRules.conditionSets_list permit with
    | Rejected e, _ | Resolved _, Rejected e =>
        (Resolved "",
         (w ++ ["Failed to export condition set rules: " +:+ String_of e])%list)
    | Resolved rules, Resolved sets =>
        let known : gset string := list_to_set (List.map ConditionSetRules.set_key sets) in
        let valid :=
          List.map SinglePageSpec.rendered
            (List.filter (fun rule => negb (SinglePageSpec.dangling known rule)) rules) in
        let skipped :=
          List.map
            (fun rule => "Skipping condition set rule referencing non-existent user set: "
                         +:+ ConditionSetRules.user_set rule)
            (List.filter (SinglePageSpec.dangling known) rules) in
        (Resolved (if ExportContent.nonempty valid
                   then nl +:+ "# Condition Set Rules" +:+ nl +:+ template valid
                   else ""),
         (w ++ skipped)%list)
    end
  /\ (forall (rules : list ConditionSetRules.ConditionSetRule) (known : gset string),
        List.length
          (List.filter (fun rule => negb (SinglePageSpec.dangling known rule)) rules)
        + List.length (List.filter (SinglePageSpec.dangling known) rules)
        = List.length rules).
Proof.
  split; [|intros; apply EditionFacts.filter_partition_length].
  unfold ConditionSetGeneratorSinglePage.generateHCL, Generator.try_catch,
    Generator.bind at 1, Generator.await.
  destruct (ConditionSetRules.conditionSetRules_list permit _) as [rules|e];
    [|reflexivity].
  unfold Generator.bind at 1.
  destruct (ConditionSetRules.conditionSets_list permit) as [sets|e]; [|reflexivity].
  cbv zeta. destruct rules as [|rule rules].
  - cbn. rewrite app_nil_r. reflexivity.
  - cbn [ExportContent.nonempty negb]. unfold Generator.bind.
    rewrite EditionFacts.validRules_spec.
    destruct (List.map SinglePageSpec.rendered _); reflexivity.
Qed.

(** X25. The wildcard edition asks for the rules with [*] in the three
    required fields and renders every rule it gets, in order and without a
    warning. The key of an entry is [allow_] followed by its resource set,
    so rules on the same resource set get the same key whatever their user
    set and permission are; the user set loses the first [__autogen_] it
    holds, a leading one in particular. *)
Theorem wildcard_edition_keys_rules_by_resource_set
    (permit : ConditionSetGeneratorWildcard.PermitApi)
    (template : list ConditionSetGeneratorWildcard.ConditionSetRuleData -> string)
    (w : list string) :
  ConditionSetGeneratorWildcard.generateHCL permit template w
  = match ConditionSetGeneratorWildcard.conditionSetRules_list permit "*" "*" "*" with
    | Rejected e =>
        (Resolved "",
         (w ++ ["Failed to export condition set rules: " +:+ String_of e])%list)
    | Resolved rules =>
        (Resolved (if ExportContent.nonempty rules
                   then nl +:+ "# Condition Set Rules" +:+ nl
                        +:+ template (List.map WildcardSpec.rendered rules)
                   else ""), w)
    end
  /\ (forall rule,
        ConditionSetGeneratorWildcard.key (WildcardSpec.rendered rule)
        = "allow_" +:+ ConditionSetGeneratorWildcard.resourceSet (WildcardSpec.rendered rule))
  /\ (forall name,
        ConditionSetGeneratorWildcard.replace_first "__autogen_" "" ("__autogen_" +:+ name)
        = name)
  /\ (forall name,
        Js.includes name "__autogen_" = false ->
        ConditionSetGeneratorWildcard.replace_first "__autogen_" "" name = name).
Proof.
  split; [|split; [|split]].
  - unfold ConditionSetGeneratorWildcard.generateHCL, Generator.try_catch,
      Generator.bind at 1, Generator.await.
    destruct (ConditionSetGeneratorWildcard.conditionSetRules_list permit "*" "*" "*")
      as [rules|e]; [|reflexivity].
    destruct rules as [|rule rules]; [reflexivity|].
    cbn [ExportContent.nonempty negb]. unfold Generator.bind.
    rewrite EditionFacts.wildcard_validRules_spec. reflexivity.
  - intros rule. cbn [WildcardSpec.rendered ConditionSetGeneratorWildcard.key
                      ConditionSetGeneratorWildcard.resourceSet].
    rewrite !createSafeId_single, EditionFacts.replace_non_ident_append. reflexivity.
  - intros name. apply (EditionFacts.replace_first_prefix "__autogen_" "" name).
  - intros name. apply EditionFacts.replace_first_absent.
Qed.

(** ** Credentials and errors of a run *)

Module CredentialFacts.
Import ExportContent.

Lemma run_depends_on_key JSON_ W apiKey authToken apiKey' authToken' file :
  key apiKey authToken = key apiKey' authToken' ->
  run JSON_ W apiKey authToken file = run JSON_ W apiKey' authToken' file.
Proof. intros H. unfold run, exportConfig. rewrite H. reflexivity. Qed.

End CredentialFacts.

(** X26. The credential of a run is the [--key] option when it is given
    and not empty, and the login token otherwise. With a key, the token is
    not looked at; without one, the run is the run that has the token as its
    key. With neither, the run ends with the error [No API key provided ...]
    before anything is asked of the world. *)
Theorem explicit_key_takes_precedence_over_login
    (JSON_ : ExportContent.JSON) (W : ExportContent.World) (file : option string) :
  (forall k authToken authToken',
     Js.truthy k = true ->
     ExportContent.run JSON_ W (Some k) authToken file
     = ExportContent.run JSON_ W (Some k) authToken' file)
  /\ (forall apiKey authToken,
        Js.truthy_opt apiKey = false ->
        ExportContent.run JSON_ W apiKey authToken file
        = ExportContent.run JSON_ W authToken None file)
  /\ (forall apiKey authToken W',
        Js.truthy_opt apiKey = false -> Js.truthy_opt authToken = false ->
        ExportContent.run JSON_ W apiKey authToken file
        = ExportContent.run JSON_ W' apiKey authToken file
        /\ ExportSpec.summary (ExportContent.run JSON_ W apiKey authToken file)
           = {| ExportSpec.final_error :=
                  Some "No API key provided. Please provide a key or login first.";
                ExportSpec.final_isComplete := true;
                ExportSpec.final_warnings := [];
                ExportSpec.final_sink := [] |}).
Proof.
  split; [|split].
  - intros k t t' Hk. apply CredentialFacts.run_depends_on_key.
    unfold ExportContent.key. cbn [Js.truthy_opt]. rewrite Hk. reflexivity.
  - intros a t Ha. destruct (Js.truthy_opt t) eqn:Ht.
    + apply CredentialFacts.run_depends_on_key.
      unfold ExportContent.key. rewrite Ha, Ht. reflexivity.
    + unfold ExportContent.run, ExportContent.exportConfig, ExportContent.key.
      rewrite Ha, Ht. reflexivity.
  - intros a t W' Ha Ht.
    assert (Js.truthy_opt (ExportContent.key a t) = false) as Hkey
      by (unfold ExportContent.key; rewrite Ha; exact Ht).
    split.
    + unfold ExportContent.run, ExportContent.exportConfig. rewrite Hkey. reflexivity.
    + rewrite ExportFacts.summary_run. unfold ExportSpec.expected. rewrite Hkey. reflexivity.
Qed.

(** X27. Every error a run can end with names its origin. It is
    [No API key provided ...] when there is no credential;
    [Invalid API key: ...] with the error of the scope check ([null] when
    there is none) when the check does not pass; and
    [Failed to export configuration: ...] with the message of the rejection
    when the scope check, the Resources listing or the write to the file is
    rejected. No other step of the run can set the error. *)
Theorem every_error_names_its_origin
    (JSON_ : ExportContent.JSON) (W : ExportContent.World)
    (apiKey authToken file : option string) (msg : string) :
  ExportContent.error
    (ExportContent.state (ExportContent.run JSON_ W apiKey authToken file)) = Some msg ->
  (Js.truthy_opt (ExportContent.key apiKey authToken) = false
   /\ msg = "No API key provided. Please provide a key or login first.")
  \/ (exists v,
        ExportContent.validateApiKeyScope W (ExportSpec.credential apiKey authToken)
          "environment" = Resolved v
        /\ (ExportContent.valid v = false
            \/ Js.truthy_opt (ExportContent.scope_error v) = true)
        /\ msg = "Invalid API key: " +:+ default "null" (ExportContent.scope_error v))
  \/ (exists e,
        msg = "Failed to export configuration: "
              +:+ (if instanceof_Error e then message e else String_of e)
        /\ (ExportContent.validateApiKeyScope W (ExportSpec.credential apiKey authToken)
              "environment" = Rejected e
            \/ ExportContent.resources_list
                 (ExportContent.Permit W (ExportSpec.credential apiKey authToken))
               = Rejected e
            \/ exists text,
                 Js.truthy_opt file = true
                 /\ ExportContent.fs_writeFile W (default "" file) text = Rejected e)).
Proof.
  change (ExportContent.error (ExportContent.state ?m))
    with (ExportSpec.final_error (ExportSpec.summary m)).
  rewrite ExportFacts.summary_run.
  unfold ExportSpec.expected, ExportSpec.failed, ExportSpec.stopped, ExportSpec.errorMsg.
  destruct (Js.truthy_opt (ExportContent.key apiKey authToken)); cbn [negb];
    [|intros [= <-]; auto].
  destruct (ExportContent.validateApiKeyScope W _ "environment") as [v|e] eqn:Hv.
  2:{ destruct (ExportContent.isSubscribed W ExportContent.InCatch);
        intros [= <-]. right; right. exists e. auto. }
  destruct (ExportContent.valid v) eqn:Hvalid; cbn [negb orb];
    [|intros [= <-]; right; left; exists v; auto].
  destruct (Js.truthy_opt (ExportContent.scope_error v)) eqn:Herr;
    [intros [= <-]; right; left; exists v; auto|].
  destruct (ExportContent.isSubscribed W ExportContent.AfterValidation);
    cbn [negb]; [|intros [=]].
  destruct (ExportContent.resources_list _) as [rs|e] eqn:Hres.
  2:{ destruct (ExportContent.isSubscribed W ExportContent.InCatch);
        intros [= <-]. right; right. exists e. auto. }
  cbv zeta.
  destruct (ExportContent.isSubscribed W ExportContent.BeforeSink);
    cbn [negb]; [|intros [=]].
  destruct (Js.truthy_opt file) eqn:Hfile; [|intros [=]].
  destruct (ExportContent.fs_writeFile W _ _) as [u|e] eqn:Hw; [intros [=]|].
  destruct (ExportContent.isSubscribed W ExportContent.InCatch); intros [= <-].
  right; right. exists e. split; [reflexivity|]. right; right. eauto.
Qed.

Lemma every_error_names_its_origin_witness :
  ExportContent.error
    (ExportContent.state
       (ExportContent.run sample_JSON readonly_world (Some "permit_key_abc") None
          (Some "out.tf")))
  = Some "Failed to export configuration: EACCES: permission denied"
  /\ exists text,
       ExportContent.fs_writeFile readonly_world "out.tf" text
       = Rejected (new_Error "EACCES: permission denied").
Proof.
  assert (ExportContent.error
            (ExportContent.state
               (ExportContent.run sample_JSON readonly_world (Some "permit_key_abc") None
                  (Some "out.tf")))
          = Some "Failed to export configuration: EACCES: permission denied") as E
    by (vm_compute; reflexivity).
  split; [exact E|].
  destruct (every_error_names_its_origin _ _ _ _ _ _ E)
    as [[Hk _]|[(v & Hv & [Hvalid|Herr] & _)|(e & _ & [Hv|[Hres|(text & _ & Hw)]])]].
  - discriminate Hk.
  - injection Hv as <-. discriminate Hvalid.
  - injection Hv as <-. discriminate Herr.
  - discriminate Hv.
  - discriminate Hres.
  - exists text. reflexivity.
Defined.
